(** * BagBot: risk gate, sell pipelines and liquidity monitor

    A shallow embedding of the TypeScript scripts of the BagBot trading
    agent, and the properties of its specification checked against them.

    Modelling conventions.
    - JavaScript numbers that the scripts read from JSON are exact
      rationals ([Q]); rounding and overflow of IEEE doubles are not
      modelled, except for the one power a script converts to a BigInt,
      whose range is spelled out at [scaleDefined].  The non-finite values a division or [parseFloat] can
      produce are kept apart in [jsnum], with the comparison rules of
      JavaScript (every comparison with NaN is false).
    - Network calls, the clock and the chain are inputs: each script is a
      function of the answers the outside world gives it.
    - Console messages are kept as their leading sign, their fixed text
      and the external strings interpolated into them; numbers printed
      with [toFixed] cannot contain a sign and are left out. *)

From Stdlib Require Import String Ascii List ZArith QArith Bool Arith Lia.
From Stdlib Require Import Lqa Permutation.
Import ListNotations.
Open Scope string_scope.
Open Scope Q_scope.

(* ------------------------------------------------------------------ *)
(** * JavaScript numbers                                                *)
(* ------------------------------------------------------------------ *)

Inductive jsnum : Type :=
| Num (q : Q)
| PosInf
| NegInf
| NaN.

Coercion Num : Q >-> jsnum.

Definition Qltb (a b : Q) : bool := negb (Qle_bool b a).

(** [a / b] on finite operands, with the results JavaScript gives for a
    zero divisor. *)
Definition js_div (a b : Q) : jsnum :=
  if Qeq_bool b 0
  then (if Qeq_bool a 0 then NaN else if Qltb 0 a then PosInf else NegInf)
  else Num (a / b).

Definition js_lt (x y : jsnum) : bool :=
  match x, y with
  | NaN, _ | _, NaN => false
  | Num a, Num b => Qltb a b
  | NegInf, NegInf => false
  | NegInf, _ => true
  | _, NegInf => false
  | PosInf, _ => false
  | Num _, PosInf => true
  end.

Definition js_le (x y : jsnum) : bool :=
  match x, y with
  | NaN, _ | _, NaN => false
  | Num a, Num b => Qle_bool a b
  | NegInf, _ => true
  | _, NegInf => false
  | _, PosInf => true
  | PosInf, Num _ => false
  end.

Definition js_gt (x y : jsnum) : bool := js_lt y x.
Definition js_ge (x y : jsnum) : bool := js_le y x.

Definition is_finite (x : jsnum) : bool :=
  match x with Num _ => true | _ => false end.

(** [x || 0] on an optional JSON number: absent, null and 0 all give 0. *)
Definition or0 (x : option Q) : Q :=
  match x with Some q => if Qeq_bool q 0 then 0 else q | None => 0 end.

(** [sells > 0 ? buys / sells : buys], the expression every script uses
    for a buy/sell ratio. *)
Definition buySellRatio (buys sells : Q) : jsnum :=
  if Qltb 0 sells then js_div buys sells else Num buys.

(* ------------------------------------------------------------------ *)
(** * Strings                                                           *)
(* ------------------------------------------------------------------ *)

Definition lower_ascii (c : ascii) : ascii :=
  let n := nat_of_ascii c in
  if (65 <=? n)%nat && (n <=? 90)%nat then ascii_of_nat (n + 32) else c.

Fixpoint toLowerCase (s : string) : string :=
  match s with
  | EmptyString => EmptyString
  | String c r => String (lower_ascii c) (toLowerCase r)
  end.

Definition endsWith (s suffix : string) : bool :=
  let n := String.length s in
  let k := String.length suffix in
  (k <=? n)%nat && String.eqb (substring (n - k) k s) suffix.

Fixpoint includes (s sub : string) : bool :=
  prefix sub s ||
  match s with
  | EmptyString => false
  | String _ r => includes r sub
  end.

(** JavaScript truthiness of an optional string: null, undefined and the
    empty string are falsy. *)
Definition truthy (o : option string) : bool :=
  match o with
  | Some s => negb (String.eqb s "")
  | None => false
  end.

(** [x || null] on an optional string. *)
Definition or_null (o : option string) : option string :=
  if truthy o then o else None.

(* ------------------------------------------------------------------ *)
(** * Console messages                                                  *)
(* ------------------------------------------------------------------ *)

(** The sign a message template starts with. *)
Inductive Icon : Type :=
| IconOk      (* the check mark *)
| IconWarn    (* the warning sign *)
| IconFail.   (* the cross *)

Definition warn_sign : string := "⚠️".
Definition fail_sign : string := "❌".

Record Message : Type := mkMessage {
  icon : Icon;
  text : string;            (* the fixed text, holes written {x} *)
  interp : list string      (* external strings put into the holes *)
}.

Definition is_warn (i : Icon) : bool :=
  match i with IconWarn => true | _ => false end.
Definition is_fail (i : Icon) : bool :=
  match i with IconFail => true | _ => false end.

(** [message.includes(sign)]: the template's own sign, or the sign
    occurring inside an interpolated external string. *)
Definition includes_warn (m : Message) : bool :=
  is_warn (icon m) || existsb (fun s => includes s warn_sign) (interp m).
Definition includes_fail (m : Message) : bool :=
  is_fail (icon m) || existsb (fun s => includes s fail_sign) (interp m).

Inductive Verdict : Type := ALLOW | WARN | BLOCK.

(* ------------------------------------------------------------------ *)
(** * Results and exceptions                                            *)
(* ------------------------------------------------------------------ *)

Inductive result (A : Type) : Type :=
| Ok (a : A)
| Threw (e : string).
Arguments Ok {A} a.
Arguments Threw {A} e.

Definition try_catch {A} (body : result A) (handler : string -> result A)
  : result A :=
  match body with
  | Ok a => Ok a
  | Threw e => handler e
  end.

(* ------------------------------------------------------------------ *)
(** * Market snapshot (DexScreener)                                     *)
(* ------------------------------------------------------------------ *)

Record Counts : Type := mkCounts { buys : Q; sells : Q }.

Record Txns : Type := mkTxns {
  t_h1 : Counts; t_h6 : Counts; t_h24 : Counts; t_m5 : Counts
}.

Record Windows : Type := mkWindows {
  w_h1 : Q; w_h6 : Q; w_h24 : Q; w_m5 : Q
}.

(** [TokenData], the value [getTokenData] builds (all numbers defaulted
    with [|| 0]).  The legacy checklist declares [txns] with the h1 and
    h24 windows only and reads no other. *)
Record TokenData : Type := mkTokenData {
  symbol : string;
  name : string;
  priceUsd : string;
  priceChange : Windows;
  volume : Windows;
  liquidity : option Q;
  mcap : Q;
  pairCreatedAt : Q;
  dexId : string;
  txns : Txns
}.

(** [getPoolAgeHours], with [Date.now()] passed in (milliseconds). *)
Definition getPoolAgeHours (now createdAt : Q) : Q :=
  if Qeq_bool createdAt 0 then 0
  else (now - createdAt) / (1000 * 60 * 60).

(* ------------------------------------------------------------------ *)
(** * Pre-trade checklist V2 (trade-checklist-v2.ts)                    *)
(* ------------------------------------------------------------------ *)

Module ChecklistV2.

Record Creator : Type := mkCreator {
  twitterUsername : option string;
  twitterPfpUrl : option string;
  twitterDisplayName : option string;
  githubUsername : option string;
  royaltyBps : Q;
  walletAddress : string
}.

(** A creator as the SDK returns it, before the conversion. *)
Record RawCreator : Type := mkRawCreator {
  rc_twitterUsername : option string;
  rc_twitterPfpUrl : option string;
  rc_twitterDisplayName : option string;
  rc_githubUsername : option string;
  rc_feeBps : option Q;
  rc_royaltyBps : option Q;
  rc_walletAddress : option string
}.

Record DevVerification : Type := mkDevVerification {
  verified : bool;
  creators : list Creator;
  lifetimeFees : Q;
  message : Message
}.

(** One entry of [Promise.allSettled]. *)
Inductive settled (A : Type) : Type :=
| fulfilled (value : A)
| rejected.
Arguments fulfilled {A} value.
Arguments rejected {A}.

(** The value of the lifetime-fees promise: a number, or anything else. *)
Inductive FeesValue : Type :=
| FeesNumber (q : Q)
| FeesOther.

(** What the SDK path meets.  [SdkThrows] is an exception anywhere in the
    [try] block: a failing import, an unreadable credentials file, a mint
    that is no public key.  Rejected SDK calls do not throw: they are
    collected by [Promise.allSettled]. *)
Inductive SdkOutcome : Type :=
| SdkThrows (e : string)
| SdkSettled (creatorsResult : settled (option (list RawCreator)))
             (feesResult : settled (option FeesValue)).

(** What the fallback request meets: the request throws, or answers with
    [res.data?.results] absent, a list, or something that is no array (on
    which [filter] throws). *)
Inductive FallbackOutcome : Type :=
| FbThrows (e : string)
| FbResults (results : option (list Creator))
| FbNotArray.

Record DevEnv : Type := mkDevEnv {
  sdk : SdkOutcome;
  fallback : FallbackOutcome
}.

Definition convertCreator (c : RawCreator) : Creator :=
  {| twitterUsername := or_null (rc_twitterUsername c);
     twitterPfpUrl := or_null (rc_twitterPfpUrl c);
     twitterDisplayName := or_null (rc_twitterDisplayName c);
     githubUsername := or_null (rc_githubUsername c);
     royaltyBps :=
       (let fee := or0 (rc_feeBps c) in
        if Qeq_bool fee 0 then or0 (rc_royaltyBps c) else fee);
     walletAddress :=
       match rc_walletAddress c with Some w => w | None => "" end |}.

Definition hasSocials (c : Creator) : bool :=
  truthy (twitterUsername c) || truthy (githubUsername c).

Definition handle (c : Creator) : string :=
  if truthy (twitterUsername c)
  then "@" ++ match twitterUsername c with Some s => s | None => "" end
  else "GH:" ++ match githubUsername c with Some s => s | None => "null" end.

Definition msgApiError : Message :=
  mkMessage IconWarn "Could not verify dev (API error)" [].

Definition apiErrorResult : DevVerification :=
  {| verified := false; creators := []; lifetimeFees := 0;
     message := msgApiError |}.

(** The [try] block of [verifyDev]. *)
Definition verifyDev_sdk (env : DevEnv) : result DevVerification :=
  match sdk env with
  | SdkThrows e => Threw e
  | SdkSettled creatorsResult feesResult =>
      let rawCreators :=
        match creatorsResult with
        | fulfilled (Some l) => l
        | fulfilled None => []
        | rejected => []
        end in
      let creators := map convertCreator rawCreators in
      let lifetimeFees :=
        match feesResult with
        | fulfilled (Some (FeesNumber q)) => q / 1000000000
        | _ => 0
        end in
      let verifiedCreators := filter hasSocials creators in
      let verified := (0 <? List.length verifiedCreators)%nat in
      let message :=
        if verified
        then mkMessage IconOk
               "DEV VERIFIED: {handles} | Lifetime fees: {lifetimeFees} SOL"
               (map handle verifiedCreators)
        else mkMessage IconFail
               "LESSON #15: NO VERIFIED DEV - {n} creator(s) but no socials!"
               [] in
      Ok {| verified := verified; creators := creators;
            lifetimeFees := lifetimeFees; message := message |}
  end.

(** The inner [try] block: the direct API. *)
Definition verifyDev_fallback (env : DevEnv) : result DevVerification :=
  match fallback env with
  | FbThrows e => Threw e
  | FbNotArray => Threw "TypeError: creators.filter is not a function"
  | FbResults results =>
      let creators := match results with Some l => l | None => [] end in
      let verifiedCreators := filter hasSocials creators in
      let verified := (0 <? List.length verifiedCreators)%nat in
      let message :=
        if verified
        then mkMessage IconOk "DEV VERIFIED: {handles}"
               (map handle verifiedCreators)
        else mkMessage IconFail "LESSON #15: NO VERIFIED DEV" [] in
      Ok {| verified := verified; creators := creators;
            lifetimeFees := 0; message := message |}
  end.

Definition verifyDev (mint : string) (env : DevEnv) : result DevVerification :=
  try_catch (verifyDev_sdk env)
    (fun _ => try_catch (verifyDev_fallback env)
                (fun _ => Ok apiErrorResult)).

(** [isActiveDump]: the result is the pair (dumping, message). *)
Definition isActiveDump (txns : Txns) (priceChange : Windows)
  : bool * Message :=
  let m5Buys := buys (t_m5 txns) in
  let m5Sells := sells (t_m5 txns) in
  let m5Ratio := buySellRatio m5Buys m5Sells in
  let m5Change := w_m5 priceChange in
  if js_lt m5Ratio 0.5 && Qltb m5Change (-5)
  then (true, mkMessage IconFail
                "ACTIVE DUMP: m5 ratio {m5Ratio}:1, price {m5Change}%" [])
  else if js_lt m5Ratio 0.8 && Qltb m5Change (-10)
  then (true, mkMessage IconWarn
                "Sell pressure: m5 ratio {m5Ratio}:1, price {m5Change}%" [])
  else (false, mkMessage IconOk
                 "m5 ratio: {m5Ratio}:1, price {m5Change}%" []).

Record Check : Type := mkCheck {
  name : string;
  status : bool;
  msg : Message;
  critical : bool
}.

Definition isBags (token : TokenData) (mint : string) : bool :=
  String.eqb (dexId token) "bags" || endsWith (toLowerCase mint) "bags".

Definition msgDontChase : Message :=
  mkMessage IconFail "LESSON #14: +{h1}% h1 - DON'T CHASE PUMPS!" [].
Definition msgH1Risky : Message :=
  mkMessage IconWarn "+{h1}% h1 - significant move, timing risky" [].
Definition msgH1Ok : Message :=
  mkMessage IconOk "h1 change: {h1}% (reasonable entry)" [].
Definition msgPumpTrap : Message :=
  mkMessage IconFail
    "LESSON #15: {h24Ratio}:1 ratio WITHOUT verified dev = PUMP TRAP!" [].

(** The nine checks, in the order [runChecklist] pushes them. *)
Definition buildChecks (mint : string) (entryAmount : jsnum)
    (token : TokenData) (devInfo : DevVerification) : list Check :=
  let isBags := isBags token mint in
  let h1Pump := Qltb 100 (w_h1 (priceChange token)) in
  let h24Ratio :=
    buySellRatio (buys (t_h24 (txns token))) (sells (t_h24 (txns token))) in
  let h1Ratio :=
    buySellRatio (buys (t_h1 (txns token))) (sells (t_h1 (txns token))) in
  let ratioTrap := js_gt h24Ratio 10 && negb (verified devInfo) in
  let ratioBearish := js_lt h1Ratio 0.5 in
  let dumpCheck := isActiveDump (txns token) (priceChange token) in
  let volumeOk := Qle_bool 5000 (w_h24 (volume token)) in
  let volMcapRatio :=
    if Qltb 0 (mcap token)
    then js_div (w_h24 (volume token)) (mcap token) else Num 0 in
  let sizeOk := js_ge entryAmount 0.2 && js_le entryAmount 1.0 in
  let h24Pump := Qltb 300 (w_h24 (priceChange token)) in
  [ mkCheck "BAGS Ecosystem" isBags
      (if isBags
       then mkMessage IconOk "BAGS token (dexId: {dexId})" [dexId token]
       else mkMessage IconFail
              "NOT a BAGS token - BagBot ONLY trades BAGS ecosystem!" [])
      true;
    mkCheck "Dev Verification" (verified devInfo) (message devInfo) true;
    mkCheck "H1 Pump Check" (negb h1Pump)
      (if h1Pump then msgDontChase
       else if Qltb 50 (w_h1 (priceChange token)) then msgH1Risky
       else msgH1Ok)
      h1Pump;
    mkCheck "Buy/Sell Ratio" (negb ratioTrap && negb ratioBearish)
      (if ratioTrap then msgPumpTrap
       else if ratioBearish
       then mkMessage IconWarn
              "h1 ratio {h1Ratio}:1 - more sellers than buyers" []
       else mkMessage IconOk "h24: {h24Ratio}:1 | h1: {h1Ratio}:1" [])
      ratioTrap;
    mkCheck "M5 Momentum" (negb (fst dumpCheck)) (snd dumpCheck)
      (fst dumpCheck && includes_fail (snd dumpCheck));
    mkCheck "Volume" volumeOk
      (if volumeOk
       then mkMessage IconOk "24h Volume: ${volume}" []
       else mkMessage IconWarn "24h Volume: ${volume} (low activity)" [])
      false;
    mkCheck "Vol/MCap" (js_gt volMcapRatio 0.5)
      (if js_gt volMcapRatio 2
       then mkMessage IconOk "Vol/MCap: {volMcapRatio}x (highly active)" []
       else if js_gt volMcapRatio 0.5
       then mkMessage IconOk "Vol/MCap: {volMcapRatio}x (healthy)" []
       else mkMessage IconWarn "Vol/MCap: {volMcapRatio}x (low activity)" [])
      false;
    mkCheck "Position Size" sizeOk
      (if js_lt entryAmount 0.2
       then mkMessage IconFail
              "LESSON #23: {entryAmount} SOL too small. Use 0.2-0.3 SOL standard."
              []
       else if js_gt entryAmount 1.0
       then mkMessage IconFail "Position {entryAmount} SOL exceeds max (1 SOL)" []
       else mkMessage IconOk "Position size: {entryAmount} SOL" [])
      (negb sizeOk);
    mkCheck "H24 Pump Check" (negb h24Pump)
      (if h24Pump
       then mkMessage IconWarn "+{h24}% h24 - already moved significantly" []
       else mkMessage IconOk "h24 change: {h24}%" [])
      false ].

(** The summary loop: the two counters after the checks [cs]. *)
Fixpoint tally (cs : list Check) (criticalFails warnings : nat) : nat * nat :=
  match cs with
  | [] => (criticalFails, warnings)
  | check :: rest =>
      let criticalFails :=
        if negb (status check) && critical check
        then S criticalFails else criticalFails in
      let warnings :=
        if negb (status check) && negb (critical check)
        then S warnings else warnings in
      tally rest criticalFails warnings
  end.

(** The closing [if]: which of the three banners is printed. *)
Definition verdictOf (criticalFails warnings : nat) : Verdict :=
  if (0 <? criticalFails)%nat then BLOCK
  else if (0 <? warnings)%nat then WARN
  else ALLOW.

Definition summarize (cs : list Check) : Verdict :=
  let (criticalFails, warnings) := tally cs 0%nat 0%nat in
  verdictOf criticalFails warnings.

Record Report : Type := mkReport {
  ageShown : Q;             (* the "Age: ... hours" line *)
  checks : list Check;
  verdict : Verdict
}.

(** What the script meets: the clock, the snapshot [getTokenData] returns
    (null on any failure) and the verification services. *)
Record World : Type := mkWorld {
  now : Q;
  tokenData : option TokenData;
  dev : DevEnv
}.

(** [runChecklist]: [Ok None] is the early return after "Could not fetch
    token data. Aborting."; no banner is printed then. *)
Definition runChecklist (w : World) (mint : string) (entryAmount : jsnum)
  : result (option Report) :=
  match verifyDev mint (dev w) with
  | Threw e => Threw e
  | Ok devInfo =>
      match tokenData w with
      | None => Ok None
      | Some token =>
          let cs := buildChecks mint entryAmount token devInfo in
          Ok (Some {| ageShown := getPoolAgeHours (now w) (pairCreatedAt token);
                      checks := cs;
                      verdict := summarize cs |})
      end
  end.

End ChecklistV2.

(* ------------------------------------------------------------------ *)
(** * Pre-trade checklist, legacy (trade-checklist.ts)                  *)
(* ------------------------------------------------------------------ *)

Module ChecklistV1.

(** The wall clock the script reads: the hour of the day in Los Angeles
    ([parseInt] of the formatted hour) and [Date.now()] in milliseconds. *)
Record Clock : Type := mkClock {
  pstHour : Z;
  nowMs : Q
}.

Definition msgOutsideHours : Message :=
  mkMessage IconFail
    "LESSON #26: Trading hours are 9 AM - 10 PM PST. Current: {hour}:00 PST" [].
Definition msgHoursOk : Message :=
  mkMessage IconOk "Trading hours OK ({hour}:00 PST)" [].

(** [isTradinghours]: the pair (ok, message). *)
Definition isTradinghours (clock : Clock) : bool * Message :=
  let hour := pstHour clock in
  if (hour <? 9)%Z || (22 <=? hour)%Z
  then (false, msgOutsideHours)
  else (true, msgHoursOk).

Record Check : Type := mkCheck {
  name : string;
  status : bool;
  msg : Message
}.

Definition isBags (token : TokenData) (mint : string) : bool :=
  String.eqb (dexId token) "bags" || endsWith (toLowerCase mint) "bags".

Definition msgPumpTrap : Message :=
  mkMessage IconFail
    "LESSON #15: Buy ratio {buyRatio}:1 TOO HIGH - coordinated pump trap!" [].
Definition msgDontChase : Message :=
  mkMessage IconFail "LESSON #14: +{h24}% 24h - DON'T CHASE PUMPS!" [].
Definition msgAlreadyMoved : Message :=
  mkMessage IconWarn "+{h24}% 24h - already moved significantly" [].

Definition hoursCheck (clock : Clock) : Check :=
  let timeCheck := isTradinghours clock in
  mkCheck "Trading Hours" (fst timeCheck) (snd timeCheck).

(** Checks 2 to 8, in the order [runChecklist] pushes them. *)
Definition tokenChecks (clock : Clock) (mint : string) (entryAmount : jsnum)
    (token : TokenData) : list Check :=
  let isBags := isBags token mint in
  let ageHours := getPoolAgeHours (nowMs clock) (pairCreatedAt token) in
  let ageOk := isBags || Qle_bool 24 ageHours in
  let volumeOk := Qle_bool 10000 (w_h24 (volume token)) in
  let buyRatio :=
    buySellRatio (buys (t_h24 (txns token))) (sells (t_h24 (txns token))) in
  let ratioOk := js_ge buyRatio 1.0 && js_le buyRatio 10 in
  let volMcapRatio :=
    if Qltb 0 (mcap token)
    then js_div (w_h24 (volume token)) (mcap token) else Num 0 in
  let impactOk := js_gt volMcapRatio 0.1 in
  let isChasing := Qltb 500 (w_h24 (priceChange token)) in
  let sizeOk := js_ge entryAmount 0.2 && js_le entryAmount 1.0 in
  [ mkCheck "BAGS Ecosystem" isBags
      (if isBags
       then mkMessage IconOk "BAGS token (dexId: {dexId})" [dexId token]
       else mkMessage IconFail
              "NOT a BAGS token (dexId: {dexId}) - BagBot only trades BAGS ecosystem!"
              [dexId token]);
    mkCheck "Pool Age" (ageOk || Qle_bool 6 ageHours)
      (if Qle_bool 24 ageHours
       then mkMessage IconOk "Pool age: {ageHours}h (>24h)" []
       else if Qle_bool 6 ageHours
       then mkMessage IconWarn "Pool age: {ageHours}h (6-24h, moderate risk)" []
       else mkMessage IconFail "Pool age: {ageHours}h (<6h HIGH RISK)" []);
    mkCheck "Volume" volumeOk
      (if volumeOk
       then mkMessage IconOk "24h Volume: ${volume} (>$10K)" []
       else mkMessage IconWarn "24h Volume: ${volume} (<$10K - low activity)" []);
    mkCheck "Buy/Sell Ratio" ratioOk
      (if js_gt buyRatio 10 then msgPumpTrap
       else if js_ge buyRatio 1.0
       then mkMessage IconOk "Buy ratio: {buyRatio}:1 (healthy bullish pressure)" []
       else mkMessage IconWarn "Buy ratio: {buyRatio}:1 (more sellers than buyers)" []);
    mkCheck "Liquidity Estimate" impactOk
      (if impactOk
       then mkMessage IconOk "Vol/MCap: {volMcapRatio}x (adequate liquidity)" []
       else mkMessage IconWarn "Vol/MCap: {volMcapRatio}x (may have high slippage)" []);
    mkCheck "Pump Check" (negb isChasing)
      (if isChasing then msgDontChase
       else if Qltb 200 (w_h24 (priceChange token)) then msgAlreadyMoved
       else mkMessage IconOk "Price change: {h24}% 24h (reasonable entry)" []);
    mkCheck "Position Size" sizeOk
      (if js_lt entryAmount 0.2
       then mkMessage IconFail
              "LESSON #23: {entryAmount} SOL too small. Use 0.2-0.3 SOL standard."
              []
       else if js_gt entryAmount 1.0
       then mkMessage IconFail "Position {entryAmount} SOL exceeds max (1 SOL)" []
       else mkMessage IconOk "Position size: {entryAmount} SOL (within limits)" []) ].

(** The summary loop: the two counters after the checks [cs]. *)
Fixpoint tally (cs : list Check) (failCount warnCount : nat) : nat * nat :=
  match cs with
  | [] => (failCount, warnCount)
  | check :: rest =>
      let failCount :=
        if negb (status check) && negb (includes_warn (msg check))
        then S failCount else failCount in
      let warnCount :=
        if includes_warn (msg check) then S warnCount else warnCount in
      tally rest failCount warnCount
  end.

Definition verdictOf (failCount warnCount : nat) : Verdict :=
  if (0 <? failCount)%nat then BLOCK
  else if (0 <? warnCount)%nat then WARN
  else ALLOW.

Definition summarize (cs : list Check) : Verdict :=
  let (failCount, warnCount) := tally cs 0%nat 0%nat in
  verdictOf failCount warnCount.

Record Report : Type := mkReport {
  checks : list Check;
  verdict : Verdict
}.

(** [runChecklist], on the clock and the snapshot [getTokenData] returns;
    [None] is the early return without a banner. *)
Definition runChecklist (clock : Clock) (tokenData : option TokenData)
    (mint : string) (entryAmount : jsnum) : option Report :=
  let first := hoursCheck clock in
  match tokenData with
  | None => None
  | Some token =>
      let cs := first :: tokenChecks clock mint entryAmount token in
      Some {| checks := cs; verdict := summarize cs |}
  end.

End ChecklistV1.

(* ------------------------------------------------------------------ *)
(** * DexScreener pairs as the monitors and the scanner read them       *)
(* ------------------------------------------------------------------ *)

(** The fields of [pair] the scripts read through [?.]; [None] is a
    field that is absent or null.  [p_liquidity_usd] is
    [pair.liquidity?.usd], [p_priceUsd] the number [parseFloat] reads in
    [pair.priceUsd]. *)
Record RawPair : Type := mkRawPair {
  p_symbol : string;
  p_name : string;
  p_address : string;
  p_liquidity_usd : option Q;
  p_priceUsd : option Q;
  p_volume_h24 : option Q;
  p_marketCap : option Q;
  p_fdv : option Q;
  p_buys_h24 : option Q;
  p_sells_h24 : option Q;
  p_change_h1 : option Q;
  p_change_h6 : option Q;
  p_change_h24 : option Q
}.

(* ------------------------------------------------------------------ *)
(** * Liquidity monitor (liquidity-check.ts)                            *)
(* ------------------------------------------------------------------ *)

Module LiquidityCheck.

Definition LIQUIDITY_CRITICAL : Q := 100.
Definition LIQUIDITY_WARNING : Q := 500.
Definition LIQUIDITY_HEALTHY : Q := 1000.

Record Position : Type := mkPosition {
  symbol : string;
  name : string;
  address : string;
  entryPrice : Q;
  tokens : Q;
  costBasis : Q
}.

Inductive Status : Type := STRANDED | WARNING | HEALTHY | ERROR.

Record LiquidityStatus : Type := mkLiquidityStatus {
  ls_symbol : string;
  ls_address : string;
  ls_liquidity : Q;
  ls_liquiditySol : Q;
  ls_currentValue : Q;
  ls_priceUsd : Q;
  ls_status : Status;
  ls_canExit : bool;
  ls_pnlPercent : jsnum
}.

Record LiquidityData : Type := mkLiquidityData {
  ld_liquidity : Q;
  ld_priceUsd : Q;
  ld_volume24h : Q
}.

(** [fetchLiquidity] on the answer of the request: it threw, or
    [response.data] is absent or a list of pairs. *)
Definition fetchLiquidity (response : result (option (list RawPair)))
  : option LiquidityData :=
  match response with
  | Ok (Some (pair0 :: _)) =>
      Some {| ld_liquidity := or0 (p_liquidity_usd pair0);
              ld_priceUsd := or0 (p_priceUsd pair0);
              ld_volume24h := or0 (p_volume_h24 pair0) |}
  | Ok (Some []) => None
  | Ok None => None
  | Threw _ => None
  end.

Definition getStatus (liquidity : Q) : Status :=
  if Qltb liquidity LIQUIDITY_CRITICAL then STRANDED
  else if Qltb liquidity LIQUIDITY_WARNING then WARNING
  else HEALTHY.

(** The body of the loop of [checkLiquidity] for one position. *)
Definition assess (pos : Position) (data : option LiquidityData)
  : LiquidityStatus :=
  let solPrice := 200 in
  match data with
  | Some data =>
      let currentValue := ld_priceUsd data * tokens pos in
      let pnlPercent :=
        match js_div (ld_priceUsd data) (entryPrice pos) with
        | Num r => Num ((r - 1) * 100)
        | other => other
        end in
      let status := getStatus (ld_liquidity data) in
      {| ls_symbol := symbol pos; ls_address := address pos;
         ls_liquidity := ld_liquidity data;
         ls_liquiditySol := ld_liquidity data / solPrice;
         ls_currentValue := currentValue;
         ls_priceUsd := ld_priceUsd data;
         ls_status := status;
         ls_canExit := Qltb (currentValue * 2) (ld_liquidity data);
         ls_pnlPercent := pnlPercent |}
  | None =>
      {| ls_symbol := symbol pos; ls_address := address pos;
         ls_liquidity := 0; ls_liquiditySol := 0; ls_currentValue := 0;
         ls_priceUsd := 0; ls_status := ERROR; ls_canExit := false;
         ls_pnlPercent := Num 0 |}
  end.

Fixpoint insertByLiquidity (r : LiquidityStatus) (l : list LiquidityStatus)
  : list LiquidityStatus :=
  match l with
  | [] => [r]
  | x :: rest =>
      if Qltb (ls_liquidity r) (ls_liquidity x) then r :: x :: rest
      else x :: insertByLiquidity r rest
  end.

(** [results.sort((a, b) => a.liquidity - b.liquidity)], a stable sort. *)
Definition sortByLiquidity (l : list LiquidityStatus) : list LiquidityStatus :=
  fold_left (fun acc r => insertByLiquidity r acc) l [].

(** [checkLiquidity]: the sorted results for the watchlist; [fetch] is
    the answer DexScreener gives for an address. *)
Definition checkLiquidity (fetch : string -> result (option (list RawPair)))
    (positions : list Position) : list LiquidityStatus :=
  sortByLiquidity
    (map (fun pos => assess pos (fetchLiquidity (fetch (address pos))))
         positions).

Fixpoint getStrandedPositions
    (fetch : string -> result (option (list RawPair)))
    (positions : list Position) : list string :=
  match positions with
  | [] => []
  | pos :: rest =>
      match fetchLiquidity (fetch (address pos)) with
      | Some data =>
          if Qltb (ld_liquidity data) LIQUIDITY_CRITICAL
          then symbol pos :: getStrandedPositions fetch rest
          else getStrandedPositions fetch rest
      | None => getStrandedPositions fetch rest
      end
  end.

End LiquidityCheck.

(* ------------------------------------------------------------------ *)
(** * Position value tracker (position-value.ts)                        *)
(* ------------------------------------------------------------------ *)

Module PositionValue.

Record Position : Type := mkPosition {
  symbol : string;
  address : string;
  tokens : Q;
  costBasis : Q;
  notes : option string
}.

Inductive Status : Type := PROFIT | LOSS | DIAMOND | ERROR.

(** What [getSellQuote] resolves to: the exit quote of the bonding curve
    for the whole position, or null. *)
Record SellQuote : Type := mkSellQuote {
  outSol : Q;
  priceImpact : Q
}.

Definition SOL_PRICE_USD : Q := 200.

(** The interface [PositionValue]; [pv_notes] is [None] for an entry
    without the optional key [notes] or with an undefined one. *)
Record PositionValue : Type := mkPositionValue {
  pv_symbol : string;
  pv_address : string;
  pv_tokens : Q;
  pv_costBasis : Q;
  pv_sellValueSol : Q;
  pv_sellValueUsd : Q;
  pv_pnlSol : Q;
  pv_pnlPercent : jsnum;
  pv_priceImpact : Q;
  pv_status : Status;
  pv_notes : option string
}.

Definition notesInclude (notes : option string) (word : string) : bool :=
  match notes with Some n => includes n word | None => false end.

(** The body of the loop of [checkPositionValues] for one position. *)
Definition valuePosition (pos : Position) (quote : option SellQuote)
  : PositionValue :=
  match quote with
  | Some quote =>
      let sellValueSol := outSol quote in
      let pnlPercent :=
        match js_div sellValueSol (costBasis pos) with
        | Num r => Num ((r - 1) * 100)
        | other => other
        end in
      let status :=
        if notesInclude (notes pos) "DIAMOND" || notesInclude (notes pos) "NEVER"
        then DIAMOND
        else if js_ge pnlPercent 0 then PROFIT
        else LOSS in
      {| pv_symbol := symbol pos; pv_address := address pos;
         pv_tokens := tokens pos; pv_costBasis := costBasis pos;
         pv_sellValueSol := sellValueSol;
         pv_sellValueUsd := sellValueSol * SOL_PRICE_USD;
         pv_pnlSol := sellValueSol - costBasis pos;
         pv_pnlPercent := pnlPercent;
         pv_priceImpact := priceImpact quote;
         pv_status := status;
         pv_notes := notes pos |}
  | None =>
      {| pv_symbol := symbol pos; pv_address := address pos;
         pv_tokens := tokens pos; pv_costBasis := costBasis pos;
         pv_sellValueSol := 0; pv_sellValueUsd := 0;
         pv_pnlSol := - costBasis pos; pv_pnlPercent := Num (-100);
         pv_priceImpact := 0; pv_status := ERROR;
         pv_notes := notes pos |}
  end.

End PositionValue.

(* ------------------------------------------------------------------ *)
(** * Token scanner (bags-scanner.ts)                                   *)
(* ------------------------------------------------------------------ *)

Module Scanner.

Record Metrics : Type := mkMetrics {
  m_mcap : Q;
  m_volume24h : Q;
  m_volMcapRatio : jsnum;
  m_buyRatio : jsnum;
  m_h1 : Q; m_h6 : Q; m_h24 : Q;
  m_txCount24h : Q;
  m_avgTxSize : jsnum
}.

Record TokenAnalysis : Type := mkTokenAnalysis {
  symbol : string;
  name : string;
  mint : string;
  score : Z;
  metrics : Metrics;
  signals : list string;
  risks : list string
}.

(** The three variables the scoring statements update. *)
Definition Scoring : Type := (Z * list string * list string)%type.

Definition signal (d : Z) (s : string) (st : Scoring) : Scoring :=
  let '(score, signals, risks) := st in ((score + d)%Z, (signals ++ [s])%list, risks).
Definition risk (d : Z) (s : string) (st : Scoring) : Scoring :=
  let '(score, signals, risks) := st in ((score - d)%Z, signals, (risks ++ [s])%list).
Definition bump (d : Z) (st : Scoring) : Scoring :=
  let '(score, signals, risks) := st in ((score + d)%Z, signals, risks).

Definition analyzeToken (pair0 : RawPair) : TokenAnalysis :=
  let mcap :=
    let m := or0 (p_marketCap pair0) in
    if Qeq_bool m 0 then or0 (p_fdv pair0) else m in
  let vol := or0 (p_volume_h24 pair0) in
  let volMcapRatio := if Qltb 0 mcap then js_div vol mcap else Num 0 in
  let buys24 := or0 (p_buys_h24 pair0) in
  let sells24 := or0 (p_sells_h24 pair0) in
  let buyRatio := buySellRatio buys24 sells24 in
  let txCount := buys24 + sells24 in
  let avgTxSize := if Qltb 0 txCount then js_div vol txCount else Num 0 in
  let h1 := or0 (p_change_h1 pair0) in
  let h6 := or0 (p_change_h6 pair0) in
  let h24 := or0 (p_change_h24 pair0) in
  let st : Scoring := (50%Z, [], []) in
  let st :=
    if js_gt volMcapRatio 10 then signal 15 "Very high volume" st
    else if js_gt volMcapRatio 5 then signal 10 "High volume" st
    else if js_gt volMcapRatio 2 then signal 5 "Good volume" st
    else if js_lt volMcapRatio 0.5 then risk 10 "Low volume" st
    else st in
  let st :=
    if js_gt buyRatio 2 then signal 15 "Strong buy pressure" st
    else if js_gt buyRatio 1.3 then signal 10 "Buyers winning" st
    else if js_gt buyRatio 1 then bump 5 st
    else if js_lt buyRatio 0.7 then risk 15 "Heavy selling" st
    else if js_lt buyRatio 1 then risk 5 "Sellers winning" st
    else st in
  let st :=
    if Qltb mcap 10000 then signal 10 "Micro cap gem" st
    else if Qltb mcap 50000 then signal 5 "Early stage" st
    else if Qltb 500000 mcap then risk 5 "Higher mcap" st
    else st in
  let st :=
    if Qltb 50 h1 then signal 5 "Pumping now" st
    else if Qltb h1 (-30) then risk 10 "Dumping" st
    else st in
  let st :=
    if js_gt avgTxSize 500 && Qltb txCount 100
    then risk 20 "Possible wash trading" st else st in
  let st :=
    if Qltb txCount 50 then risk 10 "Low activity" st else st in
  let '(score, signals, risks) := st in
  {| symbol := p_symbol pair0;
     name := p_name pair0;
     mint := p_address pair0;
     score := Z.max 0 (Z.min 100 score);
     metrics :=
       {| m_mcap := mcap; m_volume24h := vol; m_volMcapRatio := volMcapRatio;
          m_buyRatio := buyRatio; m_h1 := h1; m_h6 := h6; m_h24 := h24;
          m_txCount24h := txCount; m_avgTxSize := avgTxSize |};
     signals := signals;
     risks := risks |}.

End Scanner.

(* ------------------------------------------------------------------ *)
(** * Sell pipelines: the outside world and the run monad               *)
(* ------------------------------------------------------------------ *)

(** What a run does to the outside world, in order. *)
Inductive Event : Type :=
| QuoteRequested
| BuildRequested
| Signed
| Simulated
| Broadcast (skipPreflight : bool) (maxRetries : option nat)
| ConfirmAwaited.

(** How a script ends: it returns, an exception escapes, or it calls
    [process.exit]. *)
Inductive Outcome (A : Type) : Type :=
| Returned (a : A)
| Thrown (e : string)
| Exited (code : Z).
Arguments Returned {A} a.
Arguments Thrown {A} e.
Arguments Exited {A} code.

Definition Run (A : Type) : Type := (list Event * Outcome A)%type.

Definition ret {A} (a : A) : Run A := ([], Returned a).
Definition throw {A} (e : string) : Run A := ([], Thrown e).
Definition exit {A} (code : Z) : Run A := ([], Exited code).
Definition emit (e : Event) : Run unit := ([e], Returned tt).

Definition bind {A B} (m : Run A) (k : A -> Run B) : Run B :=
  match m with
  | (t, Returned a) => let (t', r) := k a in ((t ++ t')%list, r)
  | (t, Thrown e) => (t, Thrown e)
  | (t, Exited c) => (t, Exited c)
  end.

(** [try { body } catch (e) { handler }]: [process.exit] is not caught. *)
Definition catch {A} (body : Run A) (handler : string -> Run A) : Run A :=
  match body with
  | (t, Thrown e) => let (t', r) := handler e in ((t ++ t')%list, r)
  | other => other
  end.

Declare Scope run_scope.
Delimit Scope run_scope with run.
Notation "x <- m ;; k" := (bind m (fun x => k))
  (at level 61, m at next level, right associativity) : run_scope.
Notation "m ;; k" := (bind m (fun _ => k))
  (at level 61, right associativity) : run_scope.

Definition trace {A} (r : Run A) : list Event := fst r.
Definition outcome {A} (r : Run A) : Outcome A := snd r.

(** A quote as the aggregator answers it.  [priceImpactPct] is the number
    [parseFloat] reads in the field (NaN when there is none). *)
Record Quote : Type := mkQuote {
  outAmount : Q;
  minOutAmount : Q;
  priceImpactPct : jsnum;
  routePlan : option (list string)
}.

(** The body of an answer of the quote endpoint: the bags.fm envelope
    carries [success], Jupiter an optional [error]. *)
Record QuoteAnswer : Type := mkQuoteAnswer {
  qa_success : bool;
  qa_error : option string;
  qa_quote : Quote
}.

Record SwapAnswer : Type := mkSwapAnswer {
  sa_success : bool;
  sa_error : option string
}.

(** How the wait for confirmation ends: confirmed, confirmed with an
    on-chain error in [value.err], or the wait throws because the
    blockhash expired before inclusion. *)
Inductive ConfirmAnswer : Type :=
| Confirmed
| ConfirmedWithError (err : string)
| Expired.

(** The answers of the outside world to one run. *)
Record ExecEnv : Type := mkExecEnv {
  keysOk : bool;                        (* key and credential files load *)
  quoteAnswer : result QuoteAnswer;     (* the request throws, or answers *)
  swapAnswer : result SwapAnswer;
  decodeOk : bool;                      (* the payload decodes *)
  versionedOk : bool;      (* VersionedTransaction.deserialize reads it *)
  legacyOk : bool;                      (* Transaction.from reads it *)
  simulationErr : option string;        (* what simulating it reports *)
  sendAnswer : result string;           (* the signature, or a throw *)
  blockhashOk : bool;                   (* getLatestBlockhash answers *)
  confirmAnswer : ConfirmAnswer
}.

Open Scope run_scope.

Definition loadKeys (env : ExecEnv) : Run unit :=
  if keysOk env then ret tt else throw "ENOENT".

Definition requestQuote (env : ExecEnv) : Run QuoteAnswer :=
  emit QuoteRequested ;;
  match quoteAnswer env with
  | Ok a => ret a
  | Threw e => throw e
  end.

Definition requestSwap (env : ExecEnv) : Run SwapAnswer :=
  emit BuildRequested ;;
  match swapAnswer env with
  | Ok a => ret a
  | Threw e => throw e
  end.

(** [connection.simulateTransaction(tx)]: the value of [sim.value.err]. *)
Definition simulateTransaction (env : ExecEnv) : Run (option string) :=
  emit Simulated ;; ret (simulationErr env).

(** [connection.sendTransaction] and [sendRawTransaction] with their
    options.  Unless [skipPreflight] is set the node simulates the
    transaction first and the call throws when the simulation fails; the
    transaction reaches the network only after that. *)
Definition sendTransaction (env : ExecEnv) (skipPreflight : bool)
    (maxRetries : option nat) : Run string :=
  (if skipPreflight then ret tt
   else (err <- simulateTransaction env ;;
         match err with
         | Some e => throw e
         | None => ret tt
         end)) ;;
  match sendAnswer env with
  | Ok signature => emit (Broadcast skipPreflight maxRetries) ;; ret signature
  | Threw e => throw e
  end.

Definition getLatestBlockhash (env : ExecEnv) : Run unit :=
  if blockhashOk env then ret tt else throw "failed to get recent blockhash".

(** [connection.confirmTransaction]: the value of [value.err], or a throw
    when the blockhash expired. *)
Definition confirmTransaction (env : ExecEnv) : Run (option string) :=
  emit ConfirmAwaited ;;
  match confirmAnswer env with
  | Confirmed => ret None
  | ConfirmedWithError err => ret (Some err)
  | Expired => throw "TransactionExpiredBlockheightExceededError"
  end.

Record SellResult : Type := mkSellResult {
  success : bool;
  signature : string;
  solReceived : Q;
  priceImpact : jsnum
}.

Definition LAMPORTS_PER_SOL : Q := 1000000000.

(** Deserialising the payload with [VersionedTransaction.deserialize]
    and signing it. *)
Definition deserializeAndSign (env : ExecEnv) : Run unit :=
  if decodeOk env && versionedOk env
  then emit Signed
  else throw "failed to deserialize transaction".

(** An integer-valued number. *)
Definition isInteger (q : Q) : bool :=
  (Qnum q mod Z.pos (Qden q) =? 0)%Z.

(** [BigInt(x)] on a number is defined when [x] is an integer; on NaN,
    on an infinity and on a fraction it throws a RangeError. *)
Definition bigIntDefined (x : jsnum) : bool :=
  match x with
  | Num q => isInteger q
  | _ => false
  end.

(** [BigInt(10 ** decimals)] is defined when the power is an integer that
    a double holds: for an integer exponent from 0 to 308.  Below 0 the
    power is a fraction, above 308 it is Infinity, and with NaN it is
    NaN.  The one exception is a power that underflows to 0, for an
    exponent of -324 or less or of -Infinity. *)
Definition scaleDefined (decimals : jsnum) : bool :=
  match decimals with
  | Num d =>
      isInteger d
      && (Qle_bool 0 d && Qle_bool d 308 || Qle_bool d (-324))
  | NegInf => true
  | PosInf => false
  | NaN => false
  end.

(* ------------------------------------------------------------------ *)
(** * execute-sell.ts: [executeSell] and [main]                         *)
(* ------------------------------------------------------------------ *)

Module ExecuteSell.

Definition executeSell (env : ExecEnv) (inputMint : string)
    (tokenAmount : Q) (slippageBps : Z) : Run SellResult :=
  loadKeys env ;;
  (* Step 1: quote *)
  quoteRes <- requestQuote env ;;
  if negb (qa_success quoteRes) then throw "Quote failed" else
  let quote := qa_quote quoteRes in
  let outSol := outAmount quote / LAMPORTS_PER_SOL in
  (* the impact is printed, then the venues of the route *)
  match routePlan quote with
  | None => throw "TypeError: quote.routePlan is undefined"
  | Some _ =>
  (* Step 2: build *)
  swapRes <- requestSwap env ;;
  if negb (sa_success swapRes) then throw "Swap build failed" else
  (* Step 3: sign and send *)
  (if decodeOk env then ret tt else throw "Non-base58 character") ;;
  isVersioned <-
    catch (if versionedOk env then emit Signed ;; ret true
           else throw "failed to deserialize versioned transaction")
          (fun _ => if legacyOk env then emit Signed ;; ret false
                    else throw "failed to deserialize legacy transaction") ;;
  signature <-
    (if isVersioned : bool
     then sendTransaction env true (Some 3%nat)
     else sendTransaction env true (Some 3%nat)) ;;
  (* Step 4: confirm *)
  getLatestBlockhash env ;;
  err <- confirmTransaction env ;;
  match err with
  | Some _ => throw "Transaction failed"
  | None =>
      ret {| success := true; signature := signature;
             solReceived := outSol; priceImpact := priceImpactPct quote |}
  end
  end.

(** [main] with its arguments parsed; the API key is read when the module
    loads. *)
Definition main (env : ExecEnv) (inputMint : string) (tokenAmount : Q)
    (slippageBps : Z) : Run SellResult :=
  loadKeys env ;;
  catch (executeSell env inputMint tokenAmount slippageBps)
        (fun _ => exit 1%Z).

End ExecuteSell.

(* ------------------------------------------------------------------ *)
(** * sell-token.ts: [main] (Jupiter)                                   *)
(* ------------------------------------------------------------------ *)

Module SellToken.

(** The body of [main] with its arguments parsed: [tokenAmount] and
    [decimals] are the values of [parseInt] (the latter 9 when the
    argument is absent).  The raw amount
    [BigInt(tokenAmount) * BigInt(10 ** decimals)] is computed before
    the quote is requested, and [BigInt(quote.outAmount)] before the
    impact is tested. *)
Definition body (env : ExecEnv) (tokenMint : string)
    (tokenAmount decimals : jsnum) : Run SellResult :=
  loadKeys env ;;
  if negb (bigIntDefined tokenAmount)
  then throw "RangeError: the number cannot be converted to a BigInt" else
  if negb (scaleDefined decimals)
  then throw "RangeError: the number cannot be converted to a BigInt" else
  quoteRes <- requestQuote env ;;
  let quote := qa_quote quoteRes in
  if truthy (qa_error quoteRes) then throw "Quote error" else
  if negb (isInteger (outAmount quote))
  then throw "SyntaxError: Cannot convert to a BigInt" else
  let outSol := outAmount quote / 1000000000 in
  if js_gt (priceImpactPct quote) 5 then exit 1%Z else
  _ <- requestSwap env ;;
  deserializeAndSign env ;;
  signature <- sendTransaction env true (Some 3%nat) ;;
  getLatestBlockhash env ;;
  _ <- confirmTransaction env ;;
  ret {| success := true; signature := signature;
         solReceived := outSol; priceImpact := priceImpactPct quote |}.

(** [main().catch(e => process.exit(1))]. *)
Definition main (env : ExecEnv) (tokenMint : string)
    (tokenAmount decimals : jsnum) : Run SellResult :=
  catch (body env tokenMint tokenAmount decimals) (fun _ => exit 1%Z).

End SellToken.

(* ------------------------------------------------------------------ *)
(** * jupiter-sell.ts: [sellTokens]                                     *)
(* ------------------------------------------------------------------ *)

Module JupiterSell.

Definition sellTokens (env : ExecEnv) (tokenMint : string) (tokenAmount : Q)
  : Run SellResult :=
  loadKeys env ;;
  quoteRes <- requestQuote env ;;
  let quote := qa_quote quoteRes in
  let solOut := outAmount quote / 1000000000 in
  _ <- requestSwap env ;;
  deserializeAndSign env ;;
  signature <- sendTransaction env true (Some 3%nat) ;;
  getLatestBlockhash env ;;
  err <- confirmTransaction env ;;
  match err with
  | Some _ =>
      ret {| success := false; signature := signature;
             solReceived := solOut; priceImpact := priceImpactPct quote |}
  | None =>
      ret {| success := true; signature := signature;
             solReceived := solOut; priceImpact := priceImpactPct quote |}
  end.

End JupiterSell.

(* ------------------------------------------------------------------ *)
(** * sell-tokens.ts: [sellTokens] (bags.fm)                            *)
(* ------------------------------------------------------------------ *)

Module BagsSell.

(** What a run that returns has done last: the line it printed after
    the wait for confirmation ([confirmedLine] is true for "CONFIRMED!",
    false for "Failed: ..."), and the object it returned. *)
Record Sold : Type := mkSold {
  confirmedLine : bool;
  sold_signature : string;
  sold_solOut : Q
}.

Definition sellTokens (env : ExecEnv) (tokenMint : string) (tokenAmount : Q)
  : Run Sold :=
  loadKeys env ;;
  quoteRes <- requestQuote env ;;
  if negb (qa_success quoteRes) then throw "Quote failed" else
  let quote := qa_quote quoteRes in
  let solOut := outAmount quote / 1000000000 in
  txRes <- requestSwap env ;;
  if negb (sa_success txRes) then throw "Transaction build failed" else
  deserializeAndSign env ;;
  signature <- sendTransaction env true (Some 3%nat) ;;
  getLatestBlockhash env ;;
  result <- confirmTransaction env ;;
  match result with
  | Some _ =>
      ret {| confirmedLine := false; sold_signature := signature;
             sold_solOut := solOut |}
  | None =>
      ret {| confirmedLine := true; sold_signature := signature;
             sold_solOut := solOut |}
  end.

End BagsSell.

(* ------------------------------------------------------------------ *)
(** * sell-creacher-now.js: [main]                                      *)
(* ------------------------------------------------------------------ *)

Module SellCreacher.

Definition body (env : ExecEnv) : Run SellResult :=
  loadKeys env ;;
  quoteRes <- requestQuote env ;;
  let quote := qa_quote quoteRes in
  let outSol := outAmount quote / 1000000000 in
  _ <- requestSwap env ;;
  deserializeAndSign env ;;
  sig <- sendTransaction env true None ;;
  getLatestBlockhash env ;;
  _ <- confirmTransaction env ;;
  ret {| success := true; signature := sig;
         solReceived := outSol; priceImpact := priceImpactPct quote |}.

Definition main (env : ExecEnv) : Run SellResult :=
  catch (body env) (fun _ => exit 1%Z).

End SellCreacher.

(* ------------------------------------------------------------------ *)
(** * Two scripts that do simulate                                      *)
(* ------------------------------------------------------------------ *)

(** sign-and-send.ts: the payload comes on the command line; the node
    simulates it because [skipPreflight] is false. *)
Module SignAndSend.

Definition body (env : ExecEnv) : Run unit :=
  loadKeys env ;;
  deserializeAndSign env ;;
  _ <- sendTransaction env false (Some 3%nat) ;;
  confirm <- confirmTransaction env ;;
  match confirm with
  | Some _ => exit 1%Z
  | None => ret tt
  end.

Definition main (env : ExecEnv) : Run unit :=
  catch (body env) (fun _ => exit 1%Z).

End SignAndSend.

(** The partial-profit sell script: it calls [simulateTransaction] and
    stops when the simulation reports an error. *)
Module PartialProfit.

Definition main (env : ExecEnv) : Run unit :=
  loadKeys env ;;
  quoteRes <- requestQuote env ;;
  if truthy (qa_error quoteRes) then exit 1%Z else
  swapData <- requestSwap env ;;
  if truthy (sa_error swapData) then exit 1%Z else
  deserializeAndSign env ;;
  sim <- simulateTransaction env ;;
  match sim with
  | Some _ => exit 1%Z
  | None =>
      _ <- sendTransaction env true (Some 3%nat) ;;
      confirm <- confirmTransaction env ;;
      match confirm with
      | Some _ => exit 1%Z
      | None => ret tt
      end
  end.

End PartialProfit.

Close Scope run_scope.

(** Every [Broadcast] in a trace comes after a [Simulated]. *)
Fixpoint simulatedBeforeBroadcast (seen : bool) (t : list Event) : bool :=
  match t with
  | [] => true
  | Simulated :: rest => simulatedBeforeBroadcast true rest
  | Broadcast _ _ :: rest => seen && simulatedBeforeBroadcast seen rest
  | _ :: rest => simulatedBeforeBroadcast seen rest
  end.

Definition isQuote (e : Event) : bool :=
  match e with QuoteRequested => true | _ => false end.
Definition isBuild (e : Event) : bool :=
  match e with BuildRequested => true | _ => false end.
Definition isSigned (e : Event) : bool :=
  match e with Signed => true | _ => false end.
Definition isSimulated (e : Event) : bool :=
  match e with Simulated => true | _ => false end.
Definition isBroadcast (e : Event) : bool :=
  match e with Broadcast _ _ => true | _ => false end.

Definition count (p : Event -> bool) (t : list Event) : nat :=
  List.length (filter p t).

(** Looking a check up by its name. *)
Fixpoint findV2 (n : string) (cs : list ChecklistV2.Check)
  : option ChecklistV2.Check :=
  match cs with
  | [] => None
  | c :: rest =>
      if String.eqb (ChecklistV2.name c) n then Some c else findV2 n rest
  end.

Fixpoint findV1 (n : string) (cs : list ChecklistV1.Check)
  : option ChecklistV1.Check :=
  match cs with
  | [] => None
  | c :: rest =>
      if String.eqb (ChecklistV1.name c) n then Some c else findV1 n rest
  end.

(** The verdict a run of the checklist prints, if it prints one. *)
Definition verdictV2 (r : result (option ChecklistV2.Report)) : option Verdict :=
  match r with
  | Ok (Some rep) => Some (ChecklistV2.verdict rep)
  | _ => None
  end.

Definition verdictV1 (r : option ChecklistV1.Report) : option Verdict :=
  option_map ChecklistV1.verdict r.

(** The two ways a check counts in each summary loop. *)
Definition criticalFailV2 (c : ChecklistV2.Check) : bool :=
  negb (ChecklistV2.status c) && ChecklistV2.critical c.
Definition advisoryFailV2 (c : ChecklistV2.Check) : bool :=
  negb (ChecklistV2.status c) && negb (ChecklistV2.critical c).

Definition hardFailV1 (c : ChecklistV1.Check) : bool :=
  negb (ChecklistV1.status c) && negb (includes_warn (ChecklistV1.msg c)).
Definition warnsV1 (c : ChecklistV1.Check) : bool :=
  includes_warn (ChecklistV1.msg c).

(** The verification services failing: the SDK block throws, and the
    fallback request throws or answers something that is no list. *)
Definition sdkFails (env : ChecklistV2.DevEnv) : bool :=
  match ChecklistV2.sdk env with
  | ChecklistV2.SdkThrows _ => true
  | ChecklistV2.SdkSettled _ _ => false
  end.
Definition fallbackFails (env : ChecklistV2.DevEnv) : bool :=
  match ChecklistV2.fallback env with
  | ChecklistV2.FbResults _ => false
  | _ => true
  end.

(** The 24h buy/sell ratio of a snapshot is above 10. *)
Definition skewed (token : TokenData) : bool :=
  js_gt (buySellRatio (buys (t_h24 (txns token))) (sells (t_h24 (txns token))))
        10.

(** The names of the checks that failed. *)
Definition failedV1 (cs : list ChecklistV1.Check) : list string :=
  map ChecklistV1.name (filter (fun c => negb (ChecklistV1.status c)) cs).

(* ------------------------------------------------------------------ *)
(** * Sample inputs                                                     *)
(* ------------------------------------------------------------------ *)

Definition sampleMint : string := "4gfNpwo8LQtcgGrNmgWhuwfFhttgZ8Qb6QXN4Yz8BAGS".

(** A two-day-old bags.fm token with healthy volume; the 1h and 24h
    price change and the 24h transaction counts are left open. *)
Definition sampleToken (h1 h24 buys24 sells24 : Q) : TokenData :=
  {| symbol := "SAMPLE"; name := "Sample"; priceUsd := "0.001";
     priceChange := {| w_h1 := h1; w_h6 := 20; w_h24 := h24; w_m5 := 1 |};
     volume := {| w_h1 := 5000; w_h6 := 20000; w_h24 := 60000; w_m5 := 500 |};
     liquidity := None;
     mcap := 100000;
     pairCreatedAt := 1000;
     dexId := "bags";
     txns := {| t_h1 := mkCounts 30 20; t_h6 := mkCounts 90 60;
                t_h24 := mkCounts buys24 sells24; t_m5 := mkCounts 5 5 |} |}.

(** A token of another venue whose dexId carries the warning sign. *)
Definition oddVenueToken : TokenData :=
  {| symbol := "ODD"; name := "Odd"; priceUsd := "0.001";
     priceChange := {| w_h1 := 10; w_h6 := 20; w_h24 := 50; w_m5 := 1 |};
     volume := {| w_h1 := 5000; w_h6 := 20000; w_h24 := 60000; w_m5 := 500 |};
     liquidity := Some 25000;
     mcap := 100000;
     pairCreatedAt := 1000;
     dexId := "⚠️swap";
     txns := {| t_h1 := mkCounts 30 20; t_h6 := mkCounts 90 60;
                t_h24 := mkCounts 300 200; t_m5 := mkCounts 5 5 |} |}.

Definition twoDaysMs : Q := 1000 + 48 * 3600000.

Definition morning : ChecklistV1.Clock :=
  {| ChecklistV1.pstHour := 10; ChecklistV1.nowMs := twoDaysMs |}.
Definition beforeHours : ChecklistV1.Clock :=
  {| ChecklistV1.pstHour := 8; ChecklistV1.nowMs := twoDaysMs |}.

Definition knownDev : ChecklistV2.RawCreator :=
  {| ChecklistV2.rc_twitterUsername := Some "sampledev";
     ChecklistV2.rc_twitterPfpUrl := None;
     ChecklistV2.rc_twitterDisplayName := Some "Sample Dev";
     ChecklistV2.rc_githubUsername := None;
     ChecklistV2.rc_feeBps := Some 100;
     ChecklistV2.rc_royaltyBps := None;
     ChecklistV2.rc_walletAddress := Some "bL7yksLLAUZDhSXvxhMEVpruqhUNn8T8C4jWzdnVChm" |}.

Definition anonymousDev : ChecklistV2.RawCreator :=
  {| ChecklistV2.rc_twitterUsername := None;
     ChecklistV2.rc_twitterPfpUrl := None;
     ChecklistV2.rc_twitterDisplayName := None;
     ChecklistV2.rc_githubUsername := None;
     ChecklistV2.rc_feeBps := Some 100;
     ChecklistV2.rc_royaltyBps := None;
     ChecklistV2.rc_walletAddress := Some "bL7yksLLAUZDhSXvxhMEVpruqhUNn8T8C4jWzdnVChm" |}.

Definition sdkAnswers (creators : list ChecklistV2.RawCreator)
  : ChecklistV2.DevEnv :=
  {| ChecklistV2.sdk :=
       ChecklistV2.SdkSettled
         (ChecklistV2.fulfilled (Some creators))
         (ChecklistV2.fulfilled (Some (ChecklistV2.FeesNumber 2500000000)));
     ChecklistV2.fallback := ChecklistV2.FbThrows "unused" |}.

Definition servicesDown : ChecklistV2.DevEnv :=
  {| ChecklistV2.sdk := ChecklistV2.SdkThrows "Cannot find module";
     ChecklistV2.fallback := ChecklistV2.FbThrows "ECONNREFUSED" |}.

Definition worldV2 (token : TokenData) (dev : ChecklistV2.DevEnv)
  : ChecklistV2.World :=
  {| ChecklistV2.now := twoDaysMs;
     ChecklistV2.tokenData := Some token;
     ChecklistV2.dev := dev |}.

(** The answers of a world in which everything works, for a quote of
    0.5 SOL with the given price impact, a simulation result and a
    confirmation result. *)
Definition sampleQuote (impact : jsnum) : Quote :=
  {| outAmount := 500000000; minOutAmount := 495000000;
     priceImpactPct := impact; routePlan := Some ["bags"] |}.

Definition sampleEnv (impact : jsnum) (simulation : option string)
    (confirmation : ConfirmAnswer) : ExecEnv :=
  {| keysOk := true;
     quoteAnswer := Ok {| qa_success := true; qa_error := None;
                          qa_quote := sampleQuote impact |};
     swapAnswer := Ok {| sa_success := true; sa_error := None |};
     decodeOk := true; versionedOk := true; legacyOk := false;
     simulationErr := simulation;
     sendAnswer := Ok "5VERv8NMvzbJMEkV8xnrLkEaWRtSz9CosKDYjCJjBRnb";
     blockhashOk := true;
     confirmAnswer := confirmation |}.

(** The same answers with another price impact in the quote. *)
Definition withImpact (env : ExecEnv) (impact : jsnum) : ExecEnv :=
  {| keysOk := keysOk env;
     quoteAnswer :=
       match quoteAnswer env with
       | Ok a =>
           Ok {| qa_success := qa_success a; qa_error := qa_error a;
                 qa_quote :=
                   {| outAmount := outAmount (qa_quote a);
                      minOutAmount := minOutAmount (qa_quote a);
                      priceImpactPct := impact;
                      routePlan := routePlan (qa_quote a) |} |}
       | Threw e => Threw e
       end;
     swapAnswer := swapAnswer env;
     decodeOk := decodeOk env; versionedOk := versionedOk env;
     legacyOk := legacyOk env;
     simulationErr := simulationErr env;
     sendAnswer := sendAnswer env;
     blockhashOk := blockhashOk env;
     confirmAnswer := confirmAnswer env |}.

Definition isReturned {A} (o : Outcome A) : bool :=
  match o with Returned _ => true | _ => false end.


(** The options every [Broadcast] of a trace was sent with. *)
Definition broadcastOptions (t : list Event) : list (bool * option nat) :=
  flat_map (fun e => match e with
                     | Broadcast sp mr => [(sp, mr)]
                     | _ => []
                     end) t.


Definition fullTrace : list Event :=
  [QuoteRequested; BuildRequested; Signed; Broadcast true (Some 3%nat);
   ConfirmAwaited].

(** A position on a bags.fm token, and the pair DexScreener answers for
    it: a price, and no liquidity field. *)
Definition heldPosition : LiquidityCheck.Position :=
  {| LiquidityCheck.symbol := "COYOTE"; LiquidityCheck.name := "Coyote";
     LiquidityCheck.address := "Cmt1QS7ithsa3Qe1v8UrQfJ4JTpcj3vMsMFJ8H3uBAGS";
     LiquidityCheck.entryPrice := 0.0001; LiquidityCheck.tokens := 510000;
     LiquidityCheck.costBasis := 0.25 |}.

Definition pairWithoutLiquidity : RawPair :=
  {| p_symbol := "COYOTE"; p_name := "Coyote";
     p_address := "Cmt1QS7ithsa3Qe1v8UrQfJ4JTpcj3vMsMFJ8H3uBAGS";
     p_liquidity_usd := None; p_priceUsd := Some 0.0007;
     p_volume_h24 := Some 60000; p_marketCap := Some 700000; p_fdv := None;
     p_buys_h24 := Some 300; p_sells_h24 := Some 200;
     p_change_h1 := Some 10; p_change_h6 := Some 20; p_change_h24 := Some 50 |}.

Definition heldForTracker : PositionValue.Position :=
  {| PositionValue.symbol := "COYOTE";
     PositionValue.address := "Cmt1QS7ithsa3Qe1v8UrQfJ4JTpcj3vMsMFJ8H3uBAGS";
     PositionValue.tokens := 510000; PositionValue.costBasis := 0.25;
     PositionValue.notes := None |}.

Definition exitQuote : PositionValue.SellQuote :=
  {| PositionValue.outSol := 1.7; PositionValue.priceImpact := 0.3 |}.

(** Case analysis on the answers of the outside world a run reads. *)
Ltac run_cases :=
  repeat (cbn [fst snd app filter List.length flat_map
               isQuote isBuild isSigned isSimulated isBroadcast
               simulatedBeforeBroadcast isReturned andb orb negb];
          match goal with
          | |- context [match ?x with _ => _ end] =>
              lazymatch x with
              | context [match _ with _ => _ end] => fail
              | _ => destruct x eqn:?
              end
          end);
  cbn [fst snd app filter List.length flat_map
       isQuote isBuild isSigned isSimulated isBroadcast
       simulatedBeforeBroadcast isReturned andb orb negb].

Ltac unfold_run :=
  cbv beta iota zeta delta
    [ExecuteSell.executeSell ExecuteSell.main SellToken.body SellToken.main
     JupiterSell.sellTokens BagsSell.sellTokens SellCreacher.body
     SellCreacher.main SignAndSend.body SignAndSend.main PartialProfit.main
     loadKeys requestQuote requestSwap simulateTransaction sendTransaction
     getLatestBlockhash confirmTransaction deserializeAndSign
     bind ret throw exit emit catch trace outcome count broadcastOptions].


(* ------------------------------------------------------------------ *)
(** * Token scanner: [searchBags] and [scan] (bags-scanner.ts)          *)
(* ------------------------------------------------------------------ *)

Module ScannerCli.

(** A pair of the search answer: its chain and the fields the analysis
    reads. *)
Record SearchPair : Type := mkSearchPair {
  chainId : string;
  found : RawPair
}.

(** [searchBags] on [data.pairs] of the search answer (absent or a
    list). *)
Definition searchBags (pairs : option (list SearchPair)) : list SearchPair :=
  match pairs with
  | Some l =>
      filter (fun p => String.eqb (chainId p) "solana"
                       && endsWith (p_address (found p)) "BAGS") l
  | None => []
  end.

Fixpoint insertByScore (a : Scanner.TokenAnalysis)
    (l : list Scanner.TokenAnalysis) : list Scanner.TokenAnalysis :=
  match l with
  | [] => [a]
  | x :: rest =>
      if (Scanner.score x <? Scanner.score a)%Z then a :: x :: rest
      else x :: insertByScore a rest
  end.

(** [analyses.sort((a, b) => b.score - a.score)], a stable sort. *)
Definition sortByScore (l : list Scanner.TokenAnalysis)
  : list Scanner.TokenAnalysis :=
  fold_left (fun acc a => insertByScore a acc) l [].

(** The [analyses] of [scan]: analysed, filtered by the minimum score
    ([parseInt] of the argument, or 50) and sorted. *)
Definition analyses (pairs : list SearchPair) (minScore : jsnum)
  : list Scanner.TokenAnalysis :=
  sortByScore
    (filter (fun a => js_ge (Num (inject_Z (Scanner.score a))) minScore)
            (map (fun p => Scanner.analyzeToken (found p)) pairs)).

(** [scan]: the number it reports as found and the tokens it prints. *)
Definition scan (pairs : option (list SearchPair)) (minScore : jsnum)
  : nat * list Scanner.TokenAnalysis :=
  let analyses := analyses (searchBags pairs) minScore in
  (List.length analyses, firstn 15 analyses).

End ScannerCli.

(* ------------------------------------------------------------------ *)
(** * Position value tracker: quotes and totals (position-value.ts)     *)
(* ------------------------------------------------------------------ *)

Module PositionTracker.

Definition LAMPORTS : Q := 1000000000.

(** What one request to the quote endpoint meets: an answer with its
    [success] flag and its [response] (the out amount and the optional
    price impact), a rejection with status 429, or any other failure. *)
Inductive QuoteReply : Type :=
| Answered (success : bool) (response : option (Q * option Q))
| RateLimited
| Failed.

(** [getSellQuote]: [replies n] is what the n-th request meets.  The
    result carries the number of requests made; [None] is a run that is
    still retrying when the fuel is spent. *)
Fixpoint getSellQuote (fuel : nat) (replies : nat -> QuoteReply)
    (request : nat) : option (option PositionValue.SellQuote * nat) :=
  match fuel with
  | O => None
  | S fuel' =>
      match replies request with
      | Answered true (Some (outAmount, priceImpactPct)) =>
          Some (Some {| PositionValue.outSol := outAmount / LAMPORTS;
                        PositionValue.priceImpact := or0 priceImpactPct |},
                S request)
      | Answered _ _ => Some (None, S request)
      | RateLimited => getSellQuote fuel' replies (S request)
      | Failed => Some (None, S request)
      end
  end.

(** The loop of [checkPositionValues] with its three variables: the
    results and the two totals; [quoteFor] is what [getSellQuote]
    resolves to for a position. *)
Fixpoint valuationLoop
    (quoteFor : PositionValue.Position -> option PositionValue.SellQuote)
    (positions : list PositionValue.Position)
    (results : list PositionValue.PositionValue)
    (totalCostBasis totalSellValue : Q)
  : list PositionValue.PositionValue * Q * Q :=
  match positions with
  | [] => (results, totalCostBasis, totalSellValue)
  | pos :: rest =>
      match quoteFor pos with
      | Some quote =>
          valuationLoop quoteFor rest
            ((results ++ [PositionValue.valuePosition pos (Some quote)])%list)
            (totalCostBasis + PositionValue.costBasis pos)
            (totalSellValue + PositionValue.outSol quote)
      | None =>
          valuationLoop quoteFor rest
            ((results ++ [PositionValue.valuePosition pos None])%list)
            totalCostBasis totalSellValue
      end
  end.

(** One entry of [getPortfolioValue]; it has no [notes]. *)
Definition portfolioEntry (pos : PositionValue.Position)
    (quote : PositionValue.SellQuote) : PositionValue.PositionValue :=
  let sellValueSol := PositionValue.outSol quote in
  {| PositionValue.pv_symbol := PositionValue.symbol pos;
     PositionValue.pv_address := PositionValue.address pos;
     PositionValue.pv_tokens := PositionValue.tokens pos;
     PositionValue.pv_costBasis := PositionValue.costBasis pos;
     PositionValue.pv_sellValueSol := sellValueSol;
     PositionValue.pv_sellValueUsd := sellValueSol * PositionValue.SOL_PRICE_USD;
     PositionValue.pv_pnlSol := sellValueSol - PositionValue.costBasis pos;
     PositionValue.pv_pnlPercent :=
       match js_div sellValueSol (PositionValue.costBasis pos) with
       | Num r => Num ((r - 1) * 100)
       | other => other
       end;
     PositionValue.pv_priceImpact := PositionValue.priceImpact quote;
     PositionValue.pv_status :=
       if PositionValue.notesInclude (PositionValue.notes pos) "DIAMOND"
       then PositionValue.DIAMOND
       else if Qle_bool (PositionValue.costBasis pos) sellValueSol
       then PositionValue.PROFIT
       else PositionValue.LOSS;
     PositionValue.pv_notes := None |}.

(** The loop of [getPortfolioValue]: positions without a quote are left
    out. *)
Fixpoint portfolioLoop
    (quoteFor : PositionValue.Position -> option PositionValue.SellQuote)
    (positions : list PositionValue.Position)
    (results : list PositionValue.PositionValue)
    (totalCostBasis totalSellValue : Q)
  : list PositionValue.PositionValue * Q * Q :=
  match positions with
  | [] => (results, totalCostBasis, totalSellValue)
  | pos :: rest =>
      match quoteFor pos with
      | Some quote =>
          portfolioLoop quoteFor rest
            ((results ++ [portfolioEntry pos quote])%list)
            (totalCostBasis + PositionValue.costBasis pos)
            (totalSellValue + PositionValue.outSol quote)
      | None => portfolioLoop quoteFor rest results totalCostBasis totalSellValue
      end
  end.

End PositionTracker.

(* ------------------------------------------------------------------ *)
(** * Trade performance analyzer (performance.ts)                       *)
(* ------------------------------------------------------------------ *)

Module Performance.

Record ClosedPosition : Type := mkClosedPosition {
  symbol : string;
  name : string;
  address : string;
  entryPrice : Q;
  exitPrice : Q;
  entryDate : string;
  exitDate : string;
  tokens : Q;
  costBasis : Q;
  realized : Q;
  pnl : Q;
  pnlPct : Q;
  reason : string
}.

Record OpenPosition : Type := mkOpenPosition {
  o_symbol : string;
  o_costBasis : Q
}.

Record Stats : Type := mkStats {
  totalTrades : nat;
  winCount : nat;
  lossCount : nat;
  winRate : Q;
  totalPnL : Q;
  profitFactor : jsnum;
  expectancy : Q;
  riskReward : jsnum;
  avgWin : Q;
  avgLoss : Q;
  roiPct : jsnum;
  bestTrade : ClosedPosition;
  worstTrade : ClosedPosition;
  openPositions : nat;
  openCapital : Q
}.

(** [l.reduce((sum, t) => sum + f(t), 0)]. *)
Definition sumOf {A} (f : A -> Q) (l : list A) : Q :=
  fold_left (fun sum t => sum + f t) l 0.

Definition ofNat (n : nat) : Q := inject_Z (Z.of_nat n).

(** [Math.abs]. *)
Definition abs (x : Q) : Q := if Qltb x 0 then - x else x.

(** [analyzePerformance] on the two lists of the watchlist file (absent
    or a list); [None] is the early return "No closed trades to
    analyze." *)
Definition analyzePerformance (closedData : option (list ClosedPosition))
    (positionsData : option (list OpenPosition)) : option Stats :=
  let closed := match closedData with Some l => l | None => [] end in
  let open := match positionsData with Some l => l | None => [] end in
  match closed with
  | [] => None
  | first :: _ =>
      let wins := filter (fun t => Qltb 0 (pnl t)) closed in
      let losses := filter (fun t => Qle_bool (pnl t) 0) closed in
      let totalTrades := List.length closed in
      let winCount := List.length wins in
      let lossCount := List.length losses in
      let winRate := (ofNat winCount / ofNat totalTrades) * 100 in
      let totalPnL := sumOf pnl closed in
      let totalWins := sumOf pnl wins in
      let totalLosses := abs (sumOf pnl losses) in
      let avgWin :=
        if (0 <? List.length wins)%nat then totalWins / ofNat (List.length wins)
        else 0 in
      let avgLoss :=
        if (0 <? List.length losses)%nat
        then totalLosses / ofNat (List.length losses) else 0 in
      let profitFactor :=
        if Qltb 0 totalLosses then js_div totalWins totalLosses else PosInf in
      let expectancy :=
        (winRate / 100) * avgWin - ((100 - winRate) / 100) * avgLoss in
      let riskReward :=
        if Qltb 0 avgLoss then js_div avgWin avgLoss else PosInf in
      let bestTrade :=
        fold_left (fun best t => if Qltb (pnlPct best) (pnlPct t) then t else best)
                  closed first in
      let worstTrade :=
        fold_left (fun worst t => if Qltb (pnlPct t) (pnlPct worst) then t else worst)
                  closed first in
      let totalDeployed := sumOf costBasis closed in
      let totalRealized := sumOf realized closed in
      let roiPct :=
        match js_div (totalRealized - totalDeployed) totalDeployed with
        | Num r => Num (r * 100)
        | other => other
        end in
      let openCapital := sumOf o_costBasis open in
      Some {| totalTrades := totalTrades; winCount := winCount;
              lossCount := lossCount; winRate := winRate;
              totalPnL := totalPnL; profitFactor := profitFactor;
              expectancy := expectancy; riskReward := riskReward;
              avgWin := avgWin; avgLoss := avgLoss; roiPct := roiPct;
              bestTrade := bestTrade; worstTrade := worstTrade;
              openPositions := List.length open;
              openCapital := openCapital |}
  end.

End Performance.

(** One list of events begins another. *)
Definition startsWith (t full : list Event) : Prop :=
  exists rest, full = (t ++ rest)%list.

Definition creacherTrace : list Event :=
  [QuoteRequested; BuildRequested; Signed; Broadcast true None; ConfirmAwaited].

(** The age of a pool, in the three ranges the legacy checklist tells
    apart. *)
Definition ageOf (clock : ChecklistV1.Clock) (token : TokenData) : Q :=
  getPoolAgeHours (ChecklistV1.nowMs clock) (pairCreatedAt token).

(** Descending by score. *)
Fixpoint descending (l : list Scanner.TokenAnalysis) : Prop :=
  match l with
  | [] => True
  | x :: rest =>
      (forall y, In y rest -> (Scanner.score y <= Scanner.score x)%Z)
      /\ descending rest
  end.

(** Ascending by liquidity. *)
Fixpoint ascending (l : list LiquidityCheck.LiquidityStatus) : Prop :=
  match l with
  | [] => True
  | x :: rest =>
      (forall y, In y rest ->
         LiquidityCheck.ls_liquidity x <= LiquidityCheck.ls_liquidity y)
      /\ ascending rest
  end.

(* ------------------------------------------------------------------ *)
(** * Conditions and inputs the further properties are stated with      *)
(* ------------------------------------------------------------------ *)

(** The two tests of the critical tier of [isActiveDump]. *)
Definition activeDumpCritical (token : TokenData) : bool :=
  js_lt (buySellRatio (buys (t_m5 (txns token))) (sells (t_m5 (txns token)))) 0.5
  && Qltb (w_m5 (priceChange token)) (-5).

(** The position-size test of both checklists. *)
Definition sizeOk (entryAmount : jsnum) : bool :=
  js_ge entryAmount 0.2 && js_le entryAmount 1.0.

(** [mcap > 0 ? volume.h24 / mcap : 0]. *)
Definition volMcapOf (token : TokenData) : jsnum :=
  if Qltb 0 (mcap token)
  then js_div (w_h24 (volume token)) (mcap token) else Num 0.

(** The conditions of the checks of [runChecklist] (V2) that are marked
    critical, and of those that are not. *)
Definition blockingV2 (mint : string) (entryAmount : jsnum)
    (token : TokenData) (devInfo : ChecklistV2.DevVerification) : bool :=
  negb (ChecklistV2.isBags token mint)
  || negb (ChecklistV2.verified devInfo)
  || Qltb 100 (w_h1 (priceChange token))
  || activeDumpCritical token
  || negb (sizeOk entryAmount).

Definition cautionV2 (token : TokenData) : bool :=
  js_lt (buySellRatio (buys (t_h1 (txns token))) (sells (t_h1 (txns token)))) 0.5
  || fst (ChecklistV2.isActiveDump (txns token) (priceChange token))
  || negb (Qle_bool 5000 (w_h24 (volume token)))
  || negb (js_gt (volMcapOf token) 0.5)
  || Qltb 300 (w_h24 (priceChange token)).

(** The conditions under which a check of the legacy [runChecklist]
    fails without a warning sign in its message, and those under which a
    message carries the warning sign. *)
Definition blockingV1 (clock : ChecklistV1.Clock) (mint : string)
    (entryAmount : jsnum) (token : TokenData) : bool :=
  negb (fst (ChecklistV1.isTradinghours clock))
  || negb (ChecklistV1.isBags token mint)
     && negb (includes (dexId token) warn_sign)
  || negb (ChecklistV1.isBags token mint) && negb (Qle_bool 6 (ageOf clock token))
  || skewed token
  || Qltb 500 (w_h24 (priceChange token))
  || negb (sizeOk entryAmount).

Definition cautionV1 (clock : ChecklistV1.Clock) (token : TokenData) : bool :=
  includes (dexId token) warn_sign
  || Qle_bool 6 (ageOf clock token) && negb (Qle_bool 24 (ageOf clock token))
  || negb (Qle_bool 10000 (w_h24 (volume token)))
  || js_lt (buySellRatio (buys (t_h24 (txns token))) (sells (t_h24 (txns token)))) 1.0
  || negb (js_gt (volMcapOf token) 0.1)
  || Qltb 200 (w_h24 (priceChange token))
     && negb (Qltb 500 (w_h24 (priceChange token))).


(** The same SDK answers with another answer of the fallback request. *)
Definition withFallback (env : ChecklistV2.DevEnv)
    (fb : ChecklistV2.FallbackOutcome) : ChecklistV2.DevEnv :=
  {| ChecklistV2.sdk := ChecklistV2.sdk env; ChecklistV2.fallback := fb |}.

Definition isOk (i : Icon) : bool :=
  match i with IconOk => true | _ => false end.


Definition isStranded (s : LiquidityCheck.Status) : bool :=
  match s with LiquidityCheck.STRANDED => true | _ => false end.
Definition isError (s : LiquidityCheck.Status) : bool :=
  match s with LiquidityCheck.ERROR => true | _ => false end.

(** The report of one position, before the sort. *)
Definition reportOf (fetch : string -> result (option (list RawPair)))
    (pos : LiquidityCheck.Position) : LiquidityCheck.LiquidityStatus :=
  LiquidityCheck.assess pos
    (LiquidityCheck.fetchLiquidity (fetch (LiquidityCheck.address pos))).


(** A position for which [getSellQuote] resolved to a quote. *)
Definition quoted
    (quoteFor : PositionValue.Position -> option PositionValue.SellQuote)
    (pos : PositionValue.Position) : bool :=
  match quoteFor pos with Some _ => true | None => false end.

(** The search answer with the one pair of [pairWithoutLiquidity]. *)
Definition foundPair : ScannerCli.SearchPair :=
  {| ScannerCli.chainId := "solana"; ScannerCli.found := pairWithoutLiquidity |}.

(** Three hours after the pool of [sampleToken] was created. *)
Definition launchDay : ChecklistV1.Clock :=
  {| ChecklistV1.pstHour := 10; ChecklistV1.nowMs := 1000 + 3 * 3600000 |}.


Definition sampleSignature : string :=
  "5VERv8NMvzbJMEkV8xnrLkEaWRtSz9CosKDYjCJjBRnb".

(** An entry without its notes. *)
Definition withoutNotes (r : PositionValue.PositionValue)
  : PositionValue.PositionValue :=
  {| PositionValue.pv_symbol := PositionValue.pv_symbol r;
     PositionValue.pv_address := PositionValue.pv_address r;
     PositionValue.pv_tokens := PositionValue.pv_tokens r;
     PositionValue.pv_costBasis := PositionValue.pv_costBasis r;
     PositionValue.pv_sellValueSol := PositionValue.pv_sellValueSol r;
     PositionValue.pv_sellValueUsd := PositionValue.pv_sellValueUsd r;
     PositionValue.pv_pnlSol := PositionValue.pv_pnlSol r;
     PositionValue.pv_pnlPercent := PositionValue.pv_pnlPercent r;
     PositionValue.pv_priceImpact := PositionValue.pv_priceImpact r;
     PositionValue.pv_status := PositionValue.pv_status r;
     PositionValue.pv_notes := None |}.

(** The quote endpoint rejects the first two requests with status 429 and
    answers the third. *)
Definition busyTwice (request : nat) : PositionTracker.QuoteReply :=
  if (request <? 2)%nat then PositionTracker.RateLimited
  else PositionTracker.Answered true (Some (1700000000, Some 0.3)).

(** Two closed trades, one won and one lost. *)
Definition closedTrades : list Performance.ClosedPosition :=
  [ {| Performance.symbol := "COYOTE"; Performance.name := "Coyote";
       Performance.address := "Cmt1QS7ithsa3Qe1v8UrQfJ4JTpcj3vMsMFJ8H3uBAGS";
       Performance.entryPrice := 0.0001; Performance.exitPrice := 0.0003;
       Performance.entryDate := "2026-01-20"; Performance.exitDate := "2026-01-22";
       Performance.tokens := 510000; Performance.costBasis := 0.25;
       Performance.realized := 0.75; Performance.pnl := 0.5;
       Performance.pnlPct := 200; Performance.reason := "take profit" |};
    {| Performance.symbol := "ODD"; Performance.name := "Odd";
       Performance.address := "4gfNpwo8LQtcgGrNmgWhuwfFhttgZ8Qb6QXN4Yz8BAGS";
       Performance.entryPrice := 0.001; Performance.exitPrice := 0.0006;
       Performance.entryDate := "2026-01-21"; Performance.exitDate := "2026-01-21";
       Performance.tokens := 250000; Performance.costBasis := 0.25;
       Performance.realized := 0.15; Performance.pnl := -0.1;
       Performance.pnlPct := -40; Performance.reason := "stop loss" |} ].

(** Case analysis for a statement about the beginning of a trace. *)
Ltac prefix_cases :=
  unfold_run; run_cases;
  first [ reflexivity
        | discriminate
        | (unfold startsWith, fullTrace, creacherTrace; eexists; reflexivity)
        | (intros; discriminate) ].

Ltac destruct_bools :=
  repeat match goal with
         | |- context [?b] =>
             is_var b;
             match type of b with bool => destruct b end
         end.

(** One check of the legacy checklist, under the two facts [A] and [R]
    that relate its thresholds. *)
Ltac legacy_solve A R :=
  unfold hardFailV1, warnsV1, includes_warn;
  cbn [ChecklistV1.status ChecklistV1.msg];
  destruct_bools;
  cbn [fst snd icon interp existsb is_warn negb andb orb];
  try reflexivity;
  try (discriminate (A eq_refl)); try (discriminate (R eq_refl));
  match goal with
  | |- context [includes ?d warn_sign] => destruct (includes d warn_sign)
  end; reflexivity.

Ltac legacy_check f n v A R :=
  match goal with
  | |- context [f (ChecklistV1.mkCheck n ?s ?m)] =>
      replace (f (ChecklistV1.mkCheck n s m)) with v;
      [|symmetry; legacy_solve A R]
  end.

(* ================================================================== *)
(** * Properties                                                        *)
(* ================================================================== *)

Section Numbers.

Lemma Qltb_true (a b : Q) : Qltb a b = true <-> a < b.
Proof.
  unfold Qltb. rewrite negb_true_iff.
  split; intro H.
  - apply Qnot_le_lt. intro L. apply Qle_bool_iff in L. congruence.
  - destruct (Qle_bool b a) eqn:E; [|reflexivity].
    apply Qle_bool_iff in E. exfalso. exact (Qlt_not_le _ _ H E).
Qed.

Lemma Qltb_false (a b : Q) : Qltb a b = false <-> b <= a.
Proof.
  unfold Qltb. rewrite negb_false_iff. apply Qle_bool_iff.
Qed.

Lemma js_div_finite (a b : Q) : ~ b == 0 -> js_div a b = Num (a / b).
Proof.
  intro H. unfold js_div.
  destruct (Qeq_bool b 0) eqn:E; [|reflexivity].
  apply Qeq_bool_iff in E. contradiction.
Qed.

Lemma buySellRatio_cases (b s : Q) :
  buySellRatio b s = Num (if Qltb 0 s then b / s else b).
Proof.
  unfold buySellRatio. destruct (Qltb 0 s) eqn:E; [|reflexivity].
  apply js_div_finite. apply Qltb_true in E.
  intro Z0. rewrite Z0 in E. exact (Qlt_irrefl _ E).
Qed.

Lemma ratio_guarded_finite (v m : Q) :
  is_finite (if Qltb 0 m then js_div v m else Num 0) = true.
Proof.
  destruct (Qltb 0 m) eqn:E; [|reflexivity].
  rewrite js_div_finite; [reflexivity|].
  apply Qltb_true in E. intro Z0. rewrite Z0 in E. exact (Qlt_irrefl _ E).
Qed.

Lemma zero_sells_ratio (b s : Q) :
  Qeq_bool s 0 = true -> buySellRatio b s = Num b.
Proof.
  intro Hz. rewrite buySellRatio_cases.
  apply Qeq_bool_iff in Hz.
  destruct (Qltb 0 s) eqn:E; [|reflexivity].
  apply Qltb_true in E. rewrite Hz in E. exfalso. exact (Qlt_irrefl _ E).
Qed.

End Numbers.

(** C9. The buy/sell ratio [sells > 0 ? buys / sells : buys] is total on
    every pair of counts: its value is always a finite number, it is the
    raw buy count whenever the sell count is zero (whatever its
    representation [0 # d]), and the division is only reached with a
    positive divisor.  So it is for each window of a snapshot the
    checklists read, and the ratio the scanner reports for any pair is
    finite too and is the buy count when there are no sells. *)
Theorem ratio_total :
  forall (b s : Q) (d : positive) (snapshot : Txns) (pair0 : RawPair),
    is_finite (buySellRatio b s) = true
    /\ buySellRatio b (0 # d) = Num b
    /\ buySellRatio b s = Num (if Qltb 0 s then b / s else b)
    /\ (forall c,
           In c [t_h1 snapshot; t_h6 snapshot; t_h24 snapshot; t_m5 snapshot] ->
           is_finite (buySellRatio (buys c) (sells c)) = true
           /\ (Qeq_bool (sells c) 0 = true ->
               buySellRatio (buys c) (sells c) = Num (buys c)))
    /\ is_finite (Scanner.m_buyRatio (Scanner.metrics (Scanner.analyzeToken pair0)))
       = true
    /\ (Qeq_bool (or0 (p_sells_h24 pair0)) 0 = true ->
        Scanner.m_buyRatio (Scanner.metrics (Scanner.analyzeToken pair0))
        = Num (or0 (p_buys_h24 pair0))).
Proof.
  intros b s d snapshot pair0.
  split; [|split; [|split; [|split; [|split]]]].
  - rewrite buySellRatio_cases. reflexivity.
  - reflexivity.
  - apply buySellRatio_cases.
  - intros c _. split.
    + rewrite buySellRatio_cases. reflexivity.
    + intro Hz. apply zero_sells_ratio. exact Hz.
  - unfold Scanner.analyzeToken.
    match goal with
    | |- context [match ?x with pair _ _ => _ end] => destruct x as [[? ?] ?]
    end.
    cbn [Scanner.metrics Scanner.m_buyRatio].
    rewrite buySellRatio_cases. reflexivity.
  - intro Hz. unfold Scanner.analyzeToken.
    match goal with
    | |- context [match ?x with pair _ _ => _ end] => destruct x as [[? ?] ?]
    end.
    cbn [Scanner.metrics Scanner.m_buyRatio].
    apply zero_sells_ratio. exact Hz.
Qed.

(* ------------------------------------------------------------------ *)
(** ** Aggregation of the checks                                        *)
(* ------------------------------------------------------------------ *)

Section Aggregation.

Lemma filter_nonempty {A} (p : A -> bool) (l : list A) :
  (0 <? List.length (filter p l))%nat = true <->
  exists x, In x l /\ p x = true.
Proof.
  rewrite Nat.ltb_lt. split.
  - intro H. destruct (filter p l) as [|x r] eqn:E; [simpl in H; lia|].
    exists x. apply filter_In. rewrite E. left. reflexivity.
  - intros [x Hx]. apply filter_In in Hx.
    destruct (filter p l); [contradiction|simpl; lia].
Qed.

Lemma filter_empty {A} (p : A -> bool) (l : list A) :
  (0 <? List.length (filter p l))%nat = false <->
  forall x, In x l -> p x = false.
Proof.
  split.
  - intros H x Hx. destruct (p x) eqn:E; [|reflexivity].
    assert (T : (0 <? List.length (filter p l))%nat = true)
      by (apply filter_nonempty; exists x; split; assumption).
    congruence.
  - intro H. destruct (0 <? List.length (filter p l))%nat eqn:E; [|reflexivity].
    apply filter_nonempty in E. destruct E as [x [Hx Px]].
    rewrite (H x Hx) in Px. discriminate.
Qed.

Lemma tallyV2_counts (cs : list ChecklistV2.Check) :
  forall cf w,
    ChecklistV2.tally cs cf w =
    ((cf + List.length (filter criticalFailV2 cs))%nat,
     (w + List.length (filter advisoryFailV2 cs))%nat).
Proof.
  induction cs as [|c cs IH]; intros cf w; simpl.
  - rewrite !Nat.add_0_r. reflexivity.
  - rewrite IH. unfold criticalFailV2, advisoryFailV2.
    destruct (ChecklistV2.status c), (ChecklistV2.critical c); simpl;
      f_equal; lia.
Qed.

Lemma tallyV1_counts (cs : list ChecklistV1.Check) :
  forall f w,
    ChecklistV1.tally cs f w =
    ((f + List.length (filter hardFailV1 cs))%nat,
     (w + List.length (filter warnsV1 cs))%nat).
Proof.
  induction cs as [|c cs IH]; intros f w; simpl.
  - rewrite !Nat.add_0_r. reflexivity.
  - rewrite IH. unfold hardFailV1, warnsV1.
    destruct (ChecklistV1.status c), (includes_warn (ChecklistV1.msg c)); simpl;
      f_equal; lia.
Qed.

Lemma summarizeV2_eq (cs : list ChecklistV2.Check) :
  ChecklistV2.summarize cs =
  if (0 <? List.length (filter criticalFailV2 cs))%nat then BLOCK
  else if (0 <? List.length (filter advisoryFailV2 cs))%nat then WARN
  else ALLOW.
Proof.
  unfold ChecklistV2.summarize. rewrite tallyV2_counts. reflexivity.
Qed.

Lemma summarizeV1_eq (cs : list ChecklistV1.Check) :
  ChecklistV1.summarize cs =
  if (0 <? List.length (filter hardFailV1 cs))%nat then BLOCK
  else if (0 <? List.length (filter warnsV1 cs))%nat then WARN
  else ALLOW.
Proof.
  unfold ChecklistV1.summarize. rewrite tallyV1_counts. reflexivity.
Qed.

(** BLOCK in V2 exactly when a critical check fails. *)
Lemma blockV2_iff (cs : list ChecklistV2.Check) :
  ChecklistV2.summarize cs = BLOCK <->
  exists c, In c cs /\ ChecklistV2.status c = false
            /\ ChecklistV2.critical c = true.
Proof.
  rewrite summarizeV2_eq. split.
  - intro H.
    destruct (0 <? List.length (filter criticalFailV2 cs))%nat eqn:E.
    + apply filter_nonempty in E. destruct E as [c [Hc Pc]].
      exists c. unfold criticalFailV2 in Pc.
      apply andb_true_iff in Pc. destruct Pc as [P1 P2].
      apply negb_true_iff in P1. auto.
    + destruct (0 <? List.length (filter advisoryFailV2 cs))%nat; discriminate.
  - intros [c [Hc [S C]]].
    assert (E : (0 <? List.length (filter criticalFailV2 cs))%nat = true).
    { apply filter_nonempty. exists c. split; [assumption|].
      unfold criticalFailV2. rewrite S, C. reflexivity. }
    rewrite E. reflexivity.
Qed.

Lemma warnV2_iff (cs : list ChecklistV2.Check) :
  ChecklistV2.summarize cs = WARN <->
  (forall c, In c cs -> ChecklistV2.status c = false ->
             ChecklistV2.critical c = false)
  /\ exists c, In c cs /\ ChecklistV2.status c = false
               /\ ChecklistV2.critical c = false.
Proof.
  rewrite summarizeV2_eq. split.
  - intro H.
    destruct (0 <? List.length (filter criticalFailV2 cs))%nat eqn:E;
      [discriminate|].
    destruct (0 <? List.length (filter advisoryFailV2 cs))%nat eqn:E2;
      [|discriminate].
    split.
    + intros c Hc S. pose proof (proj1 (filter_empty _ _) E c Hc) as P.
      unfold criticalFailV2 in P. rewrite S in P. simpl in P. exact P.
    + apply filter_nonempty in E2. destruct E2 as [c [Hc Pc]].
      exists c. unfold advisoryFailV2 in Pc.
      apply andb_true_iff in Pc. destruct Pc as [P1 P2].
      apply negb_true_iff in P1. apply negb_true_iff in P2. auto.
  - intros [Hno [c [Hc [S C]]]].
    assert (E : (0 <? List.length (filter criticalFailV2 cs))%nat = false).
    { apply filter_empty. intros x Hx. unfold criticalFailV2.
      destruct (ChecklistV2.status x) eqn:Sx; [reflexivity|].
      rewrite (Hno x Hx Sx). reflexivity. }
    assert (E2 : (0 <? List.length (filter advisoryFailV2 cs))%nat = true).
    { apply filter_nonempty. exists c. split; [assumption|].
      unfold advisoryFailV2. rewrite S, C. reflexivity. }
    rewrite E, E2. reflexivity.
Qed.

Lemma allowV2_iff (cs : list ChecklistV2.Check) :
  ChecklistV2.summarize cs = ALLOW <->
  forall c, In c cs -> ChecklistV2.status c = true.
Proof.
  rewrite summarizeV2_eq. split.
  - intro H.
    destruct (0 <? List.length (filter criticalFailV2 cs))%nat eqn:E;
      [discriminate|].
    destruct (0 <? List.length (filter advisoryFailV2 cs))%nat eqn:E2;
      [discriminate|].
    intros c Hc.
    pose proof (proj1 (filter_empty _ _) E c Hc) as P1.
    pose proof (proj1 (filter_empty _ _) E2 c Hc) as P2.
    unfold criticalFailV2 in P1. unfold advisoryFailV2 in P2.
    destruct (ChecklistV2.status c), (ChecklistV2.critical c);
      simpl in *; congruence.
  - intro H.
    assert (E : (0 <? List.length (filter criticalFailV2 cs))%nat = false).
    { apply filter_empty. intros x Hx. unfold criticalFailV2.
      rewrite (H x Hx). reflexivity. }
    assert (E2 : (0 <? List.length (filter advisoryFailV2 cs))%nat = false).
    { apply filter_empty. intros x Hx. unfold advisoryFailV2.
      rewrite (H x Hx). reflexivity. }
    rewrite E, E2. reflexivity.
Qed.

(** BLOCK in the legacy checklist exactly when a failed check carries no
    warning sign. *)
Lemma blockV1_iff (cs : list ChecklistV1.Check) :
  ChecklistV1.summarize cs = BLOCK <->
  exists c, In c cs /\ ChecklistV1.status c = false
            /\ includes_warn (ChecklistV1.msg c) = false.
Proof.
  rewrite summarizeV1_eq. split.
  - intro H.
    destruct (0 <? List.length (filter hardFailV1 cs))%nat eqn:E.
    + apply filter_nonempty in E. destruct E as [c [Hc Pc]].
      exists c. unfold hardFailV1 in Pc.
      apply andb_true_iff in Pc. destruct Pc as [P1 P2].
      apply negb_true_iff in P1. apply negb_true_iff in P2. auto.
    + destruct (0 <? List.length (filter warnsV1 cs))%nat; discriminate.
  - intros [c [Hc [S C]]].
    assert (E : (0 <? List.length (filter hardFailV1 cs))%nat = true).
    { apply filter_nonempty. exists c. split; [assumption|].
      unfold hardFailV1. rewrite S, C. reflexivity. }
    rewrite E. reflexivity.
Qed.

Lemma warnV1_iff (cs : list ChecklistV1.Check) :
  ChecklistV1.summarize cs = WARN <->
  (forall c, In c cs -> ChecklistV1.status c = false ->
             includes_warn (ChecklistV1.msg c) = true)
  /\ exists c, In c cs /\ includes_warn (ChecklistV1.msg c) = true.
Proof.
  rewrite summarizeV1_eq. split.
  - intro H.
    destruct (0 <? List.length (filter hardFailV1 cs))%nat eqn:E;
      [discriminate|].
    destruct (0 <? List.length (filter warnsV1 cs))%nat eqn:E2;
      [|discriminate].
    split.
    + intros c Hc S. pose proof (proj1 (filter_empty _ _) E c Hc) as P.
      unfold hardFailV1 in P. rewrite S in P. simpl in P.
      apply negb_false_iff in P. exact P.
    + apply filter_nonempty in E2. destruct E2 as [c [Hc Pc]].
      exists c. auto.
  - intros [Hno [c [Hc W]]].
    assert (E : (0 <? List.length (filter hardFailV1 cs))%nat = false).
    { apply filter_empty. intros x Hx. unfold hardFailV1.
      destruct (ChecklistV1.status x) eqn:Sx; [reflexivity|].
      rewrite (Hno x Hx Sx). reflexivity. }
    assert (E2 : (0 <? List.length (filter warnsV1 cs))%nat = true).
    { apply filter_nonempty. exists c. split; assumption. }
    rewrite E, E2. reflexivity.
Qed.

Lemma allowV1_iff (cs : list ChecklistV1.Check) :
  ChecklistV1.summarize cs = ALLOW <->
  forall c, In c cs ->
    ChecklistV1.status c = true /\ includes_warn (ChecklistV1.msg c) = false.
Proof.
  rewrite summarizeV1_eq. split.
  - intro H.
    destruct (0 <? List.length (filter hardFailV1 cs))%nat eqn:E;
      [discriminate|].
    destruct (0 <? List.length (filter warnsV1 cs))%nat eqn:E2;
      [discriminate|].
    intros c Hc.
    pose proof (proj1 (filter_empty _ _) E c Hc) as P1.
    pose proof (proj1 (filter_empty _ _) E2 c Hc) as P2.
    unfold hardFailV1 in P1. unfold warnsV1 in P2. rewrite P2 in P1.
    destruct (ChecklistV1.status c); simpl in *; [auto|discriminate].
  - intro H.
    assert (E : (0 <? List.length (filter hardFailV1 cs))%nat = false).
    { apply filter_empty. intros x Hx. unfold hardFailV1.
      destruct (H x Hx) as [S _]. rewrite S. reflexivity. }
    assert (E2 : (0 <? List.length (filter warnsV1 cs))%nat = false).
    { apply filter_empty. intros x Hx. unfold warnsV1.
      destruct (H x Hx) as [_ W]. exact W. }
    rewrite E, E2. reflexivity.
Qed.

End Aggregation.

(** C2 (as amended).  In the V2 checklist the verdict is BLOCK exactly
    when a check flagged critical fails, otherwise WARN exactly when a
    check not flagged critical fails, otherwise ALLOW.  The legacy
    checklist has no severity flag and reads the sign of the message:
    BLOCK exactly when a failed check carries no warning sign, otherwise
    WARN exactly when some check carries the warning sign, whether it
    passed or failed, otherwise ALLOW. *)
Theorem verdict_aggregation :
  (forall cs : list ChecklistV2.Check,
      (ChecklistV2.summarize cs = BLOCK <->
       exists c, In c cs /\ ChecklistV2.status c = false
                 /\ ChecklistV2.critical c = true)
      /\ (ChecklistV2.summarize cs = WARN <->
          (forall c, In c cs -> ChecklistV2.status c = false ->
                     ChecklistV2.critical c = false)
          /\ exists c, In c cs /\ ChecklistV2.status c = false
                       /\ ChecklistV2.critical c = false)
      /\ (ChecklistV2.summarize cs = ALLOW <->
          forall c, In c cs -> ChecklistV2.status c = true))
  /\
  (forall cs : list ChecklistV1.Check,
      (ChecklistV1.summarize cs = BLOCK <->
       exists c, In c cs /\ ChecklistV1.status c = false
                 /\ includes_warn (ChecklistV1.msg c) = false)
      /\ (ChecklistV1.summarize cs = WARN <->
          (forall c, In c cs -> ChecklistV1.status c = false ->
                     includes_warn (ChecklistV1.msg c) = true)
          /\ exists c, In c cs /\ includes_warn (ChecklistV1.msg c) = true)
      /\ (ChecklistV1.summarize cs = ALLOW <->
          forall c, In c cs ->
            ChecklistV1.status c = true
            /\ includes_warn (ChecklistV1.msg c) = false)).
Proof.
  split; intro cs.
  - split; [apply blockV2_iff|split; [apply warnV2_iff|apply allowV2_iff]].
  - split; [apply blockV1_iff|split; [apply warnV1_iff|apply allowV1_iff]].
Qed.

(** C2 does not hold of the legacy checklist as the specification states
    it: for a bags.fm token that is up 300% over 24 hours every check
    passes (no critical and no advisory check fails), and the verdict is
    WARN, not ALLOW. *)
Lemma verdict_aggregation_legacy_warns_without_failure :
  exists rep,
    ChecklistV1.runChecklist morning (Some (sampleToken 10 300 300 200))
      sampleMint (Num 0.25) = Some rep
    /\ forallb ChecklistV1.status (ChecklistV1.checks rep) = true
    /\ ChecklistV1.verdict rep = WARN.
Proof.
  eexists. split; [reflexivity|]. split; vm_compute; reflexivity.
Qed.

(** The legacy summary searches the whole message: a token of another
    venue whose dexId contains the warning sign fails the ecosystem check,
    and the failure is counted as a warning, not as a failed check. *)
Lemma legacy_sign_inside_dexId :
  exists rep,
    ChecklistV1.runChecklist morning (Some oddVenueToken)
      "So11111111111111111111111111111111111111112" (Num 0.25) = Some rep
    /\ failedV1 (ChecklistV1.checks rep) = ["BAGS Ecosystem"]
    /\ ChecklistV1.verdict rep = WARN.
Proof.
  eexists. split; [reflexivity|]. split; vm_compute; reflexivity.
Qed.

(* ------------------------------------------------------------------ *)
(** ** The ratio check and creator verification                         *)
(* ------------------------------------------------------------------ *)

Section RatioCheck.

Lemma ratio_check_V2 mint amount token devInfo :
  findV2 "Buy/Sell Ratio"
    (ChecklistV2.buildChecks mint amount token devInfo)
  = Some (ChecklistV2.mkCheck "Buy/Sell Ratio"
            (negb (skewed token && negb (ChecklistV2.verified devInfo))
             && negb (js_lt (buySellRatio (buys (t_h1 (txns token)))
                                          (sells (t_h1 (txns token)))) 0.5))
            (if skewed token && negb (ChecklistV2.verified devInfo)
             then ChecklistV2.msgPumpTrap
             else if js_lt (buySellRatio (buys (t_h1 (txns token)))
                                         (sells (t_h1 (txns token)))) 0.5
             then mkMessage IconWarn
                    "h1 ratio {h1Ratio}:1 - more sellers than buyers" []
             else mkMessage IconOk "h24: {h24Ratio}:1 | h1: {h1Ratio}:1" [])
            (skewed token && negb (ChecklistV2.verified devInfo))).
Proof. reflexivity. Qed.

Lemma findV2_In n cs c : findV2 n cs = Some c -> In c cs.
Proof.
  induction cs as [|x cs IH]; simpl; [discriminate|].
  destruct (String.eqb (ChecklistV2.name x) n).
  - intro H. inversion H. left. reflexivity.
  - intro H. right. apply IH. exact H.
Qed.

Lemma findV1_In n cs c : findV1 n cs = Some c -> In c cs.
Proof.
  induction cs as [|x cs IH]; simpl; [discriminate|].
  destruct (String.eqb (ChecklistV1.name x) n).
  - intro H. inversion H. left. reflexivity.
  - intro H. right. apply IH. exact H.
Qed.

End RatioCheck.

(** C4 (as amended).  In the V2 checklist the Buy/Sell Ratio check is
    flagged critical exactly when the 24h buy/sell ratio is above 10 and
    the creator is unverified; it then fails and the verdict is BLOCK;
    with a verified creator the check is never critical, whatever the
    skew.  The legacy checklist takes no creator verification: a 24h
    ratio above 10 alone fails its Buy/Sell Ratio check with the
    pump-trap message and the verdict is BLOCK. *)
Theorem skew_and_verification :
  (forall mint amount token devInfo,
      exists c,
        findV2 "Buy/Sell Ratio"
          (ChecklistV2.buildChecks mint amount token devInfo) = Some c
        /\ ChecklistV2.critical c
           = skewed token && negb (ChecklistV2.verified devInfo)
        /\ (ChecklistV2.critical c = true ->
            ChecklistV2.status c = false
            /\ ChecklistV2.msg c = ChecklistV2.msgPumpTrap
            /\ ChecklistV2.summarize
                 (ChecklistV2.buildChecks mint amount token devInfo) = BLOCK)
        /\ (ChecklistV2.verified devInfo = true ->
            ChecklistV2.critical c = false))
  /\
  (forall clock mint amount token,
      skewed token = true ->
      exists c,
        findV1 "Buy/Sell Ratio"
          (ChecklistV1.tokenChecks clock mint amount token) = Some c
        /\ ChecklistV1.status c = false
        /\ ChecklistV1.msg c = ChecklistV1.msgPumpTrap
        /\ ChecklistV1.summarize
             (ChecklistV1.hoursCheck clock
              :: ChecklistV1.tokenChecks clock mint amount token) = BLOCK).
Proof.
  split.
  - intros mint amount token devInfo.
    eexists. split; [apply ratio_check_V2|].
    cbn [ChecklistV2.critical ChecklistV2.status ChecklistV2.msg].
    split; [reflexivity|]. split.
    + intro T. rewrite T. split; [reflexivity|]. split; [reflexivity|].
      apply blockV2_iff. eexists. split.
      * eapply findV2_In. apply ratio_check_V2.
      * cbn [ChecklistV2.critical ChecklistV2.status]. rewrite T. auto.
    + intro V. rewrite V. rewrite andb_false_r. reflexivity.
  - intros clock mint amount token Sk.
    assert (F : findV1 "Buy/Sell Ratio"
                  (ChecklistV1.tokenChecks clock mint amount token)
                = Some (ChecklistV1.mkCheck "Buy/Sell Ratio" false
                          ChecklistV1.msgPumpTrap)).
    { unfold skewed in Sk.
      cbv beta iota zeta delta
        [ChecklistV1.tokenChecks findV1 ChecklistV1.name].
      cbn [String.eqb Ascii.eqb Bool.eqb].
      rewrite Sk. f_equal. f_equal.
      unfold js_gt in Sk. rewrite buySellRatio_cases in *.
      cbn [js_lt js_le js_ge] in *.
      apply Qltb_true in Sk.
      assert (L : Qle_bool
                    (if Qltb 0 (sells (t_h24 (txns token)))
                     then buys (t_h24 (txns token)) / sells (t_h24 (txns token))
                     else buys (t_h24 (txns token))) 10 = false).
      { destruct (Qle_bool _ 10) eqn:E; [|reflexivity].
        apply Qle_bool_iff in E. exfalso. exact (Qlt_not_le _ _ Sk E). }
      rewrite L. apply andb_false_r. }
    eexists. split; [exact F|].
    split; [reflexivity|]. split; [reflexivity|].
    apply blockV1_iff. eexists. split.
    + right. eapply findV1_In. exact F.
    + split; reflexivity.
Qed.

(** C4 does not hold of the legacy checklist as the specification states
    it: with 1100 buys against 100 sells over 24 hours and nothing else
    wrong, the verdict is BLOCK and the only failed check is the ratio
    check; no creator verification enters the verdict. *)
Lemma skew_alone_blocks_in_legacy :
  exists rep,
    ChecklistV1.runChecklist morning (Some (sampleToken 10 50 1100 100))
      sampleMint (Num 0.25) = Some rep
    /\ ChecklistV1.verdict rep = BLOCK
    /\ failedV1 (ChecklistV1.checks rep) = ["Buy/Sell Ratio"].
Proof.
  eexists. split; [reflexivity|]. split; vm_compute; reflexivity.
Qed.

(* ------------------------------------------------------------------ *)
(** ** The pump guard                                                   *)
(* ------------------------------------------------------------------ *)

Section PumpGuard.

Lemma h1_check_V2 mint amount token devInfo :
  findV2 "H1 Pump Check"
    (ChecklistV2.buildChecks mint amount token devInfo)
  = Some (ChecklistV2.mkCheck "H1 Pump Check"
            (negb (Qltb 100 (w_h1 (priceChange token))))
            (if Qltb 100 (w_h1 (priceChange token))
             then ChecklistV2.msgDontChase
             else if Qltb 50 (w_h1 (priceChange token))
             then ChecklistV2.msgH1Risky
             else ChecklistV2.msgH1Ok)
            (Qltb 100 (w_h1 (priceChange token)))).
Proof. reflexivity. Qed.

Lemma pump_check_V1 clock mint amount token :
  findV1 "Pump Check" (ChecklistV1.tokenChecks clock mint amount token)
  = Some (ChecklistV1.mkCheck "Pump Check"
            (negb (Qltb 500 (w_h24 (priceChange token))))
            (if Qltb 500 (w_h24 (priceChange token))
             then ChecklistV1.msgDontChase
             else if Qltb 200 (w_h24 (priceChange token))
             then ChecklistV1.msgAlreadyMoved
             else mkMessage IconOk
                    "Price change: {h24}% 24h (reasonable entry)" [])).
Proof. reflexivity. Qed.

End PumpGuard.

(** C5 (as amended).  In the V2 checklist a 1h price change above 100%
    fails the H1 Pump Check as a critical check with the
    don't-chase-pumps reason and the verdict is BLOCK; a 1h change of at
    most 100% never makes that check a critical failure.  The legacy
    checklist reads the 24h change instead: above 500% its Pump Check
    fails with the don't-chase-pumps reason and the verdict is BLOCK;
    above 200% and at most 500% the check passes with a warning that the
    summary counts, so the verdict is not ALLOW and the check is no
    reason for a BLOCK. *)
Theorem pump_guard :
  (forall mint amount token devInfo,
      exists c,
        findV2 "H1 Pump Check"
          (ChecklistV2.buildChecks mint amount token devInfo) = Some c
        /\ (Qltb 100 (w_h1 (priceChange token)) = true ->
            ChecklistV2.status c = false
            /\ ChecklistV2.critical c = true
            /\ ChecklistV2.msg c = ChecklistV2.msgDontChase
            /\ ChecklistV2.summarize
                 (ChecklistV2.buildChecks mint amount token devInfo) = BLOCK)
        /\ (Qltb 100 (w_h1 (priceChange token)) = false ->
            criticalFailV2 c = false))
  /\
  (forall clock mint amount token,
      let cs := ChecklistV1.hoursCheck clock
                :: ChecklistV1.tokenChecks clock mint amount token in
      exists c,
        findV1 "Pump Check"
          (ChecklistV1.tokenChecks clock mint amount token) = Some c
        /\ (Qltb 500 (w_h24 (priceChange token)) = true ->
            ChecklistV1.status c = false
            /\ ChecklistV1.msg c = ChecklistV1.msgDontChase
            /\ ChecklistV1.summarize cs = BLOCK)
        /\ (Qltb 500 (w_h24 (priceChange token)) = false ->
            Qltb 200 (w_h24 (priceChange token)) = true ->
            ChecklistV1.msg c = ChecklistV1.msgAlreadyMoved
            /\ hardFailV1 c = false
            /\ ChecklistV1.summarize cs <> ALLOW)).
Proof.
  split.
  - intros mint amount token devInfo.
    eexists. split; [apply h1_check_V2|].
    cbn [ChecklistV2.critical ChecklistV2.status ChecklistV2.msg].
    split.
    + intro T. rewrite T.
      split; [reflexivity|]. split; [reflexivity|]. split; [reflexivity|].
      apply blockV2_iff. eexists. split.
      * eapply findV2_In. apply h1_check_V2.
      * cbn [ChecklistV2.critical ChecklistV2.status]. rewrite T. auto.
    + intro F. unfold criticalFailV2.
      cbn [ChecklistV2.critical ChecklistV2.status]. rewrite F. reflexivity.
  - intros clock mint amount token cs.
    eexists. split; [apply pump_check_V1|].
    cbn [ChecklistV1.status ChecklistV1.msg].
    split.
    + intro T. rewrite T.
      split; [reflexivity|]. split; [reflexivity|].
      apply blockV1_iff. eexists. split.
      * right. eapply findV1_In. apply pump_check_V1.
      * cbn [ChecklistV1.status ChecklistV1.msg]. rewrite T.
        split; reflexivity.
    + intros F T. rewrite F, T.
      split; [reflexivity|]. split; [reflexivity|].
      intro A. pose proof (proj1 (allowV1_iff cs) A) as A'.
      assert (I : In (ChecklistV1.mkCheck "Pump Check" true
                        ChecklistV1.msgAlreadyMoved) cs).
      { right. eapply findV1_In. rewrite pump_check_V1, F, T. reflexivity. }
      destruct (A' _ I) as [_ W]. discriminate W.
Qed.

(** C5 does not hold of the legacy checklist as the specification states
    it: a snapshot that is up 150% in the last hour (and 150% over 24
    hours) passes every check there; the verdict is ALLOW, not BLOCK. *)
Lemma h1_pump_passes_legacy :
  exists rep,
    ChecklistV1.runChecklist morning (Some (sampleToken 150 150 300 200))
      sampleMint (Num 0.25) = Some rep
    /\ ChecklistV1.verdict rep = ALLOW
    /\ failedV1 (ChecklistV1.checks rep) = [].
Proof.
  eexists. split; [reflexivity|]. split; vm_compute; reflexivity.
Qed.

(** In V2 a 1h change of 75% gives the H1 Pump Check its warning message
    while the check still passes: the summary counts no warning and the
    verdict for an otherwise clean token is ALLOW. *)
Lemma h1_moderate_not_counted_V2 :
  exists rep c,
    ChecklistV2.runChecklist
      (worldV2 (sampleToken 75 50 300 200) (sdkAnswers [knownDev]))
      sampleMint (Num 0.25) = Ok (Some rep)
    /\ findV2 "H1 Pump Check" (ChecklistV2.checks rep) = Some c
    /\ ChecklistV2.msg c = ChecklistV2.msgH1Risky
    /\ ChecklistV2.status c = true
    /\ ChecklistV2.verdict rep = ALLOW.
Proof.
  eexists. eexists. split; [reflexivity|].
  split; [reflexivity|].
  split; [vm_compute; reflexivity|].
  split; vm_compute; reflexivity.
Qed.

(* ------------------------------------------------------------------ *)
(** ** The verdict and the clock                                        *)
(* ------------------------------------------------------------------ *)

(** C6 (as amended).  The V2 verdict and its checks are a function of the
    snapshot, the verification answers, the mint and the amount: the
    clock only enters the age that is printed.  The legacy verdict also
    reads the clock, through the trading-hours check and the age of the
    pool: two evaluations agree whenever they fall on the same side of
    the trading hours and see the pool on the same side of the 6 and 24
    hour marks. *)
Theorem verdict_and_clock :
  (forall now1 now2 tokenData dev mint amount,
      verdictV2 (ChecklistV2.runChecklist
                   (ChecklistV2.mkWorld now1 tokenData dev) mint amount)
      = verdictV2 (ChecklistV2.runChecklist
                     (ChecklistV2.mkWorld now2 tokenData dev) mint amount))
  /\
  (forall clock1 clock2 token mint amount,
      fst (ChecklistV1.isTradinghours clock1)
      = fst (ChecklistV1.isTradinghours clock2) ->
      Qle_bool 24 (getPoolAgeHours (ChecklistV1.nowMs clock1) (pairCreatedAt token))
      = Qle_bool 24 (getPoolAgeHours (ChecklistV1.nowMs clock2) (pairCreatedAt token)) ->
      Qle_bool 6 (getPoolAgeHours (ChecklistV1.nowMs clock1) (pairCreatedAt token))
      = Qle_bool 6 (getPoolAgeHours (ChecklistV1.nowMs clock2) (pairCreatedAt token)) ->
      ChecklistV1.runChecklist clock1 (Some token) mint amount
      = ChecklistV1.runChecklist clock2 (Some token) mint amount).
Proof.
  split.
  - intros now1 now2 tokenData dev mint amount.
    unfold ChecklistV2.runChecklist. cbn [ChecklistV2.dev ChecklistV2.tokenData].
    destruct (ChecklistV2.verifyDev mint dev); [|reflexivity].
    destruct tokenData; reflexivity.
  - intros clock1 clock2 token mint amount H A24 A6.
    unfold ChecklistV1.runChecklist.
    assert (E1 : ChecklistV1.hoursCheck clock1 = ChecklistV1.hoursCheck clock2).
    { unfold ChecklistV1.hoursCheck, ChecklistV1.isTradinghours in *.
      destruct ((ChecklistV1.pstHour clock1 <? 9)%Z
                || (22 <=? ChecklistV1.pstHour clock1)%Z),
               ((ChecklistV1.pstHour clock2 <? 9)%Z
                || (22 <=? ChecklistV1.pstHour clock2)%Z);
        simpl in *; congruence. }
    assert (E2 : ChecklistV1.tokenChecks clock1 mint amount token
                 = ChecklistV1.tokenChecks clock2 mint amount token).
    { unfold ChecklistV1.tokenChecks. rewrite A24, A6. reflexivity. }
    rewrite E1, E2. reflexivity.
Qed.

(** C6, a witness of the legacy part: at 10:00 and at 11:00 the same
    inputs give the same report. *)
Lemma verdict_and_clock_witness :
  ChecklistV1.runChecklist morning (Some (sampleToken 10 50 300 200))
    sampleMint (Num 0.25)
  = ChecklistV1.runChecklist
      {| ChecklistV1.pstHour := 11; ChecklistV1.nowMs := twoDaysMs + 3600000 |}
      (Some (sampleToken 10 50 300 200)) sampleMint (Num 0.25).
Proof.
  apply (proj2 verdict_and_clock); reflexivity.
Defined.

(** C6 does not hold of the legacy checklist as the specification states
    it: the same snapshot, mint and amount are blocked at 8:00 (outside
    the trading hours) and allowed at 10:00. *)
Lemma legacy_verdict_depends_on_clock :
  verdictV1 (ChecklistV1.runChecklist beforeHours
               (Some (sampleToken 10 50 300 200)) sampleMint (Num 0.25))
  = Some BLOCK
  /\ verdictV1 (ChecklistV1.runChecklist morning
                  (Some (sampleToken 10 50 300 200)) sampleMint (Num 0.25))
     = Some ALLOW.
Proof.
  split; vm_compute; reflexivity.
Qed.

(* ------------------------------------------------------------------ *)
(** ** Creator verification                                             *)
(* ------------------------------------------------------------------ *)

Section Verification.

Lemma verifyDev_never_throws mint env :
  exists d, ChecklistV2.verifyDev mint env = Ok d.
Proof.
  unfold ChecklistV2.verifyDev, ChecklistV2.verifyDev_sdk,
    ChecklistV2.verifyDev_fallback, try_catch.
  destruct (ChecklistV2.sdk env); [|eexists; reflexivity].
  destruct (ChecklistV2.fallback env); eexists; reflexivity.
Qed.

Lemma verifyDev_services_down mint env :
  sdkFails env = true -> fallbackFails env = true ->
  ChecklistV2.verifyDev mint env = Ok ChecklistV2.apiErrorResult.
Proof.
  unfold sdkFails, fallbackFails, ChecklistV2.verifyDev,
    ChecklistV2.verifyDev_sdk, ChecklistV2.verifyDev_fallback, try_catch.
  destruct (ChecklistV2.sdk env); [|discriminate].
  destruct (ChecklistV2.fallback env); intros _ F;
    [reflexivity|discriminate|reflexivity].
Qed.

(** An unverified creator fails the critical Dev Verification check. *)
Lemma unverified_blocks mint amount token devInfo :
  ChecklistV2.verified devInfo = false ->
  ChecklistV2.summarize (ChecklistV2.buildChecks mint amount token devInfo)
  = BLOCK.
Proof.
  intro U. apply blockV2_iff.
  exists (ChecklistV2.mkCheck "Dev Verification"
            (ChecklistV2.verified devInfo) (ChecklistV2.message devInfo) true).
  split.
  - unfold ChecklistV2.buildChecks. right. left. reflexivity.
  - cbn [ChecklistV2.status ChecklistV2.critical]. auto.
Qed.

End Verification.

(** C10.  [verifyDev] never throws.  When the SDK block throws and the
    fallback request fails too, it returns verified = false with the
    API-error message, and the V2 checklist then blocks: the verdict is
    BLOCK whenever the snapshot could be fetched, and is never ALLOW or
    WARN.  When the SDK loads but its creators call is rejected, the
    result is unverified as well and the verdict is BLOCK. *)
Theorem verification_failure_blocks :
  forall mint env,
    (exists d, ChecklistV2.verifyDev mint env = Ok d)
    /\ (sdkFails env = true -> fallbackFails env = true ->
        ChecklistV2.verifyDev mint env = Ok ChecklistV2.apiErrorResult
        /\ ChecklistV2.verified ChecklistV2.apiErrorResult = false
        /\ ChecklistV2.message ChecklistV2.apiErrorResult
           = ChecklistV2.msgApiError
        /\ forall now tokenData amount,
            (forall token, tokenData = Some token ->
               verdictV2 (ChecklistV2.runChecklist
                            (ChecklistV2.mkWorld now tokenData env) mint amount)
               = Some BLOCK)
            /\ verdictV2 (ChecklistV2.runChecklist
                            (ChecklistV2.mkWorld now tokenData env) mint amount)
               <> Some ALLOW
            /\ verdictV2 (ChecklistV2.runChecklist
                            (ChecklistV2.mkWorld now tokenData env) mint amount)
               <> Some WARN)
    /\ (forall fees now token amount,
           ChecklistV2.sdk env
           = ChecklistV2.SdkSettled ChecklistV2.rejected fees ->
           (exists d, ChecklistV2.verifyDev mint env = Ok d
                      /\ ChecklistV2.verified d = false)
           /\ verdictV2 (ChecklistV2.runChecklist
                           (ChecklistV2.mkWorld now (Some token) env)
                           mint amount)
              = Some BLOCK).
Proof.
  intros mint env. split; [apply verifyDev_never_throws|]. split.
  - intros S F. pose proof (verifyDev_services_down mint env S F) as V.
    split; [exact V|]. split; [reflexivity|]. split; [reflexivity|].
    intros now tokenData amount.
    unfold ChecklistV2.runChecklist.
    cbn [ChecklistV2.dev ChecklistV2.tokenData]. rewrite V.
    destruct tokenData as [token|].
    + cbn [verdictV2 ChecklistV2.verdict].
      rewrite unverified_blocks by reflexivity.
      split; [reflexivity|]. split; discriminate.
    + cbn [verdictV2]. split; [discriminate|]. split; discriminate.
  - intros fees now token amount S.
    assert (V : exists d, ChecklistV2.verifyDev mint env = Ok d
                          /\ ChecklistV2.verified d = false).
    { unfold ChecklistV2.verifyDev, ChecklistV2.verifyDev_sdk, try_catch.
      rewrite S. eexists. split; reflexivity. }
    split; [exact V|].
    destruct V as [d [V U]].
    unfold ChecklistV2.runChecklist.
    cbn [ChecklistV2.dev ChecklistV2.tokenData]. rewrite V.
    cbn [verdictV2 ChecklistV2.verdict].
    rewrite unverified_blocks by exact U. reflexivity.
Qed.

(** C10, a witness: both services down for the sample token. *)
Lemma verification_failure_blocks_witness :
  ChecklistV2.verifyDev sampleMint servicesDown
  = Ok ChecklistV2.apiErrorResult
  /\ verdictV2 (ChecklistV2.runChecklist
                  (worldV2 (sampleToken 10 50 300 200) servicesDown)
                  sampleMint (Num 0.25))
     = Some BLOCK.
Proof.
  destruct (proj1 (proj2 (verification_failure_blocks sampleMint servicesDown))
              eq_refl eq_refl) as [V [_ [_ B]]].
  split; [exact V|].
  exact (proj1 (B twoDaysMs (Some (sampleToken 10 50 300 200)) (Num 0.25))
           _ eq_refl).
Defined.

(* ------------------------------------------------------------------ *)
(** ** The liquidity monitor                                            *)
(* ------------------------------------------------------------------ *)

(** C1, what the liquidity monitor does.  When the pair DexScreener
    answers carries no liquidity figure, [fetchLiquidity] reports a
    liquidity of 0 and the position is classified STRANDED, listed by
    [getStrandedPositions], and cannot be marked exit-able unless its
    value is negative; no exit quote is consulted. *)
Theorem absent_liquidity_is_stranded :
  forall (pos : LiquidityCheck.Position) (pair0 : RawPair) (rest : list RawPair)
         (fetch : string -> result (option (list RawPair))),
    p_liquidity_usd pair0 = None ->
    fetch (LiquidityCheck.address pos) = Ok (Some (pair0 :: rest)) ->
    let st := LiquidityCheck.assess pos
                (LiquidityCheck.fetchLiquidity (fetch (LiquidityCheck.address pos))) in
    LiquidityCheck.ls_liquidity st = 0
    /\ LiquidityCheck.ls_status st = LiquidityCheck.STRANDED
    /\ LiquidityCheck.ls_canExit st
       = Qltb (or0 (p_priceUsd pair0) * LiquidityCheck.tokens pos * 2) 0
    /\ LiquidityCheck.getStrandedPositions fetch [pos]
       = [LiquidityCheck.symbol pos].
Proof.
  intros pos pair0 rest fetch Hliq Hfetch st. subst st.
  unfold LiquidityCheck.getStrandedPositions.
  rewrite Hfetch. unfold LiquidityCheck.fetchLiquidity, LiquidityCheck.assess.
  cbn [LiquidityCheck.ld_liquidity LiquidityCheck.ld_priceUsd
       LiquidityCheck.ls_liquidity LiquidityCheck.ls_status
       LiquidityCheck.ls_canExit].
  rewrite Hliq. cbn [or0].
  split; [reflexivity|]. split; [reflexivity|]. split; reflexivity.
Qed.

(** C1, a witness: a held bags.fm position priced at 0.0007 USD whose
    pair has no liquidity field. *)
Lemma absent_liquidity_is_stranded_witness :
  LiquidityCheck.ls_status
    (LiquidityCheck.assess heldPosition
       (LiquidityCheck.fetchLiquidity (Ok (Some [pairWithoutLiquidity]))))
  = LiquidityCheck.STRANDED
  /\ LiquidityCheck.getStrandedPositions
       (fun _ => Ok (Some [pairWithoutLiquidity])) [heldPosition]
     = ["COYOTE"].
Proof.
  destruct (absent_liquidity_is_stranded heldPosition pairWithoutLiquidity []
              (fun _ => Ok (Some [pairWithoutLiquidity])) eq_refl eq_refl)
    as [_ [S [_ G]]].
  split; [exact S|exact G].
Defined.

(** The position value tracker, for contrast: it values the same position
    by the exit quote of the bonding curve, and a position that has a
    quote is PROFIT, LOSS or DIAMOND. *)
Lemma tracker_uses_exit_quote :
  (forall pos quote,
      PositionValue.pv_sellValueSol
        (PositionValue.valuePosition pos (Some quote))
      = PositionValue.outSol quote
      /\ PositionValue.pv_priceImpact
           (PositionValue.valuePosition pos (Some quote))
         = PositionValue.priceImpact quote
      /\ PositionValue.pv_status
           (PositionValue.valuePosition pos (Some quote))
         <> PositionValue.ERROR)
  /\ PositionValue.pv_status
       (PositionValue.valuePosition heldForTracker (Some exitQuote))
     = PositionValue.PROFIT.
Proof.
  split.
  - intros pos quote. unfold PositionValue.valuePosition.
    cbn [PositionValue.pv_sellValueSol PositionValue.pv_priceImpact
         PositionValue.pv_status].
    split; [reflexivity|]. split; [reflexivity|].
    destruct (_ || _); [discriminate|].
    destruct (js_ge _ _); discriminate.
  - vm_compute. reflexivity.
Qed.

(* ------------------------------------------------------------------ *)
(** ** The sell pipelines                                               *)
(* ------------------------------------------------------------------ *)

Section Pipelines.

Lemma executeSell_never_simulates env mint amount slippage :
  count isSimulated (trace (ExecuteSell.executeSell env mint amount slippage))
  = 0%nat.
Proof. unfold_run. run_cases; reflexivity. Qed.

Lemma sellToken_never_simulates env mint amount decimals :
  count isSimulated (trace (SellToken.main env mint amount decimals)) = 0%nat.
Proof. unfold_run. run_cases; reflexivity. Qed.

Lemma jupiterSell_never_simulates env mint amount :
  count isSimulated (trace (JupiterSell.sellTokens env mint amount)) = 0%nat.
Proof. unfold_run. run_cases; reflexivity. Qed.

Lemma bagsSell_never_simulates env mint amount :
  count isSimulated (trace (BagsSell.sellTokens env mint amount)) = 0%nat.
Proof. unfold_run. run_cases; reflexivity. Qed.

Lemma sellCreacher_never_simulates env :
  count isSimulated (trace (SellCreacher.main env)) = 0%nat.
Proof. unfold_run. run_cases; reflexivity. Qed.

(** X16. The two scripts that simulate, sign-and-send.ts and the
    partial-profit sell, never broadcast before the simulation, and never
    broadcast a transaction whose simulation failed. *)
Lemma siblings_simulate_first env :
  simulatedBeforeBroadcast false (trace (SignAndSend.main env)) = true
  /\ simulatedBeforeBroadcast false (trace (PartialProfit.main env)) = true
  /\ (simulationErr env <> None ->
      count isBroadcast (trace (SignAndSend.main env)) = 0%nat
      /\ count isBroadcast (trace (PartialProfit.main env)) = 0%nat).
Proof.
  split; [|split].
  - unfold_run. run_cases; reflexivity.
  - unfold_run. run_cases; reflexivity.
  - intro S. destruct (simulationErr env) eqn:E; [|congruence].
    split; unfold_run; rewrite ?E; run_cases; reflexivity.
Qed.

End Pipelines.

(** C3, what the sell scripts do.  No run of [executeSell], of the
    Jupiter [main], of either [sellTokens] or of the one-off sell ever
    simulates: the transaction is sent with [skipPreflight: true] and no
    [simulateTransaction] call.  A transaction whose simulation would
    report an error is broadcast all the same by [executeSell], by the
    Jupiter [main] and by the Jupiter [sellTokens]. *)
Theorem sells_broadcast_without_simulation :
  (forall env mint amount slippage tokenAmount decimals,
      count isSimulated
        (trace (ExecuteSell.executeSell env mint amount slippage)) = 0%nat
      /\ count isSimulated
           (trace (SellToken.main env mint tokenAmount decimals)) = 0%nat
      /\ count isSimulated
           (trace (JupiterSell.sellTokens env mint amount)) = 0%nat
      /\ count isSimulated
           (trace (BagsSell.sellTokens env mint amount)) = 0%nat
      /\ count isSimulated (trace (SellCreacher.main env)) = 0%nat)
  /\ trace (ExecuteSell.executeSell
              (sampleEnv 0.3 (Some "custom program error: 0x1771") Confirmed)
              sampleMint 510000 100)
     = fullTrace
  /\ trace (SellToken.main
              (sampleEnv 0.3 (Some "custom program error: 0x1771") Confirmed)
              sampleMint (Num 510000) 9)
     = fullTrace
  /\ trace (JupiterSell.sellTokens
              (sampleEnv 0.3 (Some "custom program error: 0x1771") Confirmed)
              sampleMint 510000)
     = fullTrace
  /\ simulatedBeforeBroadcast false fullTrace = false.
Proof.
  split.
  - intros env mint amount slippage tokenAmount decimals.
    split; [apply executeSell_never_simulates|].
    split; [apply sellToken_never_simulates|].
    split; [apply jupiterSell_never_simulates|].
    split; [apply bagsSell_never_simulates|apply sellCreacher_never_simulates].
  - split; [vm_compute; reflexivity|].
    split; [vm_compute; reflexivity|].
    split; vm_compute; reflexivity.
Qed.

(** C7, what the sell scripts do with the price impact.  [executeSell]
    prints it and never tests it: its trace does not depend on the impact
    of the quote, and on a quote with an impact of 50% it builds, signs
    and broadcasts and returns success.  The Jupiter [main] does test
    it, against 5: whenever the raw amount can be computed and the quote
    is answered without error, an impact above 5 makes it exit after the
    quote, and at 3% it goes on to broadcast.  When the raw amount cannot
    be computed (an amount that is no integer, decimals that are
    negative, too large or not a number) it exits before any request. *)
Theorem impact_guard :
  (forall env x y mint amount slippage,
      trace (ExecuteSell.executeSell (withImpact env x) mint amount slippage)
      = trace (ExecuteSell.executeSell (withImpact env y) mint amount slippage))
  /\ trace (ExecuteSell.executeSell (sampleEnv 50 None Confirmed)
              sampleMint 510000 100)
     = fullTrace
  /\ isReturned (outcome (ExecuteSell.executeSell (sampleEnv 50 None Confirmed)
                            sampleMint 510000 100))
     = true
  /\ (forall env q mint tokenAmount decimals,
         keysOk env = true ->
         bigIntDefined tokenAmount = true ->
         scaleDefined decimals = true ->
         quoteAnswer env = Ok q ->
         truthy (qa_error q) = false ->
         js_gt (priceImpactPct (qa_quote q)) 5 = true ->
         SellToken.main env mint tokenAmount decimals
         = ([QuoteRequested], Exited 1%Z))
  /\ (forall env mint tokenAmount decimals,
         bigIntDefined tokenAmount && scaleDefined decimals = false ->
         SellToken.main env mint tokenAmount decimals = ([], Exited 1%Z))
  /\ (forall d : Q,
         (d < 0 /\ -324 < d) \/ 308 < d -> scaleDefined (Num d) = false)
  /\ trace (SellToken.main (sampleEnv 3 None Confirmed) sampleMint (Num 510000) 9)
     = fullTrace.
Proof.
  split.
  - intros env x y mint amount slippage.
    unfold_run. cbn [withImpact keysOk quoteAnswer swapAnswer decodeOk
                     versionedOk legacyOk sendAnswer blockhashOk confirmAnswer
                     simulationErr].
    destruct (keysOk env); [|reflexivity].
    destruct (quoteAnswer env) as [a|e]; [|reflexivity].
    cbn [qa_success qa_quote routePlan].
    destruct (qa_success a); [|reflexivity].
    cbn [negb]. destruct (routePlan (qa_quote a)); [|reflexivity].
    run_cases; reflexivity.
  - split; [vm_compute; reflexivity|].
    split; [vm_compute; reflexivity|].
    split; [|split; [|split; [|vm_compute; reflexivity]]].
    + intros env q mint tokenAmount decimals K A D Q E I.
      unfold_run. rewrite K, A, D, Q, E, I.
      destruct (isInteger (outAmount (qa_quote q))); reflexivity.
    + intros env mint tokenAmount decimals F.
      unfold_run. destruct (keysOk env); [|reflexivity].
      destruct (bigIntDefined tokenAmount); [|reflexivity].
      cbn [andb] in F. rewrite F. reflexivity.
    + intros d H. unfold scaleDefined.
      assert (R : Qle_bool 0 d && Qle_bool d 308 || Qle_bool d (-324) = false).
      { apply not_true_is_false. intro T.
        apply orb_true_iff in T. destruct T as [T|T].
        - apply andb_true_iff in T. destruct T as [T1 T2].
          apply Qle_bool_iff in T1. apply Qle_bool_iff in T2. lra.
        - apply Qle_bool_iff in T. lra. }
      rewrite R. apply andb_false_r.
Qed.

(** C7, a witness of the guard of the Jupiter script: a quote with an
    impact of 50% stops the run after the quote. *)
Lemma impact_guard_witness :
  SellToken.main (sampleEnv 50 None Confirmed) sampleMint (Num 510000) 9
  = ([QuoteRequested], Exited 1%Z).
Proof.
  exact (proj1 (proj2 (proj2 (proj2 impact_guard)))
           (sampleEnv 50 None Confirmed) _ sampleMint (Num 510000) (Num 9)
           eq_refl eq_refl eq_refl eq_refl eq_refl eq_refl).
Defined.




(* ================================================================== *)
(** * Further properties of the scripts                                 *)
(* ================================================================== *)

(* ------------------------------------------------------------------ *)
(** ** The scanner                                                      *)
(* ------------------------------------------------------------------ *)

Section ScannerProperties.

Lemma toLowerCase_length (s : string) :
  String.length (toLowerCase s) = String.length s.
Proof.
  induction s as [|c s IH]; simpl; [reflexivity|]. rewrite IH. reflexivity.
Qed.

Lemma toLowerCase_substring (s : string) :
  forall n m, substring n m (toLowerCase s) = toLowerCase (substring n m s).
Proof.
  induction s as [|c s IH]; intros n m.
  - destruct n, m; reflexivity.
  - destruct n as [|n].
    + destruct m as [|m]; simpl; [reflexivity|]. rewrite IH. reflexivity.
    + simpl. apply IH.
Qed.

(** A mint that ends in BAGS ends in bags once lower-cased. *)
Lemma endsWith_BAGS_lower (s : string) :
  endsWith s "BAGS" = true -> endsWith (toLowerCase s) "bags" = true.
Proof.
  unfold endsWith. rewrite toLowerCase_length.
  change (String.length "bags") with 4%nat.
  change (String.length "BAGS") with 4%nat.
  intro H. apply andb_true_iff in H. destruct H as [L E].
  rewrite L. rewrite toLowerCase_substring.
  apply String.eqb_eq in E. rewrite E. reflexivity.
Qed.

Lemma insertByScore_In a l y :
  In y (ScannerCli.insertByScore a l) <-> y = a \/ In y l.
Proof.
  induction l as [|x l IH]; simpl.
  - split; [intros [H|[]]; auto|intros [H|[]]; auto].
  - destruct (Scanner.score x <? Scanner.score a)%Z; simpl.
    + split; [intros [H|[H|H]]; auto|intros [H|[H|H]]; auto].
    + rewrite IH.
      split; [intros [H|[H|H]]; auto|intros [H|[H|H]]; auto].
Qed.

Lemma insertByScore_length a l :
  List.length (ScannerCli.insertByScore a l) = S (List.length l).
Proof.
  induction l as [|x l IH]; simpl; [reflexivity|].
  destruct (Scanner.score x <? Scanner.score a)%Z; simpl; [reflexivity|].
  rewrite IH. reflexivity.
Qed.

Lemma insertByScore_descending a l :
  descending l -> descending (ScannerCli.insertByScore a l).
Proof.
  induction l as [|x l IH]; simpl.
  - intros _. split; [intros y []|exact I].
  - intros [Hx Hl].
    destruct (Scanner.score x <? Scanner.score a)%Z eqn:E; simpl.
    + apply Z.ltb_lt in E. split.
      * intros y [Hy|Hy]; [subst; lia|]. specialize (Hx y Hy). lia.
      * split; assumption.
    + apply Z.ltb_ge in E. split.
      * intros y Hy. apply insertByScore_In in Hy.
        destruct Hy as [Hy|Hy]; [subst; exact E|apply Hx; exact Hy].
      * apply IH. exact Hl.
Qed.

Lemma sortByScore_acc l :
  forall acc,
    descending acc ->
    descending (fold_left (fun acc a => ScannerCli.insertByScore a acc) l acc)
    /\ (forall y,
          In y (fold_left (fun acc a => ScannerCli.insertByScore a acc) l acc)
          <-> In y l \/ In y acc)
    /\ List.length (fold_left (fun acc a => ScannerCli.insertByScore a acc) l acc)
       = (List.length l + List.length acc)%nat.
Proof.
  induction l as [|a l IH]; intros acc D; simpl.
  - split; [exact D|]. split; [|reflexivity].
    intro y. split; [auto|intros [[]|H]; exact H].
  - destruct (IH _ (insertByScore_descending a acc D)) as [D' [I' L']].
    split; [exact D'|]. split.
    + intro y. rewrite I', insertByScore_In.
      split; [intros [H|[H|H]]; auto|intros [[H|H]|H]; auto].
    + rewrite L', insertByScore_length. lia.
Qed.

Lemma firstn_incl {A} (n : nat) (l : list A) (y : A) :
  In y (firstn n l) -> In y l.
Proof.
  revert n. induction l as [|x l IH]; intros n H.
  - destruct n; exact H.
  - destruct n as [|n]; [contradiction|]. simpl in H.
    destruct H as [H|H]; [left; exact H|right; exact (IH n H)].
Qed.

Lemma descending_firstn n l : descending l -> descending (firstn n l).
Proof.
  revert n. induction l as [|x l IH]; intros n D.
  - destruct n; exact I.
  - destruct n as [|n]; [exact I|]. simpl in *. destruct D as [Hx Hl].
    split.
    + intros y Hy. apply Hx. exact (firstn_incl n l y Hy).
    + apply IH. exact Hl.
Qed.

End ScannerProperties.

(** The score held in the three variables of the scoring statements. *)
Lemma scoring_step_bounds (lo hi dlo dhi : Z) (st st' : Scanner.Scoring) :
  (lo <= fst (fst st) <= hi)%Z ->
  (fst (fst st) + dlo <= fst (fst st') <= fst (fst st) + dhi)%Z ->
  (lo + dlo <= fst (fst st') <= hi + dhi)%Z.
Proof. lia. Qed.

Ltac scoring_step :=
  repeat match goal with
         | |- context [if ?b then _ else _] => destruct b
         end;
  match goal with
  | |- context [fst (fst (Scanner.signal _ _ ?st))] => destruct st as [[? ?] ?]
  | |- context [fst (fst (Scanner.risk _ _ ?st))] => destruct st as [[? ?] ?]
  | |- context [fst (fst (Scanner.bump _ ?st))] => destruct st as [[? ?] ?]
  | _ => idtac
  end;
  cbn [Scanner.signal Scanner.risk Scanner.bump fst snd]; lia.

(** X1. The score [analyzeToken] gives a pair always lies between 0 and
    95: the raw score lies between -20 and 95, so of the clamp to
    [0, 100] only the lower bound is ever reached. *)
Theorem analyzeToken_score_bounds :
  forall pair0 : RawPair,
    (0 <= Scanner.score (Scanner.analyzeToken pair0) <= 95)%Z.
Proof.
  intro pair0. unfold Scanner.analyzeToken. cbv zeta.
  set (st0 := ((50%Z, @nil string, @nil string) : Scanner.Scoring)).
  assert (B0 : (50 <= fst (fst st0) <= 50)%Z) by (simpl; lia).
  clearbody st0.
  set (st1 := if js_gt _ 10 then Scanner.signal 15 "Very high volume" st0
              else _).
  assert (B1 : (40 <= fst (fst st1) <= 65)%Z).
  { apply (scoring_step_bounds 50 50 (-10) 15 st0 st1 B0).
    subst st1. scoring_step. }
  clearbody st1. clear B0.
  set (st2 := if js_gt _ 2 then Scanner.signal 15 "Strong buy pressure" st1
              else _).
  assert (B2 : (25 <= fst (fst st2) <= 80)%Z).
  { apply (scoring_step_bounds 40 65 (-15) 15 st1 st2 B1).
    subst st2. scoring_step. }
  clearbody st2. clear B1.
  set (st3 := if Qltb _ 10000 then Scanner.signal 10 "Micro cap gem" st2
              else _).
  assert (B3 : (20 <= fst (fst st3) <= 90)%Z).
  { apply (scoring_step_bounds 25 80 (-5) 10 st2 st3 B2).
    subst st3. scoring_step. }
  clearbody st3. clear B2.
  set (st4 := if Qltb 50 _ then Scanner.signal 5 "Pumping now" st3 else _).
  assert (B4 : (10 <= fst (fst st4) <= 95)%Z).
  { apply (scoring_step_bounds 20 90 (-10) 5 st3 st4 B3).
    subst st4. scoring_step. }
  clearbody st4. clear B3.
  set (st5 := if _ && _ then Scanner.risk 20 "Possible wash trading" st4
              else st4).
  assert (B5 : (-10 <= fst (fst st5) <= 95)%Z).
  { apply (scoring_step_bounds 10 95 (-20) 0 st4 st5 B4).
    subst st5. scoring_step. }
  clearbody st5. clear B4.
  set (st6 := if Qltb _ 50 then Scanner.risk 10 "Low activity" st5 else st5).
  assert (B6 : (-20 <= fst (fst st6) <= 95)%Z).
  { apply (scoring_step_bounds (-10) 95 (-10) 0 st5 st6 B5).
    subst st6. scoring_step. }
  clearbody st6. clear B5.
  destruct st6 as [[score signals] risks].
  cbn [Scanner.score fst] in *. lia.
Qed.

(** X2. [scan] prints at most 15 tokens, in descending order of score;
    each of them is the analysis of a pair that [searchBags] kept and has
    a score of at least the minimum; the number it reports as found is
    the number of pairs that reach the minimum; and a minimum that is not
    a number (an argument [parseInt] cannot read) finds nothing. *)
Theorem scan_sorted_and_filtered :
  forall (pairs : option (list ScannerCli.SearchPair)) (minScore : jsnum),
    descending (snd (ScannerCli.scan pairs minScore))
    /\ (List.length (snd (ScannerCli.scan pairs minScore)) <= 15)%nat
    /\ (forall a, In a (snd (ScannerCli.scan pairs minScore)) ->
          js_ge (Num (inject_Z (Scanner.score a))) minScore = true
          /\ exists p, In p (ScannerCli.searchBags pairs)
                       /\ a = Scanner.analyzeToken (ScannerCli.found p))
    /\ fst (ScannerCli.scan pairs minScore)
       = List.length
           (filter (fun p => js_ge (Num (inject_Z (Scanner.score
                                (Scanner.analyzeToken (ScannerCli.found p)))))
                                   minScore)
                   (ScannerCli.searchBags pairs))
    /\ ScannerCli.scan pairs NaN = (0%nat, []).
Proof.
  intros pairs minScore.
  unfold ScannerCli.scan, ScannerCli.analyses, ScannerCli.sortByScore.
  cbn [fst snd].
  set (kept := filter _ (map _ (ScannerCli.searchBags pairs))).
  destruct (sortByScore_acc kept [] I) as [D [M L]].
  split; [apply descending_firstn; exact D|].
  split; [apply firstn_le_length|].
  split; [|split].
  - intros a Ha. apply firstn_incl in Ha. apply M in Ha.
    destruct Ha as [Ha|[]]. subst kept. apply filter_In in Ha.
    destruct Ha as [Ha G]. split; [exact G|].
    apply in_map_iff in Ha. destruct Ha as [p [E Hp]].
    exists p. split; [exact Hp|symmetry; exact E].
  - rewrite L. simpl. rewrite Nat.add_0_r. clear D M L. subst kept.
    induction (ScannerCli.searchBags pairs) as [|p l IH]; simpl;
      [reflexivity|].
    destruct (js_ge _ minScore); simpl; rewrite IH; reflexivity.
  - assert (E : filter
                  (fun a => js_ge (Num (inject_Z (Scanner.score a))) NaN)
                  (map (fun p => Scanner.analyzeToken (ScannerCli.found p))
                       (ScannerCli.searchBags pairs)) = []).
    { clear D M L kept.
      induction (map _ (ScannerCli.searchBags pairs)) as [|a l IH];
        simpl; [reflexivity|exact IH]. }
    rewrite E. reflexivity.
Qed.

(** X3. Every pair [searchBags] keeps is on Solana and has an address
    ending in BAGS, so its mint passes the ecosystem test of both
    checklists whatever DexScreener reports as its dexId; without a list
    of pairs in the answer nothing is kept. *)
Theorem searchBags_passes_ecosystem_check :
  forall (pairs : option (list ScannerCli.SearchPair))
         (p : ScannerCli.SearchPair) (token : TokenData),
    In p (ScannerCli.searchBags pairs) ->
    ScannerCli.chainId p = "solana"
    /\ ChecklistV2.isBags token (p_address (ScannerCli.found p)) = true
    /\ ChecklistV1.isBags token (p_address (ScannerCli.found p)) = true
    /\ ScannerCli.searchBags None = [].
Proof.
  intros pairs p token H.
  destruct pairs as [l|]; [|contradiction].
  unfold ScannerCli.searchBags in H. apply filter_In in H.
  destruct H as [_ H]. apply andb_true_iff in H. destruct H as [C E].
  apply String.eqb_eq in C. apply endsWith_BAGS_lower in E.
  split; [exact C|].
  unfold ChecklistV2.isBags, ChecklistV1.isBags. rewrite E.
  split; [apply orb_true_r|]. split; [apply orb_true_r|reflexivity].
Qed.

Lemma searchBags_passes_ecosystem_check_witness :
  In foundPair (ScannerCli.searchBags (Some [foundPair]))
  /\ ChecklistV2.isBags oddVenueToken (p_address (ScannerCli.found foundPair))
     = true.
Proof.
  split; [left; reflexivity|].
  exact (proj1 (proj2 (searchBags_passes_ecosystem_check
                         (Some [foundPair]) foundPair oddVenueToken
                         (or_introl eq_refl)))).
Defined.

(* ------------------------------------------------------------------ *)
(** ** The verdict of the V2 checklist                                   *)
(* ------------------------------------------------------------------ *)
Section VerdictTableV2.
Lemma existsb_nonempty {A} (p : A -> bool) (l : list A) :
  (0 <? List.length (filter p l))%nat = existsb p l.
Proof.
  induction l as [|x l IH]; simpl; [reflexivity|].
  destruct (p x); simpl; [reflexivity|exact IH].
Qed.

Lemma summarizeV2_bool (cs : list ChecklistV2.Check) :
  ChecklistV2.summarize cs =
  if existsb criticalFailV2 cs then BLOCK
  else if existsb advisoryFailV2 cs then WARN
  else ALLOW.
Proof. rewrite summarizeV2_eq, !existsb_nonempty. reflexivity. Qed.
Lemma activeDump_critical txns0 priceChange0 :
  fst (ChecklistV2.isActiveDump txns0 priceChange0)
  && includes_fail (snd (ChecklistV2.isActiveDump txns0 priceChange0))
  = js_lt (buySellRatio (buys (t_m5 txns0)) (sells (t_m5 txns0))) 0.5
    && Qltb (w_m5 priceChange0) (-5).
Proof.
  unfold ChecklistV2.isActiveDump.
  destruct (js_lt _ 0.5 && Qltb _ (-5)); [reflexivity|].
  destruct (js_lt _ 0.8 && Qltb _ (-10)); reflexivity.
Qed.

Lemma criticalV2_bool mint entryAmount token devInfo :
  existsb criticalFailV2
    (ChecklistV2.buildChecks mint entryAmount token devInfo)
  = negb (ChecklistV2.isBags token mint)
    || negb (ChecklistV2.verified devInfo)
    || Qltb 100 (w_h1 (priceChange token))
    || activeDumpCritical token
    || negb (sizeOk entryAmount).
Proof.
  unfold ChecklistV2.buildChecks, activeDumpCritical, sizeOk.
  cbv zeta. cbn [existsb]. unfold criticalFailV2.
  cbn [ChecklistV2.status ChecklistV2.critical].
  rewrite <- activeDump_critical.
  generalize (fst (ChecklistV2.isActiveDump (txns token) (priceChange token))).
  generalize (includes_fail
                (snd (ChecklistV2.isActiveDump (txns token) (priceChange token)))).
  generalize (ChecklistV2.isBags token mint), (ChecklistV2.verified devInfo),
    (Qltb 100 (w_h1 (priceChange token))),
    (js_gt (buySellRatio (buys (t_h24 (txns token))) (sells (t_h24 (txns token)))) 10),
    (js_lt (buySellRatio (buys (t_h1 (txns token))) (sells (t_h1 (txns token)))) 0.5),
    (js_ge entryAmount 0.2 && js_le entryAmount 1.0).
  intros b1 b2 b3 b4 b5 b6 b7 b8.
  generalize (Qle_bool 5000 (w_h24 (volume token))).
  generalize (js_gt (if Qltb 0 (mcap token)
                     then js_div (w_h24 (volume token)) (mcap token)
                     else Num 0) 0.5).
  generalize (Qltb 300 (w_h24 (priceChange token))).
  intros c1 c2 c3.
  destruct b1, b2, b3, b4, b5, b6, b7, b8, c1, c2, c3; reflexivity.
Qed.

Lemma advisoryV2_bool mint entryAmount token devInfo :
  blockingV2 mint entryAmount token devInfo = false ->
  existsb advisoryFailV2
    (ChecklistV2.buildChecks mint entryAmount token devInfo)
  = cautionV2 token.
Proof.
  unfold blockingV2, cautionV2, ChecklistV2.buildChecks, volMcapOf, sizeOk,
    activeDumpCritical.
  cbv zeta. cbn [existsb]. unfold advisoryFailV2.
  cbn [ChecklistV2.status ChecklistV2.critical].
  rewrite <- activeDump_critical.
  generalize (fst (ChecklistV2.isActiveDump (txns token) (priceChange token))).
  generalize (includes_fail
                (snd (ChecklistV2.isActiveDump (txns token) (priceChange token)))).
  generalize (ChecklistV2.isBags token mint), (ChecklistV2.verified devInfo),
    (Qltb 100 (w_h1 (priceChange token))),
    (js_gt (buySellRatio (buys (t_h24 (txns token))) (sells (t_h24 (txns token)))) 10),
    (js_lt (buySellRatio (buys (t_h1 (txns token))) (sells (t_h1 (txns token)))) 0.5),
    (js_ge entryAmount 0.2 && js_le entryAmount 1.0).
  intros b1 b2 b3 b4 b5 b6 b7 b8.
  generalize (Qle_bool 5000 (w_h24 (volume token))).
  generalize (js_gt (if Qltb 0 (mcap token)
                     then js_div (w_h24 (volume token)) (mcap token)
                     else Num 0) 0.5).
  generalize (Qltb 300 (w_h24 (priceChange token))).
  intros c1 c2 c3.
  destruct b1, b2, b3, b4, b5, b6, b7, b8, c1, c2, c3;
    cbn [negb andb orb]; intro H; try discriminate H; reflexivity.
Qed.

End VerdictTableV2.
(** X4. The verdict of the V2 checklist in closed form.  It is BLOCK
    exactly when the mint fails the ecosystem test, the creator is not
    verified, the 1h change is above 100, the critical tier of the dump
    test fires or the size is outside [0.2, 1]; otherwise WARN exactly
    when the 1h ratio is below 0.5, a dump is detected, the 24h volume is
    below 5000, volume over market cap is not above 0.5 or the 24h
    change is above 300; otherwise ALLOW.  The pool age and the 24h
    buy/sell ratio are in neither list. *)
Theorem V2_verdict_table :
  forall mint entryAmount token devInfo,
    ChecklistV2.summarize
      (ChecklistV2.buildChecks mint entryAmount token devInfo)
    = if blockingV2 mint entryAmount token devInfo then BLOCK
      else if cautionV2 token then WARN
      else ALLOW.
Proof.
  intros mint entryAmount token devInfo.
  rewrite summarizeV2_bool.
  pose proof (criticalV2_bool mint entryAmount token devInfo) as C.
  fold (blockingV2 mint entryAmount token devInfo) in C. rewrite C.
  destruct (blockingV2 mint entryAmount token devInfo) eqn:B; [reflexivity|].
  rewrite (advisoryV2_bool _ _ _ _ B). reflexivity.
Qed.


(** X6. [isActiveDump] reports a dump exactly when the 5m ratio is below
    0.5 with a 5m change below -5, or the ratio is below 0.8 with a
    change below -10: never with a change of -5 or more, never with a
    ratio of 0.8 or more.  With no buys in the last five minutes the
    ratio counts as 0 whatever the sells, so a change below -5 alone
    makes it the critical tier. *)
Theorem active_dump_needs_both :
  forall (txns0 : Txns) (priceChange0 : Windows),
    fst (ChecklistV2.isActiveDump txns0 priceChange0)
    = js_lt (buySellRatio (buys (t_m5 txns0)) (sells (t_m5 txns0))) 0.5
      && Qltb (w_m5 priceChange0) (-5)
      || js_lt (buySellRatio (buys (t_m5 txns0)) (sells (t_m5 txns0))) 0.8
         && Qltb (w_m5 priceChange0) (-10)
    /\ (Qle_bool (-5) (w_m5 priceChange0) = true ->
        fst (ChecklistV2.isActiveDump txns0 priceChange0) = false)
    /\ (js_ge (buySellRatio (buys (t_m5 txns0)) (sells (t_m5 txns0))) 0.8 = true ->
        fst (ChecklistV2.isActiveDump txns0 priceChange0) = false)
    /\ (Qeq_bool (buys (t_m5 txns0)) 0 = true ->
        fst (ChecklistV2.isActiveDump txns0 priceChange0)
        = Qltb (w_m5 priceChange0) (-5)
        /\ includes_fail (snd (ChecklistV2.isActiveDump txns0 priceChange0))
           = Qltb (w_m5 priceChange0) (-5)).
Proof.
  intros txns0 priceChange0.
  assert (E : fst (ChecklistV2.isActiveDump txns0 priceChange0)
    = js_lt (buySellRatio (buys (t_m5 txns0)) (sells (t_m5 txns0))) 0.5
      && Qltb (w_m5 priceChange0) (-5)
      || js_lt (buySellRatio (buys (t_m5 txns0)) (sells (t_m5 txns0))) 0.8
         && Qltb (w_m5 priceChange0) (-10)).
  { unfold ChecklistV2.isActiveDump.
    destruct (js_lt _ 0.5 && Qltb _ (-5)); [reflexivity|].
    destruct (js_lt _ 0.8 && Qltb _ (-10)); reflexivity. }
  split; [exact E|].
  split; [|split].
  - rewrite E. intro H. apply Qle_bool_iff in H.
    assert (F1 : Qltb (w_m5 priceChange0) (-5) = false)
      by (apply Qltb_false; exact H).
    assert (F2 : Qltb (w_m5 priceChange0) (-10) = false).
    { apply Qltb_false. eapply Qle_trans; [|exact H].
      apply Qle_bool_iff. reflexivity. }
    rewrite F1, F2, !andb_false_r. reflexivity.
  - rewrite E. rewrite buySellRatio_cases. cbn [js_lt js_ge js_le].
    intro H. apply Qle_bool_iff in H.
    match goal with |- context [Qltb ?r 0.8] => set (r0 := r) in * end.
    assert (F1 : Qltb r0 0.8 = false) by (apply Qltb_false; exact H).
    assert (F2 : Qltb r0 0.5 = false).
    { apply Qltb_false. eapply Qle_trans; [|exact H].
      apply Qle_bool_iff. reflexivity. }
    rewrite F1, F2. reflexivity.
  - intro Z0. apply Qeq_bool_iff in Z0.
    assert (R : js_lt (buySellRatio (buys (t_m5 txns0)) (sells (t_m5 txns0))) 0.5
                = true).
    { rewrite buySellRatio_cases. cbn [js_lt]. apply Qltb_true.
      destruct (Qltb 0 (sells (t_m5 txns0))); rewrite Z0;
        [unfold Qdiv; rewrite Qmult_0_l|]; reflexivity. }
    unfold ChecklistV2.isActiveDump. rewrite R. cbn [andb].
    destruct (Qltb (w_m5 priceChange0) (-5)) eqn:C5; [split; reflexivity|].
    assert (C10 : Qltb (w_m5 priceChange0) (-10) = false).
    { apply Qltb_false. apply Qltb_false in C5.
      eapply Qle_trans; [|exact C5]. apply Qle_bool_iff. reflexivity. }
    rewrite C10, andb_false_r. split; reflexivity.
Qed.

Lemma verified_flag (l : list ChecklistV2.Creator) :
  (0 <? List.length (filter ChecklistV2.hasSocials l))%nat
  = existsb ChecklistV2.hasSocials l.
Proof. apply existsb_nonempty. Qed.

Lemma truthy_or_null (o : option string) : truthy (or_null o) = truthy o.
Proof.
  unfold or_null. destruct (truthy o) eqn:E; [exact E|reflexivity].
Qed.
(** X7. Whenever [verifyDev] answers, its [verified] flag says that one
    of the creators it lists has a Twitter or a GitHub name, and its
    message has the success sign exactly then; when the SDK block does
    not throw the fallback request plays no part; when it throws the
    lifetime fees are 0.  A converted creator has socials exactly when
    one of the two raw names is a non-empty string. *)
Theorem verifyDev_verified_means_socials :
  forall mint env d,
    ChecklistV2.verifyDev mint env = Ok d ->
    ChecklistV2.verified d
    = existsb ChecklistV2.hasSocials (ChecklistV2.creators d)
    /\ isOk (icon (ChecklistV2.message d)) = ChecklistV2.verified d
    /\ (forall fb, sdkFails env = false ->
          ChecklistV2.verifyDev mint (withFallback env fb) = Ok d)
    /\ (sdkFails env = true -> ChecklistV2.lifetimeFees d = 0)
    /\ (forall c : ChecklistV2.RawCreator,
          ChecklistV2.hasSocials (ChecklistV2.convertCreator c)
          = truthy (ChecklistV2.rc_twitterUsername c)
            || truthy (ChecklistV2.rc_githubUsername c)).
Proof.
  intros mint env d H.
  unfold ChecklistV2.verifyDev, ChecklistV2.verifyDev_sdk,
    ChecklistV2.verifyDev_fallback, try_catch, sdkFails, withFallback in *.
  cbn [ChecklistV2.sdk ChecklistV2.fallback].
  assert (C : forall c : ChecklistV2.RawCreator,
            ChecklistV2.hasSocials (ChecklistV2.convertCreator c)
            = truthy (ChecklistV2.rc_twitterUsername c)
              || truthy (ChecklistV2.rc_githubUsername c)).
  { intro c. unfold ChecklistV2.hasSocials, ChecklistV2.convertCreator.
    cbn [ChecklistV2.twitterUsername ChecklistV2.githubUsername].
    rewrite !truthy_or_null. reflexivity. }
  destruct (ChecklistV2.sdk env) as [e|cr fr].
  - destruct (ChecklistV2.fallback env) as [e2|results|];
      inversion H; subst d; clear H;
      cbn [ChecklistV2.verified ChecklistV2.creators ChecklistV2.message
           ChecklistV2.lifetimeFees].
    + split; [reflexivity|]. split; [reflexivity|].
      split; [intros fb F; discriminate F|]. split; [reflexivity|exact C].
    + rewrite verified_flag.
      split; [reflexivity|]. split.
      { destruct (existsb _ _); reflexivity. }
      split; [intros fb F; discriminate F|]. split; [reflexivity|exact C].
    + split; [reflexivity|]. split; [reflexivity|].
      split; [intros fb F; discriminate F|]. split; [reflexivity|exact C].
  - inversion H; subst d; clear H.
    cbn [ChecklistV2.verified ChecklistV2.creators ChecklistV2.message
         ChecklistV2.lifetimeFees].
    rewrite verified_flag.
    split; [reflexivity|]. split.
    { destruct (existsb _ _); reflexivity. }
    split; [intros fb _; reflexivity|].
    split; [intro F; discriminate F|exact C].
Qed.

Lemma verifyDev_verified_means_socials_witness :
  exists d,
    ChecklistV2.verifyDev sampleMint (sdkAnswers [knownDev]) = Ok d
    /\ ChecklistV2.verified d = true.
Proof.
  eexists. split; [reflexivity|].
  exact (proj1 (verifyDev_verified_means_socials
                  sampleMint (sdkAnswers [knownDev]) _ eq_refl)).
Defined.

(* ------------------------------------------------------------------ *)
(** ** The verdict of the legacy checklist                               *)
(* ------------------------------------------------------------------ *)
Section VerdictTableV1.
Lemma Qle_bool_trans_true (a b c : Q) :
  Qle_bool a b = true -> Qle_bool b c = true -> Qle_bool a c = true.
Proof.
  rewrite !Qle_bool_iff. intros H1 H2. exact (Qle_trans _ _ _ H1 H2).
Qed.

Lemma age_24_then_6 (a : Q) : Qle_bool 24 a = true -> Qle_bool 6 a = true.
Proof.
  intro H. apply (Qle_bool_trans_true 6 24 a); [reflexivity|exact H].
Qed.

Lemma below_1_then_at_most_10 (q : Q) :
  Qle_bool 1.0 q = false -> Qle_bool q 10 = true.
Proof.
  intro H. apply Qle_bool_iff. apply Qltb_false in H || idtac.
  destruct (Qle_bool q 10) eqn:E; [apply Qle_bool_iff; exact E|].
  exfalso.
  assert (L : 10 < q).
  { apply Qnot_le_lt. intro C. apply Qle_bool_iff in C. congruence. }
  assert (M : 1.0 <= q).
  { apply Qlt_le_weak. eapply Qle_lt_trans; [|exact L]. discriminate. }
  apply Qle_bool_iff in M. congruence.
Qed.

Lemma summarizeV1_bool (cs : list ChecklistV1.Check) :
  ChecklistV1.summarize cs =
  if existsb hardFailV1 cs then BLOCK
  else if existsb warnsV1 cs then WARN
  else ALLOW.
Proof. rewrite summarizeV1_eq, !existsb_nonempty. reflexivity. Qed.
Lemma legacy_checks_bool :
  forall clock mint entryAmount token,
    existsb hardFailV1
      (ChecklistV1.hoursCheck clock
       :: ChecklistV1.tokenChecks clock mint entryAmount token)
    = blockingV1 clock mint entryAmount token
    /\ (blockingV1 clock mint entryAmount token = false ->
        existsb warnsV1
          (ChecklistV1.hoursCheck clock
           :: ChecklistV1.tokenChecks clock mint entryAmount token)
        = cautionV1 clock token).
Proof.
  intros clock mint entryAmount token.
  unfold blockingV1, cautionV1, ChecklistV1.hoursCheck, ChecklistV1.tokenChecks,
    ChecklistV1.isTradinghours, volMcapOf, sizeOk, skewed, ageOf.
  cbv zeta. rewrite !buySellRatio_cases.
  set (q := if Qltb 0 (sells (t_h24 (txns token)))
            then buys (t_h24 (txns token)) / sells (t_h24 (txns token))
            else buys (t_h24 (txns token))).
  set (age := getPoolAgeHours (ChecklistV1.nowMs clock) (pairCreatedAt token)).
  pose proof (age_24_then_6 age) as A.
  pose proof (below_1_then_at_most_10 q) as R.
  change (js_gt (Num q) 10) with (negb (Qle_bool q 10)).
  change (js_ge (Num q) 1.0) with (Qle_bool 1.0 q).
  change (js_le (Num q) 10) with (Qle_bool q 10).
  change (js_lt (Num q) 1.0) with (negb (Qle_bool 1.0 q)).
  cbn [existsb].
  unfold ChecklistV1.msgOutsideHours, ChecklistV1.msgHoursOk,
    ChecklistV1.msgPumpTrap, ChecklistV1.msgDontChase,
    ChecklistV1.msgAlreadyMoved.
  revert A R.
  generalize (Qle_bool 24 age), (Qle_bool 6 age), (Qle_bool 1.0 q),
    (Qle_bool q 10).
  intros a24 a6 e g A R.
  generalize (ChecklistV1.isBags token mint),
         (Qle_bool 10000 (w_h24 (volume token))),
         (Qltb 500 (w_h24 (priceChange token))),
         (Qltb 200 (w_h24 (priceChange token))),
         (js_ge entryAmount 0.2 && js_le entryAmount 1.0);
    intros b1 b3 b4 b5 b6.
  generalize (js_gt (if Qltb 0 (mcap token)
                     then js_div (w_h24 (volume token)) (mcap token)
                     else Num 0) 0.1); intro b7.
  generalize (js_lt entryAmount 0.2), (js_gt entryAmount 1.0);
    intros s1 s2.
  generalize ((ChecklistV1.pstHour clock <? 9)%Z
              || (22 <=? ChecklistV1.pstHour clock)%Z); intro h.
  legacy_check hardFailV1 "Trading Hours" h A R.
  legacy_check hardFailV1 "BAGS Ecosystem"
    (negb b1 && negb (includes (dexId token) warn_sign)) A R.
  legacy_check hardFailV1 "Pool Age" (negb b1 && negb a6) A R.
  legacy_check hardFailV1 "Volume" false A R.
  legacy_check hardFailV1 "Buy/Sell Ratio" (negb g) A R.
  legacy_check hardFailV1 "Liquidity Estimate" false A R.
  legacy_check hardFailV1 "Pump Check" b4 A R.
  legacy_check hardFailV1 "Position Size" (negb b6) A R.
  legacy_check warnsV1 "Trading Hours" false A R.
  legacy_check warnsV1 "BAGS Ecosystem" (includes (dexId token) warn_sign) A R.
  legacy_check warnsV1 "Pool Age" (a6 && negb a24) A R.
  legacy_check warnsV1 "Volume" (negb b3) A R.
  legacy_check warnsV1 "Buy/Sell Ratio" (negb e) A R.
  legacy_check warnsV1 "Liquidity Estimate" (negb b7) A R.
  legacy_check warnsV1 "Pump Check" (b5 && negb b4) A R.
  legacy_check warnsV1 "Position Size" false A R.
  clear A R.
  generalize (includes (dexId token) warn_sign). intro b2.
  destruct h; [split; [reflexivity|intro X; discriminate X]|].
  destruct b1, b2, a6, g, b4, b6; cbn [negb andb orb fst];
    (split; [reflexivity|]); intro X; try discriminate X;
    destruct a24, b3, e, b7, b5; reflexivity.
Qed.
End VerdictTableV1.
(** X8. The verdict of the legacy checklist in closed form.  It is BLOCK
    exactly when the hour is outside 9..21, the token is of another venue
    with no warning sign in its dexId, it is of another venue and its
    pool is younger than 6 hours, the 24h ratio is above 10, the 24h
    change is above 500 or the size is outside [0.2, 1]; otherwise WARN
    exactly when the dexId carries the warning sign, the pool is between
    6 and 24 hours old, the 24h volume is below 10000, the 24h ratio is
    below 1, volume over market cap is not above 0.1 or the 24h change is
    above 200; otherwise ALLOW. *)
Theorem V1_verdict_table :
  forall clock mint entryAmount token,
    ChecklistV1.summarize
      (ChecklistV1.hoursCheck clock
       :: ChecklistV1.tokenChecks clock mint entryAmount token)
    = if blockingV1 clock mint entryAmount token then BLOCK
      else if cautionV1 clock token then WARN
      else ALLOW.
Proof.
  intros clock mint entryAmount token.
  rewrite summarizeV1_bool.
  destruct (legacy_checks_bool clock mint entryAmount token) as [H W].
  rewrite H.
  destruct (blockingV1 clock mint entryAmount token); [reflexivity|].
  rewrite (W eq_refl). reflexivity.
Qed.

(** X9. For a token the legacy checklist takes for a bags.fm token, a
    pool younger than 6 hours gets the verdict of a pool older than 24
    hours (the hour of the day being inside or outside trading hours in
    both runs), while a pool between 6 and 24 hours old is never
    allowed without a warning. *)
Theorem legacy_pool_age_of_bags_token :
  forall clock1 clock2 mint entryAmount token,
    ChecklistV1.isBags token mint = true ->
    fst (ChecklistV1.isTradinghours clock1)
    = fst (ChecklistV1.isTradinghours clock2) ->
    Qle_bool 6 (ageOf clock1 token) = false ->
    Qle_bool 24 (ageOf clock2 token) = true ->
    ChecklistV1.summarize
      (ChecklistV1.hoursCheck clock1
       :: ChecklistV1.tokenChecks clock1 mint entryAmount token)
    = ChecklistV1.summarize
        (ChecklistV1.hoursCheck clock2
         :: ChecklistV1.tokenChecks clock2 mint entryAmount token)
    /\ forall clock3,
         Qle_bool 6 (ageOf clock3 token) = true ->
         Qle_bool 24 (ageOf clock3 token) = false ->
         ChecklistV1.summarize
           (ChecklistV1.hoursCheck clock3
            :: ChecklistV1.tokenChecks clock3 mint entryAmount token)
         <> ALLOW.
Proof.
  intros clock1 clock2 mint entryAmount token B H Y O.
  assert (T : forall clock,
             ChecklistV1.summarize
               (ChecklistV1.hoursCheck clock
                :: ChecklistV1.tokenChecks clock mint entryAmount token)
             = if blockingV1 clock mint entryAmount token then BLOCK
               else if cautionV1 clock token then WARN
               else ALLOW).
  { intro clock. rewrite summarizeV1_bool.
    destruct (legacy_checks_bool clock mint entryAmount token) as [F W].
    rewrite F.
    destruct (blockingV1 clock mint entryAmount token); [reflexivity|].
    rewrite (W eq_refl). reflexivity. }
  split.
  - rewrite !T. unfold blockingV1, cautionV1.
    rewrite B, H, Y, O, (age_24_then_6 _ O). cbn [negb andb orb].
    destruct (Qle_bool 24 (ageOf clock1 token)) eqn:E.
    + apply age_24_then_6 in E. congruence.
    + reflexivity.
  - intros clock3 S N. rewrite T. unfold cautionV1.
    rewrite S, N. cbn [negb andb]. rewrite orb_true_r. cbn [orb].
    destruct (blockingV1 clock3 mint entryAmount token); discriminate.
Qed.

Lemma legacy_pool_age_of_bags_token_witness :
  ChecklistV1.summarize
    (ChecklistV1.hoursCheck launchDay
     :: ChecklistV1.tokenChecks launchDay sampleMint (Num 0.25)
          (sampleToken 10 50 300 200))
  = ChecklistV1.summarize
      (ChecklistV1.hoursCheck morning
       :: ChecklistV1.tokenChecks morning sampleMint (Num 0.25)
            (sampleToken 10 50 300 200)).
Proof.
  exact (proj1 (legacy_pool_age_of_bags_token
                  launchDay morning sampleMint (Num 0.25)
                  (sampleToken 10 50 300 200)
                  eq_refl eq_refl eq_refl eq_refl)).
Defined.

(* ------------------------------------------------------------------ *)
(** ** The liquidity report                                              *)
(* ------------------------------------------------------------------ *)
Section LiquidityReport.
Lemma insertByLiquidity_perm r l :
  Permutation (r :: l) (LiquidityCheck.insertByLiquidity r l).
Proof.
  induction l as [|x l IH]; simpl; [apply Permutation_refl|].
  destruct (Qltb _ _); [apply Permutation_refl|].
  eapply Permutation_trans; [apply perm_swap|].
  apply perm_skip. exact IH.
Qed.

Lemma insertByLiquidity_ascending r l :
  ascending l -> ascending (LiquidityCheck.insertByLiquidity r l).
Proof.
  induction l as [|x l IH]; simpl.
  - intros _. split; [intros y []|exact I].
  - intros [Hx Hl].
    destruct (Qltb (LiquidityCheck.ls_liquidity r) (LiquidityCheck.ls_liquidity x))
      eqn:E; simpl.
    + apply Qltb_true in E. split.
      * intros y [Hy|Hy]; [subst; apply Qlt_le_weak; exact E|].
        eapply Qle_trans; [apply Qlt_le_weak; exact E|apply Hx; exact Hy].
      * split; assumption.
    + apply Qltb_false in E. split.
      * intros y Hy.
        apply (Permutation_in _ (Permutation_sym (insertByLiquidity_perm r l)))
          in Hy.
        destruct Hy as [Hy|Hy]; [subst; exact E|apply Hx; exact Hy].
      * apply IH. exact Hl.
Qed.

Lemma sortByLiquidity_acc l :
  forall acc,
    ascending acc ->
    ascending (fold_left (fun acc r => LiquidityCheck.insertByLiquidity r acc) l acc)
    /\ Permutation (l ++ acc)
         (fold_left (fun acc r => LiquidityCheck.insertByLiquidity r acc) l acc).
Proof.
  induction l as [|r l IH]; intros acc A; simpl.
  - split; [exact A|apply Permutation_refl].
  - destruct (IH _ (insertByLiquidity_ascending r acc A)) as [A' P'].
    split; [exact A'|].
    eapply Permutation_trans; [|exact P'].
    eapply Permutation_trans; [apply Permutation_middle|].
    apply Permutation_app_head. apply insertByLiquidity_perm.
Qed.
Lemma sortByLiquidity_sorts :
  forall l : list LiquidityCheck.LiquidityStatus,
    ascending (LiquidityCheck.sortByLiquidity l)
    /\ Permutation l (LiquidityCheck.sortByLiquidity l).
Proof.
  intro l. unfold LiquidityCheck.sortByLiquidity.
  destruct (sortByLiquidity_acc l [] I) as [A P].
  split; [exact A|]. rewrite app_nil_r in P. exact P.
Qed.
End LiquidityReport.
(** X10. The report of [checkLiquidity] holds the assessments of the
    positions of the watchlist, each once, in ascending order of
    liquidity.  A position is reported as ERROR exactly when
    [fetchLiquidity] gave null for it, and then with liquidity 0 and no
    exit, so the failed look-ups come first. *)
Theorem checkLiquidity_report :
  forall fetch positions,
    ascending (LiquidityCheck.checkLiquidity fetch positions)
    /\ Permutation (map (reportOf fetch) positions)
         (LiquidityCheck.checkLiquidity fetch positions)
    /\ List.length (LiquidityCheck.checkLiquidity fetch positions)
       = List.length positions
    /\ (forall pos,
          isError (LiquidityCheck.ls_status (reportOf fetch pos)) = true
          <-> LiquidityCheck.fetchLiquidity (fetch (LiquidityCheck.address pos))
              = None)
    /\ (forall pos,
          LiquidityCheck.fetchLiquidity (fetch (LiquidityCheck.address pos)) = None ->
          LiquidityCheck.ls_canExit (reportOf fetch pos) = false
          /\ LiquidityCheck.ls_liquidity (reportOf fetch pos) = 0).
Proof.
  intros fetch positions. unfold LiquidityCheck.checkLiquidity.
  fold (reportOf fetch).
  change (fun pos => LiquidityCheck.assess pos
            (LiquidityCheck.fetchLiquidity (fetch (LiquidityCheck.address pos))))
    with (reportOf fetch).
  destruct (sortByLiquidity_sorts (map (reportOf fetch) positions)) as [A P].
  split; [exact A|]. split; [exact P|]. split.
  - rewrite <- (Permutation_length P). apply length_map.
  - split.
    + intro pos. unfold reportOf, LiquidityCheck.assess.
      destruct (LiquidityCheck.fetchLiquidity _) as [data|].
      * cbn [LiquidityCheck.ls_status]. unfold LiquidityCheck.getStatus.
        destruct (Qltb _ _); [split; discriminate|].
        destruct (Qltb _ _); split; discriminate.
      * split; reflexivity.
    + intros pos N. unfold reportOf. rewrite N. split; reflexivity.
Qed.

(** X11. [getStrandedPositions] returns, in the order of the watchlist,
    the symbols of exactly the positions that [checkLiquidity] reports as
    STRANDED; the positions it reports as ERROR are not among them. *)
Theorem stranded_list_matches_report :
  forall fetch positions,
    LiquidityCheck.getStrandedPositions fetch positions
    = map LiquidityCheck.symbol
        (filter (fun pos => isStranded (LiquidityCheck.ls_status (reportOf fetch pos)))
                positions).
Proof.
  intros fetch positions.
  induction positions as [|pos rest IH]; simpl; [reflexivity|].
  unfold reportOf at 1. unfold LiquidityCheck.assess.
  destruct (LiquidityCheck.fetchLiquidity _) as [data|].
  - cbn [LiquidityCheck.ls_status]. unfold LiquidityCheck.getStatus.
    destruct (Qltb (LiquidityCheck.ld_liquidity data) LiquidityCheck.LIQUIDITY_CRITICAL).
    + simpl. rewrite IH. reflexivity.
    + destruct (Qltb _ _); simpl; exact IH.
  - simpl. exact IH.
Qed.

(* ------------------------------------------------------------------ *)
(** ** The steps of the sell pipelines                                   *)
(* ------------------------------------------------------------------ *)
(** X12. The sell scripts go through the same steps in the same order:
    whatever the outside world answers, the trace of a run is a beginning
    of quote, build, sign, broadcast, wait for confirmation (for the
    one-off sell with no retry option in the broadcast), and a run that
    returns has gone through all five. *)
Theorem sell_steps_in_order :
  forall env mint amount slippage tokenAmount decimals,
    startsWith (trace (ExecuteSell.main env mint amount slippage)) fullTrace
    /\ startsWith (trace (SellToken.main env mint tokenAmount decimals)) fullTrace
    /\ startsWith (trace (JupiterSell.sellTokens env mint amount)) fullTrace
    /\ startsWith (trace (BagsSell.sellTokens env mint amount)) fullTrace
    /\ startsWith (trace (SellCreacher.main env)) creacherTrace
    /\ (isReturned (outcome (ExecuteSell.main env mint amount slippage)) = true ->
        trace (ExecuteSell.main env mint amount slippage) = fullTrace)
    /\ (isReturned (outcome (SellToken.main env mint tokenAmount decimals)) = true ->
        trace (SellToken.main env mint tokenAmount decimals) = fullTrace)
    /\ (isReturned (outcome (JupiterSell.sellTokens env mint amount)) = true ->
        trace (JupiterSell.sellTokens env mint amount) = fullTrace)
    /\ (isReturned (outcome (BagsSell.sellTokens env mint amount)) = true ->
        trace (BagsSell.sellTokens env mint amount) = fullTrace).
Proof.
  intros env mint amount slippage tokenAmount decimals.
  split; [prefix_cases|]. split; [prefix_cases|]. split; [prefix_cases|].
  split; [prefix_cases|]. split; [prefix_cases|].
  split; [prefix_cases|]. split; [prefix_cases|]. split; prefix_cases.
Qed.




(** X14. [executeSell] returns a result only after a confirmation
    without error: the result then has [success: true], the signature the
    send answered, the out amount of the quote in SOL and its price
    impact, and the run went through all five steps. *)
Theorem executeSell_returns_only_when_confirmed :
  forall env mint amount slippage r,
    outcome (ExecuteSell.executeSell env mint amount slippage) = Returned r ->
    confirmAnswer env = Confirmed
    /\ trace (ExecuteSell.executeSell env mint amount slippage) = fullTrace
    /\ success r = true
    /\ sendAnswer env = Ok (signature r)
    /\ exists q, quoteAnswer env = Ok q
                 /\ qa_success q = true
                 /\ solReceived r = outAmount (qa_quote q) / LAMPORTS_PER_SOL
                 /\ priceImpact r = priceImpactPct (qa_quote q).
Proof.
  intros env mint amount slippage r.
  unfold_run.
  destruct (keysOk env); [|discriminate].
  destruct (quoteAnswer env) as [q|e]; [|discriminate].
  cbn [fst snd app].
  destruct (qa_success q) eqn:S; [|discriminate]. cbn [negb].
  destruct (routePlan (qa_quote q)); [|discriminate].
  destruct (swapAnswer env) as [s|e]; [|discriminate].
  cbn [fst snd app].
  destruct (sa_success s); [|discriminate]. cbn [negb].
  destruct (decodeOk env); [|discriminate].
  destruct (versionedOk env), (legacyOk env); cbn [fst snd app];
    try discriminate;
    (destruct (sendAnswer env) as [sg|e]; [|discriminate]);
    cbn [fst snd app];
    (destruct (blockhashOk env); [|discriminate]);
    cbn [fst snd app];
    (destruct (confirmAnswer env); try discriminate);
    cbn [fst snd app];
    intro H; inversion H; subst r; clear H;
    cbn [success signature solReceived priceImpact];
    (split; [reflexivity|]); (split; [reflexivity|]); (split; [reflexivity|]);
    (split; [reflexivity|]);
    exists q; (split; [reflexivity|]); (split; [exact S|]);
    split; reflexivity.
Qed.

Lemma executeSell_returns_only_when_confirmed_witness :
  confirmAnswer (sampleEnv 0.3 None Confirmed) = Confirmed
  /\ trace (ExecuteSell.executeSell (sampleEnv 0.3 None Confirmed)
                                    sampleMint 510000 100)
     = fullTrace.
Proof.
  destruct (executeSell_returns_only_when_confirmed
              (sampleEnv 0.3 None Confirmed) sampleMint 510000 100%Z
              {| success := true; signature := sampleSignature;
                 solReceived := 500000000 / LAMPORTS_PER_SOL;
                 priceImpact := 0.3 |}
              eq_refl)
    as [C [T _]].
  split; [exact C|exact T].
Defined.

(* ------------------------------------------------------------------ *)
(** ** The position value tracker                                        *)
(* ------------------------------------------------------------------ *)
Section TrackerProperties.
Import PositionValue PositionTracker.
Lemma getSellQuote_waits :
  forall n fuel replies start,
    (forall k, (k < n)%nat -> replies (start + k)%nat = RateLimited) ->
    getSellQuote (n + fuel) replies start
    = getSellQuote fuel replies (start + n)%nat.
Proof.
  induction n as [|n IH]; intros fuel replies start H.
  - rewrite Nat.add_0_r. reflexivity.
  - cbn [Nat.add getSellQuote].
    pose proof (H 0%nat ltac:(lia)) as H0. rewrite Nat.add_0_r in H0.
    rewrite H0, IH.
    + f_equal. lia.
    + intros k Hk. replace (S start + k)%nat with (start + S k)%nat by lia.
      apply H. lia.
Qed.
Lemma valuationLoop_acc :
  forall quoteFor positions results c s,
    valuationLoop quoteFor positions results c s
    = ((results ++ map (fun pos => PositionValue.valuePosition pos (quoteFor pos))
                      positions)%list,
       snd (fst (portfolioLoop quoteFor positions [] c s)),
       snd (portfolioLoop quoteFor positions [] c s)).
Proof.
  intros quoteFor positions.
  assert (P : forall positions r r' c s,
             snd (fst (portfolioLoop quoteFor positions r c s))
             = snd (fst (portfolioLoop quoteFor positions r' c s))
             /\ snd (portfolioLoop quoteFor positions r c s)
                = snd (portfolioLoop quoteFor positions r' c s)).
  { induction positions0 as [|pos rest IH]; intros r r' c s;
      cbn [portfolioLoop]; [split; reflexivity|].
    destruct (quoteFor pos); apply IH. }
  induction positions as [|pos rest IH]; intros results c s.
  - cbn. rewrite app_nil_r. reflexivity.
  - cbn [valuationLoop portfolioLoop map].
    destruct (quoteFor pos) as [q|]; rewrite IH, <- app_assoc; cbn [app].
    + destruct (P rest [] ([] ++ [portfolioEntry pos q])%list
                  (c + PositionValue.costBasis pos)
                  (s + PositionValue.outSol q)) as [E1 E2].
      rewrite E1, E2. reflexivity.
    + reflexivity.
Qed.

Lemma portfolioLoop_acc :
  forall quoteFor positions results c s,
    fst (fst (portfolioLoop quoteFor positions results c s))
    = (results ++ fst (fst (portfolioLoop quoteFor positions [] c s)))%list
    /\ map PositionValue.pv_symbol
           (fst (fst (portfolioLoop quoteFor positions [] c s)))
       = map PositionValue.symbol (filter (quoted quoteFor) positions).
Proof.
  intros quoteFor.
  assert (A : forall positions results c s,
             fst (fst (portfolioLoop quoteFor positions results c s))
             = (results ++ fst (fst (portfolioLoop quoteFor positions [] 0 0)))%list).
  { induction positions as [|pos rest IH]; intros results c s.
    - cbn. rewrite app_nil_r. reflexivity.
    - cbn [portfolioLoop]. destruct (quoteFor pos) as [q|].
      + rewrite IH. rewrite (IH ([] ++ _)%list). cbn [app].
        rewrite <- app_assoc. reflexivity.
      + apply IH. }
  intros positions results c s. split.
  - rewrite A. rewrite (A positions [] c s). reflexivity.
  - revert c s. induction positions as [|pos rest IH]; intros c s;
      [reflexivity|].
    cbn [portfolioLoop filter]. unfold quoted at 1.
    destruct (quoteFor pos) as [q|].
    + rewrite A. rewrite map_app. cbn [app map]. rewrite (IH 0 0).
      reflexivity.
    + apply IH.
Qed.
Lemma profit_test_agrees :
  forall s c : Q, 0 < c ->
    js_ge (match js_div s c with Num r => Num ((r - 1) * 100) | other => other end)
          (Num 0)
    = Qle_bool c s.
Proof.
  intros s c Hc. unfold js_div.
  assert (Qeq_bool c 0 = false) as ->.
  { apply not_true_is_false. intro E. apply Qeq_bool_iff in E. lra. }
  unfold js_ge, js_le.
  assert (R : s == (s / c) * c) by (field; lra).
  set (r := s / c) in *.
  apply eq_true_iff_eq. rewrite !Qle_bool_iff. split; intro H.
  - assert (1 <= r) by lra. nra.
  - assert (1 <= r) by nra. lra.
Qed.
(** X17. [getSellQuote] asks again after every answer with status 429,
    with no bound: when the first [n] requests are rejected that way, no
    run of [n] requests or fewer has resolved, and if the next request
    meets anything else the call resolves after exactly [n + 1]
    requests. *)
Theorem getSellQuote_retries_every_rate_limit :
  forall replies start n,
    (forall k, (k < n)%nat -> replies (start + k)%nat = RateLimited) ->
    (forall fuel, (fuel <= n)%nat -> getSellQuote fuel replies start = None)
    /\ (replies (start + n)%nat <> RateLimited ->
        forall fuel, (n < fuel)%nat ->
          exists q, getSellQuote fuel replies start = Some (q, S (start + n))).
Proof.
  intros replies start n H. split.
  - intros fuel Hf.
    replace n with (fuel + (n - fuel))%nat in H by lia.
    replace fuel with (fuel + 0)%nat at 1 by lia.
    rewrite getSellQuote_waits; [reflexivity|].
    intros k Hk. apply H. lia.
  - intros Hn fuel Hf.
    replace fuel with (n + S (fuel - S n))%nat by lia.
    rewrite getSellQuote_waits by exact H.
    cbn [getSellQuote].
    destruct (replies (start + n)%nat) as [[|] [[o i]|]| |];
      try congruence; eexists; reflexivity.
Qed.

Lemma getSellQuote_retries_every_rate_limit_witness :
  PositionTracker.getSellQuote 2 busyTwice 0 = None
  /\ exists q, PositionTracker.getSellQuote 3 busyTwice 0 = Some (q, 3%nat).
Proof.
  destruct (getSellQuote_retries_every_rate_limit busyTwice 0 2) as [A B].
  - intros k Hk. destruct k as [|[|k]]; [reflexivity|reflexivity|lia].
  - split; [apply A; lia|]. apply B; [discriminate|lia].
Defined.

(** X18. [checkPositionValues] and [getPortfolioValue] compute the same
    two totals, over the positions that got a quote.  The first lists
    every position of the watchlist, in order, and marks as ERROR exactly
    those without a quote; the second lists only the quoted ones. *)
Theorem tracker_totals :
  forall quoteFor positions,
    snd (fst (valuationLoop quoteFor positions [] 0 0))
    = snd (fst (portfolioLoop quoteFor positions [] 0 0))
    /\ snd (valuationLoop quoteFor positions [] 0 0)
       = snd (portfolioLoop quoteFor positions [] 0 0)
    /\ fst (fst (valuationLoop quoteFor positions [] 0 0))
       = map (fun pos => PositionValue.valuePosition pos (quoteFor pos)) positions
    /\ List.length (fst (fst (valuationLoop quoteFor positions [] 0 0)))
       = List.length positions
    /\ map PositionValue.pv_symbol
           (fst (fst (portfolioLoop quoteFor positions [] 0 0)))
       = map PositionValue.symbol (filter (quoted quoteFor) positions)
    /\ (forall r,
          In r (fst (fst (valuationLoop quoteFor positions [] 0 0))) ->
          (PositionValue.pv_status r = PositionValue.ERROR <->
           exists pos, In pos positions /\ quoteFor pos = None
                       /\ r = PositionValue.valuePosition pos None)).
Proof.
  intros quoteFor positions.
  rewrite valuationLoop_acc. cbn [fst snd app].
  split; [reflexivity|]. split; [reflexivity|]. split; [reflexivity|].
  split; [rewrite length_map; reflexivity|].
  split; [apply (proj2 (portfolioLoop_acc quoteFor positions [] 0 0))|].
  intros r Hr. apply in_map_iff in Hr. destruct Hr as [pos [E I]].
  split.
  - intro St. exists pos. split; [exact I|].
    destruct (quoteFor pos) as [q|] eqn:Q.
    + subst r. cbn [PositionValue.valuePosition PositionValue.pv_status] in St.
      destruct (_ || _); [discriminate|].
      destruct (js_ge _ _); discriminate.
    + split; [reflexivity|]. symmetry; exact E.
  - intros [pos' [_ [_ E']]]. subst r. rewrite E'. reflexivity.
Qed.

(** X19. For a position with a positive cost basis whose notes do not
    say NEVER without saying DIAMOND, the entries [checkPositionValues]
    and [getPortfolioValue] compute agree in every field except [notes],
    which only [checkPositionValues] copies: testing the P&L percent
    against 0 and testing the sell value against the cost basis agree.
    The two entries are the same exactly when the position has no
    notes. *)
Theorem tracker_entries_agree :
  forall pos quote,
    0 < costBasis pos ->
    (notesInclude (notes pos) "NEVER" = true ->
     notesInclude (notes pos) "DIAMOND" = true) ->
    portfolioEntry pos quote = withoutNotes (valuePosition pos (Some quote))
    /\ pv_notes (valuePosition pos (Some quote)) = notes pos
    /\ pv_notes (portfolioEntry pos quote) = None
    /\ (valuePosition pos (Some quote) = portfolioEntry pos quote
        <-> notes pos = None).
Proof.
  intros pos quote Hc Hn.
  assert (E : portfolioEntry pos quote
              = withoutNotes (valuePosition pos (Some quote))).
  { unfold valuePosition, portfolioEntry, withoutNotes. cbv zeta.
    cbn [pv_symbol pv_address pv_tokens pv_costBasis pv_sellValueSol
         pv_sellValueUsd pv_pnlSol pv_pnlPercent pv_priceImpact pv_status].
    f_equal. rewrite (profit_test_agrees _ _ Hc).
    destruct (notesInclude (notes pos) "DIAMOND"); [reflexivity|].
    destruct (notesInclude (notes pos) "NEVER"); [|reflexivity].
    discriminate (Hn eq_refl). }
  split; [exact E|]. split; [reflexivity|]. split; [reflexivity|].
  split.
  - intro H. apply (f_equal pv_notes) in H. exact H.
  - intro N. rewrite E. unfold withoutNotes, valuePosition. cbv zeta.
    cbn [pv_symbol pv_address pv_tokens pv_costBasis pv_sellValueSol
         pv_sellValueUsd pv_pnlSol pv_pnlPercent pv_priceImpact pv_status].
    rewrite N. reflexivity.
Qed.

Lemma tracker_entries_agree_witness :
  PositionValue.valuePosition heldForTracker (Some exitQuote)
  = PositionTracker.portfolioEntry heldForTracker exitQuote.
Proof.
  apply (proj2 (proj2 (proj2 (tracker_entries_agree heldForTracker exitQuote
                                 eq_refl (fun H => False_ind _ (diff_false_true H)))))).
  reflexivity.
Defined.

End TrackerProperties.

(* ------------------------------------------------------------------ *)
(** ** The performance report                                            *)
(* ------------------------------------------------------------------ *)
Section PerformanceProperties.
Import Performance.
Lemma sumOf_acc :
  forall A (f : A -> Q) l a,
    fold_left (fun sum t => sum + f t) l a == a + sumOf f l.
Proof.
  intros A f l. unfold sumOf.
  induction l as [|x l IH]; intro a; cbn [fold_left].
  - lra.
  - rewrite IH. rewrite (IH (0 + f x)). lra.
Qed.

Lemma sumOf_cons :
  forall A (f : A -> Q) x l, sumOf f (x :: l) == f x + sumOf f l.
Proof.
  intros. unfold sumOf at 1. cbn [fold_left]. rewrite sumOf_acc. lra.
Qed.

Lemma sumOf_split :
  forall l,
    sumOf pnl l
    == sumOf pnl (filter (fun t => Qltb 0 (pnl t)) l)
       + sumOf pnl (filter (fun t => Qle_bool (pnl t) 0) l)
    /\ sumOf pnl (filter (fun t => Qle_bool (pnl t) 0) l) <= 0
    /\ 0 <= sumOf pnl (filter (fun t => Qltb 0 (pnl t)) l)
    /\ (List.length (filter (fun t => Qltb 0 (pnl t)) l)
        + List.length (filter (fun t => Qle_bool (pnl t) 0) l)
        = List.length l)%nat.
Proof.
  induction l as [|x l [IH1 [IH2 [IH3 IH4]]]].
  - cbn. split; [lra|]. split; [lra|]. split; [lra|]. reflexivity.
  - cbn [filter].
    replace (Qltb 0 (pnl x)) with (negb (Qle_bool (pnl x) 0)) by reflexivity.
    destruct (Qle_bool (pnl x) 0) eqn:E; cbn [negb length].
    + apply Qle_bool_iff in E. rewrite !sumOf_cons.
      split; [lra|]. split; [lra|]. split; [lra|]. lia.
    + assert (0 < pnl x).
      { apply Qnot_le_lt. intro H. apply Qle_bool_iff in H. congruence. }
      rewrite !sumOf_cons.
      split; [lra|]. split; [lra|]. split; [lra|]. lia.
Qed.

Lemma abs_nonpos : forall x, x <= 0 -> abs x == - x.
Proof.
  intros x H. unfold abs, Qltb.
  destruct (Qle_bool 0 x) eqn:E; cbn [negb]; [|reflexivity].
  apply Qle_bool_iff in E. lra.
Qed.

Lemma ofNat_add : forall a b, ofNat (a + b) == ofNat a + ofNat b.
Proof.
  intros. unfold ofNat. rewrite Nat2Z.inj_add, inject_Z_plus. reflexivity.
Qed.

Lemma ofNat_pos : forall n, (0 < n)%nat -> 0 < ofNat n.
Proof.
  intros n H. unfold ofNat. change 0 with (inject_Z 0).
  rewrite <- Zlt_Qlt. lia.
Qed.

Lemma ofNat_nonneg : forall n, 0 <= ofNat n.
Proof.
  intros n. unfold ofNat. change 0 with (inject_Z 0).
  rewrite <- Zle_Qle. lia.
Qed.
Lemma best_fold :
  forall l init,
    let b := fold_left (fun best t => if Qltb (pnlPct best) (pnlPct t) then t else best)
                       l init in
    (b = init \/ In b l)
    /\ pnlPct init <= pnlPct b
    /\ forall t, In t l -> pnlPct t <= pnlPct b.
Proof.
  induction l as [|x l IH]; intros init; cbn [fold_left].
  - split; [left; reflexivity|]. split; [apply Qle_refl|]. intros t [].
  - cbv zeta in IH |- *.
    destruct (Qltb (pnlPct init) (pnlPct x)) eqn:E.
    + apply Qltb_true in E.
      destruct (IH x) as [M [B A]].
      split; [right; destruct M as [->|M]; [left; reflexivity|right; exact M]|].
      split; [lra|].
      intros t [<-|I]; [exact B|apply A; exact I].
    + apply Qltb_false in E.
      destruct (IH init) as [M [B A]].
      split; [destruct M as [M|M]; [left; exact M|right; right; exact M]|].
      split; [exact B|].
      intros t [<-|I]; [lra|apply A; exact I].
Qed.

Lemma worst_fold :
  forall l init,
    let w := fold_left (fun worst t => if Qltb (pnlPct t) (pnlPct worst) then t else worst)
                       l init in
    (w = init \/ In w l)
    /\ pnlPct w <= pnlPct init
    /\ forall t, In t l -> pnlPct w <= pnlPct t.
Proof.
  induction l as [|x l IH]; intros init; cbn [fold_left].
  - split; [left; reflexivity|]. split; [apply Qle_refl|]. intros t [].
  - cbv zeta in IH |- *.
    destruct (Qltb (pnlPct x) (pnlPct init)) eqn:E.
    + apply Qltb_true in E.
      destruct (IH x) as [M [B A]].
      split; [right; destruct M as [->|M]; [left; reflexivity|right; exact M]|].
      split; [lra|].
      intros t [<-|I]; [exact B|apply A; exact I].
    + apply Qltb_false in E.
      destruct (IH init) as [M [B A]].
      split; [destruct M as [M|M]; [left; exact M|right; right; exact M]|].
      split; [exact B|].
      intros t [<-|I]; [lra|apply A; exact I].
Qed.
(** X20. When [analyzePerformance] reports, there is at least one
    closed trade, every closed trade is counted once, as a win (pnl > 0)
    or as a loss (pnl <= 0), and the win rate lies between 0 and 100. *)
Theorem performance_counts :
  forall closedData positionsData s,
    analyzePerformance closedData positionsData = Some s ->
    (0 < totalTrades s)%nat
    /\ (winCount s + lossCount s = totalTrades s)%nat
    /\ closedData <> None
    /\ (forall closed, closedData = Some closed ->
          totalTrades s = List.length closed)
    /\ 0 <= winRate s <= 100.
Proof.
  intros closedData positionsData s H. unfold analyzePerformance in H.
  destruct closedData as [closed|]; [|discriminate].
  destruct closed as [|first rest]; [discriminate|].
  cbv beta iota zeta in H.
  assert (N : (0 < List.length (first :: rest))%nat) by (cbn; lia).
  remember (first :: rest) as closed eqn:Ec in H, N.
  injection H as <-.
  cbn [totalTrades winCount lossCount winRate].
  destruct (sumOf_split closed) as [_ [_ [_ L]]].
  set (w := List.length (filter (fun t => Qltb 0 (pnl t)) closed)) in *.
  set (l := List.length (filter (fun t => Qle_bool (pnl t) 0) closed)) in *.
  split; [exact N|]. split; [exact L|]. split; [discriminate|].
  split; [intros c E; injection E as <-; rewrite Ec; reflexivity|].
  pose proof (ofNat_pos _ N) as Pn. pose proof (ofNat_nonneg w) as Pw.
  pose proof (ofNat_nonneg l) as Pl.
  assert (S : ofNat (List.length closed) == ofNat w + ofNat l)
    by (rewrite <- L; apply ofNat_add).
  assert (R : ofNat w == (ofNat w / ofNat (List.length closed))
                         * ofNat (List.length closed)) by (field; lra).
  set (r := ofNat w / ofNat (List.length closed)) in *.
  assert (0 <= r) by nra. assert (r <= 1) by nra.
  split; lra.
Qed.

Lemma performance_counts_witness :
  exists s,
    Performance.analyzePerformance (Some closedTrades) None = Some s
    /\ (Performance.winCount s + Performance.lossCount s
        = Performance.totalTrades s)%nat.
Proof.
  eexists. split; [reflexivity|].
  exact (proj1 (proj2 (performance_counts (Some closedTrades) None _ eq_refl))).
Defined.

(** X21. In exact arithmetic the expectancy [analyzePerformance] reports,
    win rate times average win minus loss rate times average loss, is
    the total P&L divided by the number of closed trades. *)
Theorem expectancy_is_average_pnl :
  forall closedData positionsData s,
    analyzePerformance closedData positionsData = Some s ->
    expectancy s == totalPnL s / ofNat (totalTrades s).
Proof.
  intros closedData positionsData s H. unfold analyzePerformance in H.
  destruct closedData as [closed|]; [|discriminate].
  destruct closed as [|first rest]; [discriminate|].
  cbv beta iota zeta in H.
  assert (N : (0 < List.length (first :: rest))%nat) by (cbn; lia).
  remember (first :: rest) as closed eqn:Ec in H, N.
  injection H as <-.
  cbn [totalTrades expectancy totalPnL].
  destruct (sumOf_split closed) as [T [Ln [Wp L]]].
  set (wins := filter (fun t => Qltb 0 (pnl t)) closed) in *.
  set (losses := filter (fun t => Qle_bool (pnl t) 0) closed) in *.
  pose proof (ofNat_pos _ N) as Pn.
  assert (S : ofNat (List.length closed)
              == ofNat (List.length wins) + ofNat (List.length losses))
    by (rewrite <- L; apply ofNat_add).
  pose proof (abs_nonpos _ Ln) as Ab.
  set (n := ofNat (List.length closed)) in *.
  assert (W : (ofNat (List.length wins) / n * 100 / 100)
              * (if (0 <? List.length wins)%nat
                 then sumOf pnl wins / ofNat (List.length wins) else 0)
              == sumOf pnl wins / n).
  { destruct wins as [|x wins'] eqn:Ew.
    - cbn [length Nat.ltb Nat.leb]. unfold sumOf; cbn [fold_left]. field. lra.
    - assert (0 < ofNat (List.length (x :: wins'))) by (apply ofNat_pos; cbn; lia).
      replace (0 <? List.length (x :: wins'))%nat with true by reflexivity.
      field. lra. }
  assert (Lo : ((100 - ofNat (List.length wins) / n * 100) / 100)
               * (if (0 <? List.length losses)%nat
                  then abs (sumOf pnl losses) / ofNat (List.length losses)
                  else 0)
               == - sumOf pnl losses / n).
  { destruct losses as [|x losses'] eqn:El.
    - cbn [length Nat.ltb Nat.leb]. unfold sumOf; cbn [fold_left]. field. lra.
    - assert (0 < ofNat (List.length (x :: losses'))) by (apply ofNat_pos; cbn; lia).
      replace (0 <? List.length (x :: losses'))%nat with true by reflexivity.
      assert (E : 100 - ofNat (List.length wins) / n * 100
                  == ofNat (List.length (x :: losses')) / n * 100)
        by (field_simplify_eq; lra).
      rewrite E, Ab. field. lra. }
  rewrite W, Lo, T. field. lra.
Qed.

Lemma expectancy_is_average_pnl_witness :
  exists s,
    Performance.analyzePerformance (Some closedTrades) None = Some s
    /\ Performance.expectancy s
       == Performance.totalPnL s / Performance.ofNat (Performance.totalTrades s).
Proof.
  eexists. split; [reflexivity|].
  exact (expectancy_is_average_pnl (Some closedTrades) None _ eq_refl).
Defined.

(** X22. The best and the worst trade of the report are closed trades,
    and the P&L percent of every closed trade lies between theirs. *)
Theorem best_and_worst_trade :
  forall closed positionsData s,
    analyzePerformance (Some closed) positionsData = Some s ->
    In (bestTrade s) closed
    /\ In (worstTrade s) closed
    /\ forall t, In t closed ->
         pnlPct (worstTrade s) <= pnlPct t <= pnlPct (bestTrade s).
Proof.
  intros closed positionsData s H. unfold analyzePerformance in H.
  destruct closed as [|first rest]; [discriminate|].
  cbv beta iota zeta in H.
  assert (F : In first (first :: rest)) by (left; reflexivity).
  remember (first :: rest) as closed eqn:Ec in H, F |- *.
  injection H as <-.
  cbn [bestTrade worstTrade].
  pose proof (best_fold closed first) as B. cbv zeta in B.
  pose proof (worst_fold closed first) as W. cbv zeta in W.
  destruct B as [Mb [_ Ab]]. destruct W as [Mw [_ Aw]].
  split; [destruct Mb as [Mb|Mb]; [rewrite Mb; exact F|exact Mb]|].
  split; [destruct Mw as [Mw|Mw]; [rewrite Mw; exact F|exact Mw]|].
  intros t I. split; [apply Aw|apply Ab]; exact I.
Qed.

Lemma best_and_worst_trade_witness :
  exists s,
    Performance.analyzePerformance (Some closedTrades) None = Some s
    /\ In (Performance.bestTrade s) closedTrades.
Proof.
  eexists. split; [reflexivity|].
  exact (proj1 (best_and_worst_trade closedTrades None _ eq_refl)).
Defined.

End PerformanceProperties.
